(** * unarchive.py: restore orchestration for archived Object Storage objects

    A shallow embedding of [src/unarchive.py].  The script lists a bucket
    page by page, selects the archived objects of every page, sends one
    restore request per selected object through a thread pool and adds the
    per-object results into one [Status].  A resumed run reads the position
    of the previous run from the tail of the log file.

    The storage client, the bucket-configuration client, the clock of the
    logging module and the regular-expression library are not part of the
    script.  The clients and the clock are variables of the section
    [Unarchive]; the fragment of [re] that [LOG_RE_PATTERN] needs is embedded
    as a small backtracking matcher.  Files are ASCII strings: the script
    decodes every line of the log with UTF-8, which is the identity there. *)

From Stdlib Require Import ZArith Ascii String DecimalString Permutation.
From Stdlib Require DecimalPos.
From stdpp Require Import gmap strings list fin_maps.

Local Open Scope Z_scope.

(* ===================================================================== *)
(** ** Python values used by the script *)
(* ===================================================================== *)

(** Characters that cannot be written inside a literal. *)
Definition dquote : ascii := "034"%char.
Definition newline : ascii := "010"%char.
Definition escape : ascii := "027"%char.

Definition nl : string := String newline EmptyString.

(** [str(n)] for a Python int. *)
Definition str_int (n : Z) : string := NilZero.string_of_int (Z.to_int n).

(** [bool(s)] for a Python str: the empty string is falsy. *)
Definition truthy (s : string) : bool :=
  match s with
  | EmptyString => false
  | String _ _ => true
  end.

(** [bool(o)] for a value that is [None] or a str. *)
Definition truthy_opt (o : option string) : bool :=
  match o with
  | None => false
  | Some s => truthy s
  end.

(** [c * n] for a one-character string [c]. *)
Fixpoint replicate_char (n : nat) (c : ascii) : string :=
  match n with
  | O => EmptyString
  | S k => String c (replicate_char k c)
  end.

(** [f"{n:010}"]: sign first, then zeros up to a total width of ten. *)
Definition fmt_010 (n : Z) : string :=
  let digits := str_int (Z.abs n) in
  let sign := if n <? 0 then "-" else EmptyString in
  let width := (String.length sign + String.length digits)%nat in
  sign +:+ replicate_char (10 - width) "0"%char +:+ digits.

(** [needle in s] for two strings. *)
Fixpoint contains (needle s : string) : bool :=
  if String.prefix needle s then true
  else match s with
       | EmptyString => false
       | String _ rest => contains needle rest
       end.

(** [int(s)] for a string of decimal digits; the matcher below only hands
    such strings to it. *)
Definition digit_value (c : ascii) : Z := Z.of_nat (nat_of_ascii c) - 48.

Fixpoint int_of_digits_from (acc : Z) (s : string) : Z :=
  match s with
  | EmptyString => acc
  | String c rest => int_of_digits_from (10 * acc + digit_value c) rest
  end.

Definition int_of_digits (s : string) : Z := int_of_digits_from 0 s.

(** [math.ceil(a / b)] for ints with [b <> 0].  The script divides in
    floating point; the quotient of two ints is correctly rounded, and for
    object counts below [2^43] and a divisor of at most 1000 the rounding
    never reaches the next integer, so the ceiling is the exact one. *)
Definition math_ceil_div (a b : Z) : Z := - ((- a) / b).

(** Instances of [Exception].  [except ClientError] takes the first kind,
    [except Exception] takes both; [cls] is the class of any other one. *)
Inductive py_exception :=
| ClientError (msg : string)
| Exception (cls msg : string).

(** [str(e)] *)
Definition str_error (e : py_exception) : string :=
  match e with
  | ClientError msg => msg
  | Exception _ msg => msg
  end.

(** What a statement can raise: an [Exception], or the [SystemExit] of
    [exit(code)], which no [except] clause of the script catches. *)
Inductive exn :=
| Err (e : py_exception)
| SystemExit (code : Z).

Inductive res (A : Type) :=
| Ok (a : A)
| Raise (e : exn).
Arguments Ok {A} a.
Arguments Raise {A} e.

(* ===================================================================== *)
(** ** class Status *)
(* ===================================================================== *)

Record Status := mkStatus { error : Z; restored : Z; already_restored : Z }.

Definition increment_error (s : Status) (increment : Z) : Status :=
  mkStatus (error s + increment) (restored s) (already_restored s).

Definition increment_restored (s : Status) (increment : Z) : Status :=
  mkStatus (error s) (restored s + increment) (already_restored s).

Definition increment_already_restored (s : Status) (increment : Z) : Status :=
  mkStatus (error s) (restored s) (already_restored s + increment).

Definition Status_str (s : Status) : string :=
  "[Errors: " +:+ str_int (error s) +:+ ", Already restored: "
    +:+ str_int (already_restored s) +:+ ", Restored: "
    +:+ str_int (restored s) +:+ "]".

(** The three outcomes a per-object restore returns. *)
Definition Restored : Status := mkStatus 0 1 0.
Definition AlreadyRestored : Status := mkStatus 0 0 1.
Definition Error : Status := mkStatus 1 0 0.

(** Number of outcomes a status has absorbed. *)
Definition status_total (s : Status) : Z :=
  error s + restored s + already_restored s.

(** The body of the [as_completed] loop for one finished task. *)
Definition fold_result (status result : Status) : Status :=
  increment_restored
    (increment_already_restored
       (increment_error status (error result))
       (already_restored result))
    (restored result).

(* ===================================================================== *)
(** ** Listing results *)
(* ===================================================================== *)

(** One entry of [page["Contents"]]. *)
Record Object := mkObject { Key : string; StorageClass : string }.

(** A page of [list_objects_v2]; [Contents] is missing from the answer for
    an empty listing, and [page["Contents"]] then raises [KeyError]. *)
Record Page := mkPage { Contents : option (list Object) }.

(** The lambda both listing loops filter with. *)
Definition is_archived (obj : Object) : bool :=
  String.eqb (StorageClass obj) "GLACIER"
  || String.eqb (StorageClass obj) "ACCELERATED".

(** [[object["Key"] for object in filter(..., objects)]] *)
Definition archived_keys (objects : list Object) : list string :=
  map Key (List.filter is_archived objects).

(** Keyword arguments of [paginator.paginate]; [Prefix] is [None] when the
    call leaves it out. *)
Record ListParams := mkListParams {
  Bucket : string;
  Prefix : option string;
  MaxKeys : Z;
  StartAfter : string
}.

(* ===================================================================== *)
(** ** The fragment of [re] used by [LOG_RE_PATTERN] *)
(* ===================================================================== *)

(** One-character patterns: [\d], [.] (anything but a newline) and a
    literal character. *)
Inductive cclass :=
| CDigit
| CAny
| CLit (c : ascii).

Definition is_digit (a : ascii) : bool :=
  let n := nat_of_ascii a in (48 <=? n)%nat && (n <=? 57)%nat.

Definition cmatch (c : cclass) (a : ascii) : bool :=
  match c with
  | CDigit => is_digit a
  | CAny => negb (Ascii.eqb a newline)
  | CLit b => Ascii.eqb a b
  end.

(** Patterns.  Repetition is only needed over one-character patterns. *)
Inductive regex :=
| RChar (c : cclass)
| RSeq (r1 r2 : regex)
| RAlt (r1 r2 : regex)
| RRepeat (n : nat) (c : cclass)
| RStar (c : cclass)
| RStarLazy (c : cclass)
| RPlusLazy (c : cclass)
| RGroup (k : nat) (r : regex).

(** Capture groups, most recently closed first. *)
Definition captures := list (nat * string).

Definition group (k : nat) (caps : captures) : option string :=
  snd <$> List.find (fun p => Nat.eqb (fst p) k) caps.

(** The text between two positions of the subject, the second given by
    what is left of the subject there. *)
Definition consumed (s rest : string) : string :=
  String.substring 0 (String.length s - String.length rest) s.

Section Matcher.
Context {R : Type}.

(** The continuation receives the rest of the subject and the captures;
    [None] makes the matcher backtrack. *)
Definition cont := string -> captures -> option R.

Definition match_char (c : cclass) (s : string) (caps : captures) (k : cont) : option R :=
  match s with
  | String a rest => if cmatch c a then k rest caps else None
  | EmptyString => None
  end.

Fixpoint match_repeat (n : nat) (c : cclass) (s : string) (caps : captures) (k : cont) : option R :=
  match n with
  | O => k s caps
  | S m => match_char c s caps (fun rest caps' => match_repeat m c rest caps' k)
  end.

(** Greedy star: take one more character first, give it back on failure. *)
Fixpoint match_star (c : cclass) (s : string) (caps : captures) (k : cont) : option R :=
  match s with
  | String a rest =>
      if cmatch c a then
        match match_star c rest caps k with
        | Some r => Some r
        | None => k s caps
        end
      else k s caps
  | EmptyString => k s caps
  end.

(** Lazy star: try to go on first, take one more character on failure. *)
Fixpoint match_star_lazy (c : cclass) (s : string) (caps : captures) (k : cont) : option R :=
  match k s caps with
  | Some r => Some r
  | None =>
      match s with
      | String a rest => if cmatch c a then match_star_lazy c rest caps k else None
      | EmptyString => None
      end
  end.

Fixpoint match_at (r : regex) (s : string) (caps : captures) (k : cont) : option R :=
  match r with
  | RChar c => match_char c s caps k
  | RSeq r1 r2 => match_at r1 s caps (fun rest caps' => match_at r2 rest caps' k)
  | RAlt r1 r2 =>
      match match_at r1 s caps k with
      | Some x => Some x
      | None => match_at r2 s caps k
      end
  | RRepeat n c => match_repeat n c s caps k
  | RStar c => match_star c s caps k
  | RStarLazy c => match_star_lazy c s caps k
  | RPlusLazy c => match_char c s caps (fun rest caps' => match_star_lazy c rest caps' k)
  | RGroup g r1 =>
      match_at r1 s caps (fun rest caps' => k rest ((g, consumed s rest) :: caps'))
  end.
End Matcher.

(** [re.search(pattern, s)]: the leftmost match, as its captures. *)
Fixpoint re_search (pattern : regex) (s : string) : option captures :=
  match match_at pattern s [] (fun _ caps => Some caps) with
  | Some caps => Some caps
  | None =>
      match s with
      | String _ rest => re_search pattern rest
      | EmptyString => None
      end
  end.

(** A literal string as a pattern. *)
Fixpoint RLit (c : ascii) (s : string) : regex :=
  match s with
  | EmptyString => RChar (CLit c)
  | String d rest => RSeq (RChar (CLit c)) (RLit d rest)
  end.

Definition RStr (s : string) : regex :=
  match s with
  | EmptyString => RRepeat 0 CAny
  | String c rest => RLit c rest
  end.

Fixpoint RSeqs (rs : list regex) : regex :=
  match rs with
  | [] => RRepeat 0 CAny
  | [r] => r
  | r :: rest => RSeq r (RSeqs rest)
  end.

(** [\d{4}-\d{2}-\d{2} \d{2}:\d{2}:\d{2}.\d{3} - (?:INFO|WARNING) - Object '(.*?)'.*\(index=(\d+?)\).*] *)
Definition LOG_RE_PATTERN : regex :=
  RSeqs [
    RRepeat 4 CDigit; RStr "-"; RRepeat 2 CDigit; RStr "-"; RRepeat 2 CDigit;
    RStr " ";
    RRepeat 2 CDigit; RStr ":"; RRepeat 2 CDigit; RStr ":"; RRepeat 2 CDigit;
    RChar CAny; RRepeat 3 CDigit;
    RStr " - "; RAlt (RStr "INFO") (RStr "WARNING"); RStr " - Object '";
    RGroup 1 (RStarLazy CAny); RStr "'"; RStar CAny;
    RStr "(index="; RGroup 2 (RPlusLazy CDigit); RStr ")"; RStar CAny
  ].

(* ===================================================================== *)
(** ** get_last_n_lines and get_last_object *)
(* ===================================================================== *)

(** [buffer.decode()[::-1]]: the buffer holds the bytes of a line from its
    last to its first. *)
Definition decode_reversed (buffer : list ascii) : string :=
  string_of_list_ascii (rev buffer).

(** The [while pointer_location >= 0] loop.  [bytes] are the bytes still
    to be read, the one nearest to the end of the file first; the read at
    the end-of-file position returns no byte and leaves the buffer as it
    is, so the loop starts with the last byte of the file. *)
Fixpoint scan_backwards (bytes : list ascii) (buffer : list ascii)
    (list_of_lines : list string) (N : Z) : list string :=
  match bytes with
  | [] =>
      if (0 <? length buffer)%nat
      then list_of_lines ++ [decode_reversed buffer]
      else list_of_lines
  | new_byte :: rest =>
      if Ascii.eqb new_byte newline then
        let list_of_lines' := list_of_lines ++ [decode_reversed buffer] in
        if Z.of_nat (length list_of_lines') =? N
        then rev list_of_lines'
        else scan_backwards rest [] list_of_lines' N
      else scan_backwards rest (buffer ++ [new_byte]) list_of_lines N
  end.

(** The file system: path to contents. *)
Abbreviation Files := (gmap string string).

Definition FileNotFoundError (file_name : string) : exn :=
  Err (Exception "FileNotFoundError"
         ("[Errno 2] No such file or directory: '" +:+ file_name +:+ "'")).

Definition get_last_n_lines (fs : Files) (file_name : string) (N : Z) : res (list string) :=
  match fs !! file_name with
  | None => Raise (FileNotFoundError file_name)
  | Some content => Ok (scan_backwards (rev (list_ascii_of_string content)) [] [] N)
  end.

(** The [for line in ...] loop of [get_last_object]. *)
Fixpoint first_match (pattern : regex) (lines : list string) : option (string * Z) :=
  match lines with
  | [] => None
  | line :: rest =>
      match re_search pattern line with
      | Some caps =>
          Some (default EmptyString (group 1 caps),
                int_of_digits (default EmptyString (group 2 caps)))
      | None => first_match pattern rest
      end
  end.

(** The body reads ["unarchive.log"] and 100 lines whatever [file_name]
    and [N] are. *)
Definition get_last_object (fs : Files) (file_name : string) (N : Z) (pattern : regex)
    : res (option (string * Z)) :=
  match get_last_n_lines fs "unarchive.log" 100 with
  | Raise e => Raise e
  | Ok lines => Ok (first_match pattern (rev lines))
  end.

(* ===================================================================== *)
(** ** The world the script runs in *)
(* ===================================================================== *)

Section Unarchive.

(** State of the storage service. *)
Variable Server : Type.

(** [%(asctime)s] of the n-th record the logging module makes. *)
Variable asctime : nat -> string.

(** The client [ibm_boto3.client("s3", ...)] returns.  [head_object]
    answers with the metadata dict of the object ([∅] stands for a falsy
    answer), [restore_object_request] is the client's [restore_object],
    and [paginate] gives the pages the paginator yields when it is
    iterated, ending at the first page that raises. *)
Record Client := mkClient {
  head_object : Server -> string -> string -> (py_exception + gmap string string) * Server;
  restore_object_request : Server -> string -> string -> Z -> (py_exception + unit) * Server;
  paginate : Server -> ListParams -> list (py_exception + Page)
}.

(** [ibm_boto3.client("s3", ibm_api_key_id, ibm_service_instance_id,
    max_pool_connections, endpoint_url)] *)
Variable ibm_boto3_client : string -> string -> Z -> string -> Client.

(** [ResourceConfigurationV1(...).get_bucket_config(bucket).result.get("object_count")]
    for a bucket name and an API key. *)
Variable get_bucket_config : Server -> string -> string -> py_exception + option Z.

(** What the script does to its surroundings, in order. *)
Inductive Event :=
| EvPaginate (params : ListParams)
| EvHead (bucket key : string)
| EvRestore (bucket key : string) (days : Z)
| EvSubmit (key : string) (index : Z)
| EvTqdmTotal (total : option Z)
| EvLog (levelname message : string).

Record World := mkWorld {
  cos_cli : option Client;         (* the global; [None] before main sets it *)
  server : Server;
  fs : Files;
  logging_file : option string;    (* file of the root logger's handler *)
  clock : nat;
  stdout : list string;
  stderr : list string;
  events : list Event
}.

Definition set_cos_cli (c : Client) (w : World) : World :=
  mkWorld (Some c) (server w) (fs w) (logging_file w) (clock w) (stdout w) (stderr w) (events w).
Definition set_server (s : Server) (w : World) : World :=
  mkWorld (cos_cli w) s (fs w) (logging_file w) (clock w) (stdout w) (stderr w) (events w).
Definition add_event (e : Event) (w : World) : World :=
  mkWorld (cos_cli w) (server w) (fs w) (logging_file w) (clock w) (stdout w) (stderr w)
    (events w ++ [e]).
Definition add_stdout (s : string) (w : World) : World :=
  mkWorld (cos_cli w) (server w) (fs w) (logging_file w) (clock w) (stdout w ++ [s])
    (stderr w) (events w).
Definition add_stderr (s : string) (w : World) : World :=
  mkWorld (cos_cli w) (server w) (fs w) (logging_file w) (clock w) (stdout w)
    (stderr w ++ [s]) (events w).

(** *** Statements: state and exceptions *)

Definition M (A : Type) : Type := World -> res A * World.

Definition ret {A} (a : A) : M A := fun w => (Ok a, w).

Definition bind {A B} (m : M A) (f : A -> M B) : M B :=
  fun w =>
    match m w with
    | (Ok a, w') => f a w'
    | (Raise e, w') => (Raise e, w')
    end.

Definition raise {A} (e : py_exception) : M A := fun w => (Raise (Err e), w).

(** [exit(code)] *)
Definition exit {A} (code : Z) : M A := fun w => (Raise (SystemExit code), w).

(** [try: body  except ... as e: handler e]; the clauses of the script
    catch [ClientError] and [Exception] only. *)
Definition try_except {A} (body : M A) (handler : py_exception -> M A) : M A :=
  fun w =>
    match body w with
    | (Raise (Err e), w') => handler e w'
    | r => r
    end.

Definition of_sum {A} (r : py_exception + A) : res A :=
  match r with
  | inl e => Raise (Err e)
  | inr a => Ok a
  end.

#[local] Notation "'let*' x ':=' m 'in' k" := (bind m (fun x => k))
  (at level 10, x name, m at level 100, k at level 200).
#[local] Notation "'do' m 'then' k" := (bind m (fun _ => k))
  (at level 10, m at level 100, k at level 200).

(** [print(s)] and [print(s, end=" ")] *)
Definition print (s : string) : M unit := fun w => (Ok tt, add_stdout (s +:+ nl) w).
Definition print_end_space (s : string) : M unit := fun w => (Ok tt, add_stdout (s +:+ " ") w).

Definition emit (e : Event) : M unit := fun w => (Ok tt, add_event e w).

(** *** logging *)

(** [format="%(asctime)s - %(levelname)s - %(message)s"] and the
    terminator of the handler. *)
Definition format_record (n : nat) (levelname message : string) : string :=
  asctime n +:+ " - " +:+ levelname +:+ " - " +:+ message +:+ nl.

(** One record through the root logger; the clock counts the records.
    Both levels main can set let INFO, WARNING and ERROR through.
    Before [basicConfig] has named a file nothing reaches the file
    system. *)
Definition logging_log (levelname message : string) : M unit :=
  fun w =>
    let fs' :=
      match logging_file w with
      | None => fs w
      | Some path =>
          <[path := default EmptyString (fs w !! path)
                      +:+ format_record (clock w) levelname message]> (fs w)
      end in
    (Ok tt,
     mkWorld (cos_cli w) (server w) fs' (logging_file w) (S (clock w)) (stdout w) (stderr w)
       (events w ++ [EvLog levelname message])).

Definition logging_info := logging_log "INFO".
Definition logging_warning := logging_log "WARNING".
Definition logging_error := logging_log "ERROR".

(** [logging.basicConfig(filename=..., filemode="w", ...)]: does nothing
    when the root logger has a handler; otherwise opens the file for
    writing, which empties it. *)
Definition logging_basicConfig (filename : string) : M unit :=
  fun w =>
    match logging_file w with
    | Some _ => (Ok tt, w)
    | None =>
        (Ok tt,
         mkWorld (cos_cli w) (server w) (<[filename := EmptyString]> (fs w))
           (Some filename) (clock w) (stdout w) (stderr w) (events w))
    end.

(** *** The client *)

(** Reading the global [cos_cli]; the name is unbound until main assigns
    it.  A client object is truthy, so [if not cos_cli] never raises
    once the name is bound. *)
Definition get_cos_cli : M Client :=
  fun w =>
    match cos_cli w with
    | Some c => (Ok c, w)
    | None => (Raise (Err (Exception "NameError" "name 'cos_cli' is not defined")), w)
    end.

Definition cos_head_object (bucket key : string) : M (gmap string string) :=
  let* c := get_cos_cli in
  fun w =>
    let '(r, s) := head_object c (server w) bucket key in
    (of_sum r, add_event (EvHead bucket key) (set_server s w)).

Definition cos_restore_object (bucket key : string) (days : Z) : M unit :=
  let* c := get_cos_cli in
  fun w =>
    let '(r, s) := restore_object_request c (server w) bucket key days in
    (of_sum r, add_event (EvRestore bucket key days) (set_server s w)).

Definition cos_paginate (params : ListParams) : M (list (py_exception + Page)) :=
  let* c := get_cos_cli in
  fun w => (Ok (paginate c (server w) params), add_event (EvPaginate params) w).

(** *** restore_object *)

(** The text ['ongoing-request="false"']. *)
Definition ongoing_request_false : string :=
  "ongoing-request=" +:+ String dquote ("false" +:+ String dquote EmptyString).

(** [bool(object_head)] for the dict the probe answered with. *)
Definition truthy_dict (d : gmap string string) : bool :=
  negb (bool_decide (d = ∅)).

Definition restore_object (bucket_name object_key : string) (days index : Z) : M Status :=
  try_except
    (let* object_head := cos_head_object bucket_name object_key in
     if truthy_dict object_head then
       let restore_status := object_head !! "Restore" in
       if truthy_opt restore_status then
         do (if contains ongoing_request_false (default EmptyString restore_status)
             then logging_warning
                    ("Object '" +:+ object_key +:+ "' (index=" +:+ fmt_010 index
                       +:+ ") has been already restored.")
             else logging_warning
                    ("Object '" +:+ object_key +:+ "' (index=" +:+ fmt_010 index
                       +:+ ") restoration is still in progress."))
         then ret (mkStatus 0 0 1)
       else
         do cos_restore_object bucket_name object_key days
         then do logging_info
                   ("Object '" +:+ object_key +:+ "' (index=" +:+ fmt_010 index
                      +:+ ") has been restored.")
         then ret (mkStatus 0 1 0)
     else
       do logging_error
            ("Object '" +:+ object_key +:+ "' (index=" +:+ fmt_010 index +:+ ") not found.")
       then ret (mkStatus 1 0 0))
    (fun e =>
       do logging_error
            ("Failed to restore object '" +:+ object_key +:+ "' (index=" +:+ str_int index
               +:+ "): " +:+ str_error e)
       then ret (mkStatus 1 0 0)).

(** *** get_page_count *)

(** [sum(1 for _ in pages)]: the iteration raises at the first page that
    does. *)
Fixpoint count_pages (pages : list (py_exception + Page)) (count : Z) : M Z :=
  match pages with
  | [] => ret count
  | inl e :: _ => raise e
  | inr _ :: rest => count_pages rest (count + 1)
  end.

Definition Fore_RED : string := String escape "[31m".
Definition Fore_GREEN : string := String escape "[32m".
Definition Style_RESET_ALL : string := String escape "[0m".

Definition get_page_count (bucket_name : string) (max_keys : Z) (prefix : option string)
    (start_after : string) : M (option Z) :=
  do logging_info ("Retrieving bucket pages from: '" +:+ bucket_name +:+ "'")
  then try_except
    (let* _ := get_cos_cli in
     do print_end_space "Calculating the number of pages..."
     then let* pages :=
       (if negb (truthy_opt prefix)
        then cos_paginate (mkListParams bucket_name None max_keys start_after)
        else cos_paginate (mkListParams bucket_name prefix max_keys start_after)) in
     let* count := count_pages pages 0 in
     do logging_info ("Page count: " +:+ str_int count)
     then do print (Fore_GREEN +:+ str_int count)
     then do print Style_RESET_ALL
     then ret (Some count))
    (fun e =>
       match e with
       | ClientError _ =>
           do print ("CLIENT ERROR: " +:+ str_error e +:+ nl)
           then do logging_error ("CLIENT ERROR: " +:+ str_error e +:+ nl)
           then ret None
       | Exception _ _ =>
           do print ("Unable to retrieve bucket pages: " +:+ str_error e)
           then do logging_error ("Unable to retrieve bucket pages: " +:+ str_error e)
           then ret None
       end).

(** *** restore_objects *)

(** The submission loop of one page.  The pool runs the tasks while the
    loop goes on; here every task runs when it is submitted, which is the
    schedule of a pool that has finished each task before the next
    arrives.  The results are listed in submission order. *)
Fixpoint submit_tasks (bucket_name : string) (days : Z) (archived_objects : list string)
    (index : Z) : M (list Status * Z) :=
  match archived_objects with
  | [] => ret ([], index)
  | object :: rest =>
      do emit (EvSubmit object index)
      then let* result := restore_object bucket_name object days index in
      let* r := submit_tasks bucket_name days rest (index + 1) in
      ret (result :: fst r, snd r)
  end.

(** The [for completed_task in as_completed(tasks)] loop. *)
Definition fold_results (status : Status) (results : list Status) : Status :=
  fold_left fold_result results status.

(** [ThreadPoolExecutor(max_workers=threads)] *)
Definition ThreadPoolExecutor (threads : Z) : M unit :=
  if threads <=? 0
  then raise (Exception "ValueError" "max_workers must be greater than 0")
  else ret tt.

(** The body of [for page in pages]; gives the status and the index the
    next page starts with.  The two progress bars only draw. *)
Definition restore_page (bucket_name : string) (threads days : Z) (page : Page)
    (status : Status) (index : Z) : M (Status * Z) :=
  let* objects :=
    (match Contents page with
     | Some objects => ret objects
     | None => raise (Exception "KeyError" "'Contents'")
     end) in
  let archived_objects := archived_keys objects in
  do ThreadPoolExecutor threads
  then let* r := submit_tasks bucket_name days archived_objects index in
  ret (fold_results status (fst r), snd r).

Fixpoint restore_pages (bucket_name : string) (threads days : Z)
    (pages : list (py_exception + Page)) (status : Status) (index : Z) : M Status :=
  match pages with
  | [] => ret status
  | inl e :: _ => raise e
  | inr page :: rest =>
      let* r := restore_page bucket_name threads days page status index in
      restore_pages bucket_name threads days rest (fst r) (snd r)
  end.

(** [math.ceil(a / b)] as a statement. *)
Definition ceil_div (a b : Z) : M Z :=
  if b =? 0
  then raise (Exception "ZeroDivisionError" "division by zero")
  else ret (math_ceil_div a b).

(** The page count of a listing without prefix. *)
Definition page_count_no_prefix (object_count max_keys : Z) (start_after : string)
    (start_index : Z) : M Z :=
  if negb (truthy start_after)
  then ceil_div object_count max_keys
  else ceil_div (object_count - start_index) max_keys.

Definition str_prefix (prefix : option string) : string :=
  if truthy_opt prefix then default EmptyString prefix else EmptyString.

Definition str_object_count (object_count : Z) : string :=
  if object_count >=? 0 then str_int object_count else EmptyString.

(** The [if not prefix: ... else: ...] block: the pages to go through
    and the page count for the progress bar. *)
Definition list_pages (bucket_name : string) (max_keys : Z) (prefix : option string)
    (start_after : string) (start_index object_count : Z)
    : M (list (py_exception + Page) * option Z) :=
  if negb (truthy_opt prefix) then
    let* pages := cos_paginate (mkListParams bucket_name None max_keys start_after) in
    let* page_count := page_count_no_prefix object_count max_keys start_after start_index in
    ret (pages, Some page_count)
  else
    let* pages := cos_paginate (mkListParams bucket_name prefix max_keys start_after) in
    let* page_count := get_page_count bucket_name max_keys prefix start_after in
    ret (pages, page_count).

(** The two [except] clauses of [restore_objects]; the function then
    ends without a [return], so its value is [None]. *)
Definition listing_failed (e : py_exception) : M (option Status) :=
  match e with
  | ClientError _ =>
      do print ("CLIENT ERROR: " +:+ str_error e +:+ nl)
      then do logging_error ("CLIENT ERROR: " +:+ str_error e +:+ nl)
      then ret None
  | Exception _ _ =>
      do print ("Unable to retrieve bucket contents: " +:+ str_error e)
      then do logging_error ("Unable to retrieve bucket contents: " +:+ str_error e)
      then ret None
  end.

(** The [try] block of [restore_objects]. *)
Definition restore_objects_try (bucket_name : string) (max_keys : Z) (prefix : option string)
    (threads days : Z) (start_after : string) (start_index object_count : Z)
    : M (option Status) :=
  let* _ := get_cos_cli in
  let status := mkStatus 0 0 0 in
  let* pages_and_count :=
    list_pages bucket_name max_keys prefix start_after start_index object_count in
  do emit (EvTqdmTotal (snd pages_and_count))
  then let index := if start_index =? -1 then 0 else start_index + 1 in
  let* status' := restore_pages bucket_name threads days (fst pages_and_count) status index in
  ret (Some status').

Definition restore_objects (bucket_name : string) (max_keys : Z) (prefix : option string)
    (threads days : Z) (start_after : string) (start_index object_count : Z)
    : M (option Status) :=
  do (if negb (truthy start_after)
      then logging_info
             ("Restoring '" +:+ bucket_name +:+ "' bucket objects ("
                +:+ str_object_count object_count +:+ ") with prefix '" +:+ str_prefix prefix
                +:+ "' for " +:+ str_int days +:+ " days using " +:+ str_int threads
                +:+ " threads")
      else logging_info
             ("Restoring '" +:+ bucket_name +:+ "' bucket objects ("
                +:+ str_object_count object_count +:+ ") with prefix '" +:+ str_prefix prefix
                +:+ "' starting from object '" +:+ start_after +:+ "' (index="
                +:+ fmt_010 start_index +:+ ") for " +:+ str_int days +:+ " days using "
                +:+ str_int threads +:+ " threads"))
  then try_except
    (restore_objects_try bucket_name max_keys prefix threads days start_after start_index
       object_count)
    listing_failed.

(** *** get_object_count *)

Definition str_opt_int (o : option Z) : string :=
  match o with
  | Some n => str_int n
  | None => "None"
  end.

(** The call to the bucket-configuration client. *)
Definition rc_get_bucket_config (bucket_name api_key : string) : M (option Z) :=
  fun w => (of_sum (get_bucket_config (server w) bucket_name api_key), w).

Definition get_object_count (bucket_name api_key : string) : M (option Z) :=
  let* object_count := rc_get_bucket_config bucket_name api_key in
  do logging_info ("Number of objects into the bucket: " +:+ str_opt_int object_count)
  then ret object_count.

(** *** main *)

(** The parsed command line. *)
Record Args := mkArgs {
  apikey : string;
  bucket : string;
  prefix : option string;
  resume : bool;
  log_file : string;
  crn : string;
  region : string;
  endpoint : string;
  days : Z;
  size : Z;
  threads : Z;
  verbose : bool
}.

(** [parser.error(message)]: a message on stderr, then [SystemExit(2)]. *)
Definition parser_error {A} (message : string) : M A :=
  fun w => (Raise (SystemExit 2), add_stderr ("error: " +:+ message +:+ nl) w).

Definition COS_AUTH_ENDPOINT : string := "https://iam.cloud.ibm.com/identity/token".

(** [COS_ENDPOINT.format(endpoint_type, region)] *)
Definition COS_ENDPOINT (endpoint_type region : string) : string :=
  "https://s3" +:+ endpoint_type +:+ "." +:+ region +:+ ".cloud-object-storage.appdomain.cloud".

(** [get_last_object] on the files of the process. *)
Definition read_last_object (file_name : string) (N : Z) (pattern : regex)
    : M (option (string * Z)) :=
  fun w => (get_last_object (fs w) file_name N pattern, w).

(** The [if(args.resume)] block; gives [last_object] and [last_index]. *)
Definition resume_point (args : Args) : M (string * Z) :=
  if resume args then
    let* found := read_last_object (log_file args) 100 LOG_RE_PATTERN in
    match found with
    | None => raise (Exception "TypeError" "cannot unpack non-iterable NoneType object")
    | Some (last_object, last_index) =>
        if negb (truthy last_object) then
          do print (Fore_RED +:+ "Resume is not possible. Unable to retrieve last elaborated object from the log.")
          then do print Style_RESET_ALL
          then exit 1
        else ret (last_object, last_index)
    end
  else ret (EmptyString, -1).

(** The [if not args.prefix] block; gives [object_count]. *)
Definition total_objects (args : Args) : M Z :=
  if negb (truthy_opt (prefix args)) then
    let* object_count := get_object_count (bucket args) (apikey args) in
    match object_count with
    | None =>
        raise (Exception "TypeError"
                 "'<' not supported between instances of 'NoneType' and 'int'")
    | Some n =>
        if n <? 1 then
          do print (Fore_RED +:+ "Unable to retrieve total objects.")
          then do print Style_RESET_ALL
          then exit 1
        else ret n
    end
  else ret (-1).

Definition str_opt_status (o : option Status) : string :=
  match o with
  | Some s => Status_str s
  | None => "None"
  end.

(** [global cos_cli; cos_cli = c] *)
Definition assign_cos_cli (c : Client) : M unit := fun w => (Ok tt, set_cos_cli c w).

(** main from the login on, with [last_object] and [last_index] set. *)
Definition main_run (args : Args) (last_object : string) (last_index : Z) : M unit :=
  let endpoint_type :=
    if negb (String.eqb (endpoint args) "public") then "." +:+ endpoint args else EmptyString in
  do print_end_space "Login to IBM Cloud Object Storage..."
  then do logging_info
            ("Login to IBM Cloud Object Storage using " +:+ endpoint args +:+ " endpoint ('"
               +:+ COS_ENDPOINT endpoint_type (region args) +:+ "')")
  then do assign_cos_cli
            (ibm_boto3_client (apikey args) (crn args) (threads args)
               (COS_ENDPOINT endpoint_type (region args)))
  then do print (Fore_GREEN +:+ "OK")
  then do print Style_RESET_ALL
  then let* object_count := total_objects args in
  let* status :=
    restore_objects (bucket args) (size args) (prefix args) (threads args) (days args)
      last_object last_index object_count in
  print ("All restore are completed, status: " +:+ str_opt_status status).

Definition main (args : Args) : M unit :=
  do (if threads args >? size args
      then parser_error "Threads must be less or equal than size"
      else ret tt)
  then let* last := resume_point args in
  do logging_basicConfig (log_file args)
  then main_run args (fst last) (snd last).

(** [sys.exit(main(sys.argv[1:]))]: the exit status of the process.
    main returns [None], which exits with 0; an exception nobody catches
    ends the interpreter with a traceback and status 1. *)
Definition exit_status (r : res unit) : Z :=
  match r with
  | Ok _ => 0
  | Raise (SystemExit code) => code
  | Raise (Err _) => 1
  end.

End Unarchive.

Arguments mkClient {Server}.
Arguments head_object {Server}.
Arguments restore_object_request {Server}.
Arguments paginate {Server}.
Arguments mkWorld {Server}.
Arguments cos_cli {Server}.
Arguments server {Server}.
Arguments fs {Server}.
Arguments logging_file {Server}.
Arguments clock {Server}.
Arguments stdout {Server}.
Arguments stderr {Server}.
Arguments events {Server}.
Arguments ret {Server A}.
Arguments bind {Server A B}.
Arguments raise {Server A}.
Arguments exit {Server A}.
Arguments try_except {Server A}.
Arguments print {Server}.
Arguments print_end_space {Server}.
Arguments emit {Server}.
Arguments logging_log {Server}.
Arguments logging_info {Server}.
Arguments logging_warning {Server}.
Arguments logging_error {Server}.
Arguments logging_basicConfig {Server}.
Arguments get_cos_cli {Server}.
Arguments cos_head_object {Server}.
Arguments cos_restore_object {Server}.
Arguments cos_paginate {Server}.
Arguments restore_object {Server}.
Arguments count_pages {Server}.
Arguments get_page_count {Server}.
Arguments submit_tasks {Server}.
Arguments ThreadPoolExecutor {Server}.
Arguments restore_page {Server}.
Arguments restore_pages {Server}.
Arguments ceil_div {Server}.
Arguments page_count_no_prefix {Server}.
Arguments list_pages {Server}.
Arguments listing_failed {Server}.
Arguments restore_objects_try {Server}.
Arguments restore_objects {Server}.
Arguments rc_get_bucket_config {Server}.
Arguments get_object_count {Server}.
Arguments read_last_object {Server}.
Arguments parser_error {Server A}.
Arguments resume_point {Server}.
Arguments total_objects {Server}.
Arguments assign_cos_cli {Server}.
Arguments main_run {Server}.
Arguments main {Server}.

(* ===================================================================== *)
(** ** Reading a run *)
(* ===================================================================== *)

(** The tasks handed to the pool, as (key, index). *)
Fixpoint submissions (evs : list Event) : list (string * Z) :=
  match evs with
  | [] => []
  | EvSubmit key index :: rest => (key, index) :: submissions rest
  | _ :: rest => submissions rest
  end.

(** The records handed to the logging module, as (level, message). *)
Fixpoint log_records (evs : list Event) : list (string * string) :=
  match evs with
  | [] => []
  | EvLog levelname message :: rest => (levelname, message) :: log_records rest
  | _ :: rest => log_records rest
  end.

(** The restore requests sent, as (key, days). *)
Fixpoint restore_requests (evs : list Event) : list (string * Z) :=
  match evs with
  | [] => []
  | EvRestore _ key days :: rest => (key, days) :: restore_requests rest
  | _ :: rest => restore_requests rest
  end.

(** The text the handler writes for records numbered from [n]. *)
Fixpoint render (asctime : nat -> string) (n : nat) (records : list (string * string)) : string :=
  match records with
  | [] => EmptyString
  | (levelname, message) :: rest =>
      format_record asctime n levelname message +:+ render asctime (S n) rest
  end.

(** [index, index + 1, ...], [n] of them. *)
Fixpoint Zseq (index : Z) (n : nat) : list Z :=
  match n with
  | O => []
  | S k => index :: Zseq (index + 1) k
  end.

(** The objects of a listing that completes: those of every page. *)
Fixpoint listed_objects (pages : list (py_exception + Page)) : list Object :=
  match pages with
  | [] => []
  | inr (mkPage (Some objects)) :: rest => objects ++ listed_objects rest
  | _ :: rest => listed_objects rest
  end.

(** A listing every page of which arrives and has contents. *)
Definition complete_listing (pages : list (py_exception + Page)) : Prop :=
  Forall (fun p => exists objects, p = inr (mkPage (Some objects))) pages.

(** The contents of a file, empty when it does not exist. *)
Definition content (files : Files) (path : string) : string :=
  default EmptyString (files !! path).

(** [w'] continues [w]: the events of [w] are still there and are followed
    by events that satisfy [P]; the log file holds what it held, then the
    records of the new events; no other file has changed. *)
Definition extends {Server} (asctime : nat -> string) (P : Event -> Prop)
    (w w' : World Server) : Prop :=
  logging_file w' = logging_file w /\
  exists evs,
    events w' = events w ++ evs /\
    Forall P evs /\
    clock w' = (clock w + length (log_records evs))%nat /\
    (forall path, logging_file w = Some path ->
       content (fs w') path
         = content (fs w) path +:+ render asctime (clock w) (log_records evs)
       /\ (is_Some (fs w !! path) -> is_Some (fs w' !! path))) /\
    (forall path, logging_file w <> Some path -> fs w' !! path = fs w !! path).

(** The exception, if any, that the steps of a per-object restore meet:
    an unbound client, a probe that raises, or a request that raises. *)
Definition step_exception {Server} (w : World Server) (bucket key : string) (days : Z)
    : option py_exception :=
  match cos_cli w with
  | None => Some (Exception "NameError" "name 'cos_cli' is not defined")
  | Some c =>
      match head_object c (server w) bucket key with
      | (inl e, _) => Some e
      | (inr d, s) =>
          if truthy_dict d && negb (truthy_opt (d !! "Restore")) then
            match restore_object_request c s bucket key days with
            | (inl e, _) => Some e
            | (inr _, _) => None
            end
          else None
      end
  end.

(** The keyword arguments both listings of a run are made with. *)
Definition listing_params (bucket_name : string) (max_keys : Z) (prefix : option string)
    (start_after : string) : ListParams :=
  mkListParams bucket_name (if truthy_opt prefix then prefix else None) max_keys start_after.

(** An event that is not the submission of a task. *)
Definition no_submission (e : Event) : Prop := submissions [e] = [].

(** [w'] has the events of [w], then events among which the submitted
    tasks are [l]. *)
Definition submitted {Server} (l : list (string * Z)) (w w' : World Server) : Prop :=
  exists evs, events w' = events w ++ evs /\ submissions evs = l.


(** A statement that never ends the process. *)
Definition no_exit {Server A} (m : M Server A) : Prop :=
  forall w code, fst (m w) <> Raise (SystemExit code).

(** A statement that always ends normally. *)
Definition returns {Server A} (m : M Server A) : Prop :=
  forall w, exists a, fst (m w) = Ok a.

(** A statement all of whose runs continue the world they start in. *)
Definition steps {Server A} (asctime : nat -> string) (P : Event -> Prop)
    (m : M Server A) : Prop :=
  forall w, extends asctime P w (snd (m w)).

(** The Resume Resolver as the specification words it: the lines of the
    file at the given path (a newline at the end of the file does not start
    another line), of these the last [N], scanned from the most recent to
    the least recent for the first match. *)
Fixpoint lines_from (current : list ascii) (bytes : list ascii) : list string :=
  match bytes with
  | [] =>
      match current with
      | [] => []
      | _ => [string_of_list_ascii (rev current)]
      end
  | b :: rest =>
      if Ascii.eqb b newline
      then string_of_list_ascii (rev current) :: lines_from [] rest
      else lines_from (b :: current) rest
  end.

Definition file_lines (text : string) : list string :=
  lines_from [] (list_ascii_of_string text).

Definition last_lines (N : nat) (lines : list string) : list string :=
  drop (length lines - N) lines.

Definition spec_get_last_object (files : Files) (file_name : string) (N : Z) (pattern : regex)
    : res (option (string * Z)) :=
  match files !! file_name with
  | None => Raise (FileNotFoundError file_name)
  | Some text => Ok (first_match pattern (rev (last_lines (Z.to_nat N) (file_lines text))))
  end.

(** [q] is the ceiling of [a / b], for a positive [b]. *)
Definition is_ceil (a b q : Z) : Prop := (q - 1) * b < a <= q * b.


(** The key an event is about, if it is about one object. *)
Definition event_key (e : Event) : option string :=
  match e with
  | EvHead _ key => Some key
  | EvRestore _ key _ => Some key
  | EvSubmit key _ => Some key
  | _ => None
  end.

(* ===================================================================== *)
(** ** A small service to run the script against *)
(* ===================================================================== *)

Module Scenario.

Definition asctime (n : nat) : string := "2024-05-01 10:00:00,000".

(** The state of the service: the restore state of the keys that have
    one. *)
Abbreviation Service := (gmap string string).

Definition in_progress : string :=
  "ongoing-request=" +:+ String dquote ("true" +:+ String dquote EmptyString).

(** The probe fails for the key ["gone"]; the request always succeeds and
    leaves a restore state; the listing is the given one. *)
Definition client (pages : list (py_exception + Page)) : Client Service :=
  mkClient
    (fun s bucket key =>
       (if String.eqb key "gone"
        then inl (ClientError "An error occurred (404) when calling the HeadObject operation: Not Found")
        else inr (<["ContentLength" := "1"]>
                    (from_option (fun state => {["Restore" := state]}) ∅ (s !! key))),
        s))
    (fun s bucket key days => (inr tt, <[key := in_progress]> s))
    (fun s params => pages).

Definition three_objects : list (py_exception + Page) :=
  [inr (mkPage (Some [mkObject "a/001.bin" "GLACIER";
                      mkObject "a/002.bin" "STANDARD";
                      mkObject "a/003.bin" "ACCELERATED"]))].

Definition denied : list (py_exception + Page) :=
  [inl (ClientError "An error occurred (AccessDenied) when calling the ListObjectsV2 operation: Access Denied")].

(** A process that has not started main, and one whose client is set. *)
Definition process (restored : Service) (files : Files) : World Service :=
  mkWorld None restored files None 0%nat [] [] [].

Definition connected (pages : list (py_exception + Page)) (restored : Service)
    : World Service :=
  mkWorld (Some (client pages)) restored ∅ None 0%nat [] [] [].

(** The first object is being restored already. *)
Definition restoring : World Service :=
  connected three_objects {["a/001.bin" := in_progress]}.

(** Nothing has been restored. *)
Definition archived : World Service := connected three_objects ∅.

(** Records of an earlier run. *)
Definition record_6 : string :=
  "2024-05-01 09:59:58,120 - INFO - Object 'b/001.bin' (index=0000000006) has been restored.".
Definition record_7 : string :=
  "2024-05-01 09:59:59,250 - INFO - Object 'b/002.bin' (index=0000000007) has been restored.".
Definition chatter : string :=
  "2024-05-01 09:59:57,001 - INFO - Number of objects into the bucket: 3".

(** A process started where the earlier run was interrupted after
    b/002.bin. *)
Definition interrupted : World Service :=
  process ∅ {["unarchive.log" := chatter +:+ nl +:+ record_7 +:+ nl]}.

(** Log files: two records; only chatter; a hundred lines of chatter
    before the two records. *)
Definition two_records : string := record_6 +:+ nl +:+ record_7 +:+ nl.

Definition only_chatter : string := chatter +:+ nl +:+ chatter +:+ nl.

Fixpoint repeat_line (n : nat) (line rest : string) : string :=
  match n with
  | O => rest
  | S k => line +:+ nl +:+ repeat_line k line rest
  end.

Definition long_log : string := repeat_line 100 chatter two_records.

Definition args (resume : bool) (log_file : string) : Args :=
  mkArgs "apikey" "bucket" None resume log_file "crn" "eu-de" "public" 5 10 2 false.

(** main against this service, for a bucket of [n] objects. *)
Definition run (pages : list (py_exception + Page)) (n : Z) (a : Args)
    (w : World Service) : res unit * World Service :=
  main asctime (fun _ _ _ _ => client pages) (fun _ _ _ => inr (Some n)) a w.

End Scenario.


(** What the events of a call of [restore_objects] may be about: the
    bucket, page size, start-after key and prefix of the call, and its
    restore lifetime. *)
Definition of_call (bucket : string) (max_keys : Z) (prefix : option string) (days : Z)
    (start_after : string) (e : Event) : Prop :=
  match e with
  | EvPaginate p =>
      Bucket p = bucket /\ MaxKeys p = max_keys /\ StartAfter p = start_after
      /\ (Prefix p = None \/ Prefix p = prefix)
  | EvHead b _ => b = bucket
  | EvRestore b _ d => b = bucket /\ d = days
  | _ => True
  end.

(** A process whose logging already goes to unarchive.log. *)
Definition logging_to_file : World Scenario.Service :=
  mkWorld (Some (Scenario.client Scenario.three_objects)) ∅
    {["unarchive.log" := Scenario.chatter +:+ nl; "notes.txt" := "keep"]}
    (Some "unarchive.log") 1%nat [] [] [].

(** Command lines: more workers than keys per page; a prefix. *)
Definition args_too_many_threads : Args :=
  mkArgs "apikey" "bucket" None false "unarchive.log" "crn" "eu-de" "public" 5 10 11 false.

Definition args_with_prefix : Args :=
  mkArgs "apikey" "bucket" (Some "a/") false "unarchive.log" "crn" "eu-de" "public" 5 10 2 false.

(* ===================================================================== *)
(** ** Listings that break, and the keys of a run *)
(* ===================================================================== *)

(** An event that is about no object. *)
Definition no_key (e : Event) : Prop := event_key e = None.

(** An event that, if it is about an object, is about one of [keys]. *)
Definition about_keys (keys : list string) (e : Event) : Prop :=
  forall key, event_key e = Some key -> In key keys.

(** The exception the loop over the pages meets at an entry of the
    listing: the one the paginator raises, or the [KeyError] of a page
    without contents. *)
Definition page_failure (p : py_exception + Page) : option py_exception :=
  match p with
  | inl e => Some e
  | inr (mkPage None) => Some (Exception "KeyError" "'Contents'")
  | inr (mkPage (Some _)) => None
  end.

(** What [restore_objects] prints when it gives up. *)
Definition failure_message (e : py_exception) : string :=
  match e with
  | ClientError _ => "CLIENT ERROR: " +:+ str_error e +:+ nl +:+ nl
  | Exception _ _ => "Unable to retrieve bucket contents: " +:+ str_error e +:+ nl
  end.

(** What follows the loop over the pages in [restore_objects]. *)
Definition after_pages {Server} (asctime : nat -> string) (r : res Status * World Server)
    : res (option Status) * World Server :=
  match r with
  | (Ok st, w') => (Ok (Some st), w')
  | (Raise (Err e), w') => listing_failed asctime e w'
  | (Raise (SystemExit code), w') => (Raise (SystemExit code), w')
  end.

(** A listing whose second page is refused. *)
Definition broken_after_one_page : list (py_exception + Page) :=
  Scenario.three_objects ++ Scenario.denied.

Definition connected_broken : World Scenario.Service :=
  Scenario.connected broken_after_one_page ∅.

(* ===================================================================== *)
(** ** The log as lines *)
(* ===================================================================== *)





(* ===================================================================== *)
(** ** Records about objects *)
(* ===================================================================== *)

(** The characters of a string all satisfy [f]. *)
Definition all_chars (f : ascii -> bool) (s : string) : Prop :=
  Forall (fun a => f a = true) (list_ascii_of_string s).

(** A string of [n] decimal digits. *)
Definition digits (n : nat) (s : string) : Prop :=
  String.length s = n /\ all_chars is_digit s.

(** The default [%(asctime)s] of the logging module: year, month, day,
    hours, minutes, seconds, a separator and the milliseconds. *)
Definition asctime_text (y mo d h mi s : string) (sep : ascii) (ms : string) : string :=
  y +:+ "-" +:+ mo +:+ "-" +:+ d +:+ " " +:+ h +:+ ":" +:+ mi +:+ ":" +:+ s +:+ String sep ms.

Definition well_formed_asctime (ts : string) : Prop :=
  exists y mo d h mi s sep ms,
    ts = asctime_text y mo d h mi s sep ms /\
    digits 4 y /\ digits 2 mo /\ digits 2 d /\ digits 2 h /\ digits 2 mi /\ digits 2 s /\
    sep <> newline /\ digits 3 ms.

(** A character that may stand in an object key between the quotes of a
    record: any but the quote and the newline. *)
Definition key_char (a : ascii) : bool :=
  negb (Ascii.eqb a "'"%char) && negb (Ascii.eqb a newline).

(** A character of what follows the index in a record: any but the
    opening parenthesis and the newline. *)
Definition tail_char (a : ascii) : bool :=
  negb (Ascii.eqb a "("%char) && negb (Ascii.eqb a newline).

(** The line of the log for a record about an object, without its
    newline. *)
Definition object_record (ts levelname key : string) (index : Z) (tail : string) : string :=
  ts +:+ " - " +:+ levelname +:+ " - " +:+ "Object '" +:+ key +:+ "' (index="
    +:+ fmt_010 index +:+ ")" +:+ tail.



(* ===================================================================== *)
(** ** get_object_list *)
(* ===================================================================== *)

(** The answer of [list_objects_v2].  [RContents] and
    [NextContinuationToken] are [None] when the answer has no such key;
    [IsTruncated] is in every answer. *)
Record Response := mkResponse {
  RContents : option (list Object);
  IsTruncated : bool;
  NextContinuationToken : option string
}.

Section ObjectList.
Context {Server : Type}.
Variable asctime : nat -> string.

(** [cos_cli.list_objects_v2(Bucket, MaxKeys, ContinuationToken,
    StartAfter)], with [Prefix] when the call gives one: the keyword
    arguments but the token, then the token. *)
Variable list_objects_v2 :
  Client Server -> Server -> ListParams -> string -> (py_exception + Response) * Server.

(** The [while more_results] loop.  The service decides how often it goes
    round, so the loop is given a number of rounds it may make and is
    [None] when they do not suffice. *)
Fixpoint object_list_loop (rounds : nat) (c : Client Server) (params : ListParams)
    (next_token : string) (object_list : list Object) (w : World Server)
    : option (res (list Object) * World Server) :=
  match rounds with
  | O => None
  | S rounds' =>
      let '(r, s) := list_objects_v2 c (server w) params next_token in
      let w1 := set_server Server s w in
      match r with
      | inl e => Some (Raise (Err e), w1)
      | inr response =>
          match RContents response with
          | None => Some (Raise (Err (Exception "KeyError" "'Contents'")), w1)
          | Some files =>
              let object_list' := object_list ++ List.filter is_archived files in
              if IsTruncated response then
                match NextContinuationToken response with
                | None =>
                    Some (Raise (Err (Exception "KeyError" "'NextContinuationToken'")), w1)
                | Some token => object_list_loop rounds' c params token object_list' w1
                end
              else Some (Ok object_list', w1)
          end
      end
  end.

(** The two [except] clauses of [get_object_list]; the function then ends
    without a [return]. *)
Definition object_list_failed (e : py_exception) : M Server (option (list string)) :=
  match e with
  | ClientError _ =>
      bind (print ("CLIENT ERROR: " +:+ str_error e +:+ nl)) (fun _ =>
      bind (logging_error asctime ("CLIENT ERROR: " +:+ str_error e +:+ nl)) (fun _ =>
      ret None))
  | Exception _ _ =>
      bind (print ("Unable to retrieve bucket contents: " +:+ str_error e)) (fun _ =>
      bind (logging_error asctime ("Unable to retrieve bucket contents: " +:+ str_error e))
        (fun _ => ret None))
  end.

Definition get_object_list (rounds : nat) (bucket_name : string) (max_keys : Z)
    (prefix : option string) (start_after : string) (w : World Server)
    : option (res (option (list string)) * World Server) :=
  let w0 :=
    snd (logging_info asctime ("Retrieving bucket contents from: '" +:+ bucket_name +:+ "'") w) in
  match get_cos_cli w0 with
  | (Ok c, w1) =>
      let params :=
        if negb (truthy_opt prefix)
        then mkListParams bucket_name None max_keys start_after
        else mkListParams bucket_name prefix max_keys start_after in
      match object_list_loop rounds c params EmptyString [] w1 with
      | None => None
      | Some (Ok object_list, w2) => Some (Ok (Some (map Key object_list)), w2)
      | Some (Raise (Err e), w2) => Some (object_list_failed e w2)
      | Some (Raise (SystemExit code), w2) => Some (Raise (SystemExit code), w2)
      end
  | (Raise (Err e), w1) => Some (object_list_failed e w1)
  | (Raise (SystemExit code), w1) => Some (Raise (SystemExit code), w1)
  end.

(** The service answers the token [token] and those that follow it with
    the responses [rs], the last of which is the first that is not
    truncated, and is left in the state [s']. *)
Inductive answers (c : Client Server) (params : ListParams)
    : Server -> string -> list Response -> Server -> Prop :=
| answers_last s token files next s' :
    list_objects_v2 c s params token = (inr (mkResponse (Some files) false next), s') ->
    answers c params s token [mkResponse (Some files) false next] s'
| answers_more s token files next s1 rs s' :
    list_objects_v2 c s params token = (inr (mkResponse (Some files) true (Some next)), s1) ->
    answers c params s1 next rs s' ->
    answers c params s token (mkResponse (Some files) true (Some next) :: rs) s'.

(** A service that never sends a last page. *)
Definition endless (c : Client Server) (params : ListParams) : Prop :=
  forall s token, exists files next s',
    list_objects_v2 c s params token = (inr (mkResponse (Some files) true (Some next)), s').

End ObjectList.

(** The objects of a sequence of responses. *)
Definition response_objects (rs : list Response) : list Object :=
  concat (map (fun r => default [] (RContents r)) rs).

(** A service that lists three objects on two pages, and one that never
    ends its listing. *)
Definition two_pages (c : Client Scenario.Service) (s : Scenario.Service) (params : ListParams)
    (token : string) : (py_exception + Response) * Scenario.Service :=
  if String.eqb token EmptyString then
    (inr (mkResponse (Some [mkObject "a/001.bin" "GLACIER"; mkObject "a/002.bin" "STANDARD"])
            true (Some "page-2")), s)
  else if String.eqb token "page-2" then
    (inr (mkResponse (Some [mkObject "a/003.bin" "ACCELERATED"]) false None), s)
  else (inl (ClientError "An error occurred (InvalidArgument) when calling the ListObjectsV2 operation: The continuation token provided is incorrect"), s).

Definition same_page_again (c : Client Scenario.Service) (s : Scenario.Service)
    (params : ListParams) (token : string) : (py_exception + Response) * Scenario.Service :=
  (inr (mkResponse (Some [mkObject "a/001.bin" "GLACIER"]) true (Some "again")), s).



(** A process with a client, logging to unarchive.log. *)
Definition listing_process : World Scenario.Service :=
  mkWorld (Some (Scenario.client [])) ∅ {["unarchive.log" := EmptyString]}
    (Some "unarchive.log") 0%nat [] [] [].

(* ===================================================================== *)
(** ** Runs of main *)
(* ===================================================================== *)

(** The endpoint main builds the client for. *)
Definition endpoint_url (args : Args) : string :=
  COS_ENDPOINT
    (if negb (String.eqb (endpoint args) "public") then "." +:+ endpoint args else EmptyString)
    (region args).

(** A log whose only record names an object with an empty key. *)
Definition empty_key_log : World Scenario.Service :=
  Scenario.process ∅
    {["unarchive.log" :=
        "2024-05-01 09:59:58,120 - INFO - Object '' (index=0000000004) has been restored."
          +:+ nl]}.

(* ===================================================================== *)
(** ** Lemmas on strings, lists and statuses *)
(* ===================================================================== *)

Lemma append_cons (x : ascii) (a b : string) : String x a +:+ b = String x (a +:+ b).
Proof. reflexivity. Qed.

Lemma append_empty_l (a : string) : EmptyString +:+ a = a.
Proof. reflexivity. Qed.

Lemma append_assoc (a b c : string) : (a +:+ b) +:+ c = a +:+ (b +:+ c).
Proof.
  induction a as [|x a IH]; [reflexivity|].
  now rewrite !append_cons, IH.
Qed.

Lemma append_empty_r (a : string) : a +:+ EmptyString = a.
Proof.
  induction a as [|x a IH]; [reflexivity|].
  now rewrite append_cons, IH.
Qed.

Lemma submissions_app (l1 l2 : list Event) :
  submissions (l1 ++ l2) = submissions l1 ++ submissions l2.
Proof.
  induction l1 as [|e l1 IH]; simpl; [reflexivity|].
  destruct e; simpl; rewrite IH; reflexivity.
Qed.

Lemma log_records_app (l1 l2 : list Event) :
  log_records (l1 ++ l2) = log_records l1 ++ log_records l2.
Proof.
  induction l1 as [|e l1 IH]; simpl; [reflexivity|].
  destruct e; simpl; rewrite IH; reflexivity.
Qed.

Lemma restore_requests_app (l1 l2 : list Event) :
  restore_requests (l1 ++ l2) = restore_requests l1 ++ restore_requests l2.
Proof.
  induction l1 as [|e l1 IH]; simpl; [reflexivity|].
  destruct e; simpl; rewrite IH; reflexivity.
Qed.

Lemma render_app (asctime : nat -> string) (l1 l2 : list (string * string)) (n : nat) :
  render asctime n (l1 ++ l2)
  = render asctime n l1 +:+ render asctime (n + length l1) l2.
Proof.
  revert n. induction l1 as [|[lv msg] l1 IH]; intros n; cbn [render app length].
  - now rewrite Nat.add_0_r.
  - rewrite IH, append_assoc. now rewrite Nat.add_succ_r.
Qed.

Lemma Zseq_length (index : Z) (n : nat) : length (Zseq index n) = n.
Proof. revert index. induction n as [|n IH]; intros index; simpl; [reflexivity | now rewrite IH]. Qed.

Lemma Zseq_app (index : Z) (n m : nat) :
  Zseq index (n + m) = Zseq index n ++ Zseq (index + Z.of_nat n) m.
Proof.
  revert index. induction n as [|n IH]; intros index.
  - simpl. now rewrite Z.add_0_r.
  - cbn [Nat.add Zseq app]. rewrite IH. do 3 f_equal. lia.
Qed.

Lemma status_total_fold_result (status result : Status) :
  status_total (fold_result status result) = status_total status + status_total result.
Proof. unfold status_total, fold_result; simpl. lia. Qed.

Lemma status_total_fold_results (results : list Status) (status : Status) :
  Forall (fun r => status_total r = 1) results ->
  status_total (fold_results status results) = status_total status + Z.of_nat (length results).
Proof.
  unfold fold_results. revert status.
  induction results as [|r results IH]; intros status H; simpl.
  - lia.
  - inversion H; subst. rewrite IH by assumption.
    rewrite status_total_fold_result. lia.
Qed.

(** The order in which the tasks of a page complete does not matter. *)
Lemma fold_result_comm (status r1 r2 : Status) :
  fold_result (fold_result status r1) r2 = fold_result (fold_result status r2) r1.
Proof.
  unfold fold_result, increment_restored, increment_already_restored, increment_error.
  cbn [error restored already_restored]. f_equal; lia.
Qed.

Lemma fold_results_Permutation (results results' : list Status) (status : Status) :
  Permutation results results' ->
  fold_results status results = fold_results status results'.
Proof.
  unfold fold_results. intros H. revert status.
  induction H; intros status; simpl.
  - reflexivity.
  - apply IHPermutation.
  - now rewrite fold_result_comm.
  - now rewrite IHPermutation1.
Qed.

(* ===================================================================== *)
(** ** How statements continue the world *)
(* ===================================================================== *)

Section Continuation.
Context {Server : Type}.
Variable asctime : nat -> string.
Implicit Types (w : World Server) (P : Event -> Prop).

Lemma extends_refl P w : extends asctime P w w.
Proof.
  split; [reflexivity|]. exists []. repeat split.
  - now rewrite app_nil_r.
  - constructor.
  - simpl. lia.
  - simpl. now rewrite append_empty_r.
  - auto.
Qed.

Lemma extends_trans P w1 w2 w3 :
  extends asctime P w1 w2 -> extends asctime P w2 w3 -> extends asctime P w1 w3.
Proof.
  intros (Hf1 & evs1 & He1 & HP1 & Hc1 & Hl1 & Ho1) (Hf2 & evs2 & He2 & HP2 & Hc2 & Hl2 & Ho2).
  split; [congruence|]. exists (evs1 ++ evs2). repeat split.
  - rewrite He2, He1. now rewrite app_assoc.
  - apply Forall_app; auto.
  - rewrite log_records_app, length_app. lia.
  - destruct (Hl1 path H) as [E1 _]. rewrite Hf1 in Hl2.
    destruct (Hl2 path H) as [E2 _].
    rewrite E2, E1, Hc1, log_records_app, render_app. now rewrite append_assoc.
  - intros Hs. destruct (Hl1 path H) as [_ S1]. rewrite Hf1 in Hl2.
    destruct (Hl2 path H) as [_ S2]. auto.
  - intros path Hp. rewrite Ho2 by congruence. now apply Ho1.
Qed.

Lemma extends_mono P Q w w' :
  (forall e, P e -> Q e) -> extends asctime P w w' -> extends asctime Q w w'.
Proof.
  intros HPQ (Hf & evs & He & HP & Hrest). split; [assumption|].
  exists evs. split; [assumption|]. split; [|assumption].
  eapply Forall_impl; eauto.
Qed.

Lemma steps_mono {A} P Q (m : M Server A) :
  (forall e, P e -> Q e) -> steps asctime P m -> steps asctime Q m.
Proof. intros HPQ H w. eapply extends_mono; eauto. Qed.

Lemma bind_ret_l {A B} (a : A) (f : A -> M Server B) : bind (ret a) f = f a.
Proof. reflexivity. Qed.

Lemma bind_raise_l {A B} e (f : A -> M Server B) : bind (raise e) f = raise e.
Proof. reflexivity. Qed.

Lemma steps_ret {A} P (a : A) : steps asctime P (ret (Server := Server) a).
Proof. intros w. apply extends_refl. Qed.

Lemma steps_raise {A} P e : steps asctime P (raise (Server := Server) (A := A) e).
Proof. intros w. apply extends_refl. Qed.

Lemma steps_exit {A} P code : steps asctime P (exit (Server := Server) (A := A) code).
Proof. intros w. apply extends_refl. Qed.

Lemma steps_bind {A B} P (m : M Server A) (f : A -> M Server B) :
  steps asctime P m -> (forall a, steps asctime P (f a)) -> steps asctime P (bind m f).
Proof.
  intros Hm Hf w. unfold bind. specialize (Hm w).
  destruct (m w) as [[a|e] w1]; simpl in *; [|assumption].
  eapply extends_trans; [eassumption|]. apply Hf.
Qed.

Lemma steps_try_except {A} P (body : M Server A) handler :
  steps asctime P body -> (forall e, steps asctime P (handler e)) ->
  steps asctime P (try_except body handler).
Proof.
  intros Hm Hh w. unfold try_except. specialize (Hm w).
  destruct (body w) as [[a|[e|code]] w1]; simpl in *; try assumption.
  eapply extends_trans; [eassumption|]. apply Hh.
Qed.

Lemma steps_if {A} P (b : bool) (m1 m2 : M Server A) :
  steps asctime P m1 -> steps asctime P m2 -> steps asctime P (if b then m1 else m2).
Proof. now destruct b. Qed.

(** A statement that only touches what [extends] does not look at. *)
Lemma extends_same P w w' :
  logging_file w' = logging_file w -> events w' = events w ->
  clock w' = clock w -> fs w' = fs w -> extends asctime P w w'.
Proof.
  intros Hf He Hc Hfs. split; [assumption|]. exists []. repeat split.
  - now rewrite app_nil_r.
  - constructor.
  - simpl. lia.
  - simpl. now rewrite append_empty_r, Hfs.
  - now rewrite Hfs.
  - intros. now rewrite Hfs.
Qed.

(** A statement that only adds one event which is not a log record. *)
Lemma extends_event P w w' e :
  P e -> log_records [e] = [] ->
  logging_file w' = logging_file w -> events w' = events w ++ [e] ->
  clock w' = clock w -> fs w' = fs w -> extends asctime P w w'.
Proof.
  intros HP Hl Hf He Hc Hfs. split; [assumption|]. exists [e]. repeat split.
  - assumption.
  - now constructor.
  - rewrite Hl. simpl. lia.
  - rewrite Hl. simpl. now rewrite append_empty_r, Hfs.
  - now rewrite Hfs.
  - intros. now rewrite Hfs.
Qed.

Lemma steps_print P s : steps asctime P (print (Server := Server) s).
Proof. intros w. now apply extends_same. Qed.

Lemma steps_print_end_space P s : steps asctime P (print_end_space (Server := Server) s).
Proof. intros w. now apply extends_same. Qed.

Lemma steps_emit P e :
  P e -> log_records [e] = [] -> steps asctime P (emit (Server := Server) e).
Proof. intros HP Hl w. now apply (extends_event P w _ e). Qed.

Lemma steps_logging_log P levelname message :
  P (EvLog levelname message) ->
  steps asctime P (logging_log (Server := Server) asctime levelname message).
Proof.
  intros HP w. unfold logging_log. simpl.
  split; [reflexivity|]. exists [EvLog levelname message]. simpl. repeat split.
  - now constructor.
  - lia.
  - rewrite H. unfold content at 1. rewrite lookup_insert_eq. simpl.
    now rewrite append_empty_r.
  - rewrite H. rewrite lookup_insert_eq. eauto.
  - intros path Hp. destruct (logging_file w) as [p|]; [|reflexivity].
    apply lookup_insert_ne. congruence.
Qed.

Lemma steps_get_cos_cli P : steps asctime P (get_cos_cli (Server := Server)).
Proof. intros w. unfold get_cos_cli. destruct (cos_cli w); apply extends_refl. Qed.

Lemma steps_cos_head_object P bucket key :
  P (EvHead bucket key) -> steps asctime P (cos_head_object (Server := Server) bucket key).
Proof.
  intros HP w. unfold cos_head_object, bind, get_cos_cli.
  destruct (cos_cli w) as [c|]; simpl; [|apply extends_refl].
  destruct (head_object c (server w) bucket key) as [r s]. simpl.
  now apply (extends_event P w _ (EvHead bucket key)).
Qed.

Lemma steps_cos_restore_object P bucket key days :
  P (EvRestore bucket key days) ->
  steps asctime P (cos_restore_object (Server := Server) bucket key days).
Proof.
  intros HP w. unfold cos_restore_object, bind, get_cos_cli.
  destruct (cos_cli w) as [c|]; simpl; [|apply extends_refl].
  destruct (restore_object_request c (server w) bucket key days) as [r s]. simpl.
  now apply (extends_event P w _ (EvRestore bucket key days)).
Qed.

Lemma steps_cos_paginate P params :
  P (EvPaginate params) -> steps asctime P (cos_paginate (Server := Server) params).
Proof.
  intros HP w. unfold cos_paginate, bind, get_cos_cli.
  destruct (cos_cli w) as [c|]; simpl; [|apply extends_refl].
  now apply (extends_event P w _ (EvPaginate params)).
Qed.

End Continuation.

Section Outcomes.
Context {Server : Type}.
Variable asctime : nat -> string.
Implicit Types (w : World Server).

Lemma bind_inv {A B} (m : M Server A) (f : A -> M Server B) w r w' :
  bind m f w = (r, w') ->
  (exists a w1, m w = (Ok a, w1) /\ f a w1 = (r, w')) \/
  (exists e, m w = (Raise e, w') /\ r = Raise e).
Proof.
  unfold bind. destruct (m w) as [[a|e] w1].
  - intros H. left. now exists a, w1.
  - intros [= <- <-]. right. now exists e.
Qed.

Lemma try_except_inv {A} (body : M Server A) handler w r w' :
  try_except body handler w = (r, w') ->
  (exists e w1, body w = (Raise (Err e), w1) /\ handler e w1 = (r, w')) \/
  (body w = (r, w') /\ forall e, r <> Raise (Err e)).
Proof.
  unfold try_except. destruct (body w) as [[a|[e|code]] w1].
  - intros [= <- <-]. right. split; [reflexivity|discriminate].
  - intros H. left. now exists e, w1.
  - intros [= <- <-]. right. split; [reflexivity|discriminate].
Qed.

Lemma returns_no_exit {A} (m : M Server A) : returns m -> no_exit m.
Proof. intros H w code. destruct (H w) as (a & ->). discriminate. Qed.

Lemma returns_run {A} (m : M Server A) w :
  returns m -> exists a w', m w = (Ok a, w').
Proof. intros H. destruct (H w) as (a & Ha). destruct (m w) as [r w']. simpl in Ha. subst. now exists a, w'. Qed.

Lemma returns_ret {A} (a : A) : returns (ret (Server := Server) a).
Proof. intros w. now exists a. Qed.

Lemma returns_bind {A B} (m : M Server A) (f : A -> M Server B) :
  returns m -> (forall a, returns (f a)) -> returns (bind m f).
Proof.
  intros Hm Hf w. unfold bind. destruct (returns_run m w Hm) as (a & w1 & ->). apply Hf.
Qed.

Lemma returns_try_except {A} (body : M Server A) handler :
  no_exit body -> (forall e, returns (handler e)) -> returns (try_except body handler).
Proof.
  intros Hb Hh w. unfold try_except. specialize (Hb w).
  destruct (body w) as [[a|[e|code]] w1]; simpl in *.
  - now exists a.
  - apply Hh.
  - now destruct (Hb code).
Qed.

Lemma returns_if {A} (b : bool) (m1 m2 : M Server A) :
  returns m1 -> returns m2 -> returns (if b then m1 else m2).
Proof. now destruct b. Qed.

Lemma returns_print s : returns (print (Server := Server) s).
Proof. intros w. now exists tt. Qed.

Lemma returns_print_end_space s : returns (print_end_space (Server := Server) s).
Proof. intros w. now exists tt. Qed.

Lemma returns_emit e : returns (emit (Server := Server) e).
Proof. intros w. now exists tt. Qed.

Lemma returns_logging_log levelname message :
  returns (logging_log (Server := Server) asctime levelname message).
Proof. intros w. now exists tt. Qed.

Lemma no_exit_raise {A} e : no_exit (raise (Server := Server) (A := A) e).
Proof. intros w code. discriminate. Qed.

Lemma no_exit_bind {A B} (m : M Server A) (f : A -> M Server B) :
  no_exit m -> (forall a, no_exit (f a)) -> no_exit (bind m f).
Proof.
  intros Hm Hf w code. unfold bind. specialize (Hm w).
  destruct (m w) as [[a|e] w1]; simpl in *; [apply Hf|].
  intros [= ->]. now apply (Hm code).
Qed.

Lemma no_exit_if {A} (b : bool) (m1 m2 : M Server A) :
  no_exit m1 -> no_exit m2 -> no_exit (if b then m1 else m2).
Proof. now destruct b. Qed.

Lemma no_exit_get_cos_cli : no_exit (get_cos_cli (Server := Server)).
Proof. intros w code. unfold get_cos_cli. destruct (cos_cli w); discriminate. Qed.

Lemma no_exit_of_sum {A} (r : py_exception + A) code : of_sum r <> Raise (SystemExit code).
Proof. destruct r; discriminate. Qed.

Lemma no_exit_cos_head_object bucket key :
  no_exit (cos_head_object (Server := Server) bucket key).
Proof.
  intros w code. unfold cos_head_object, get_cos_cli, bind.
  destruct (cos_cli w) as [c|]; [|discriminate].
  destruct (head_object c (server w) bucket key) as [r s]. apply no_exit_of_sum.
Qed.

Lemma no_exit_cos_restore_object bucket key days :
  no_exit (cos_restore_object (Server := Server) bucket key days).
Proof.
  intros w code. unfold cos_restore_object, get_cos_cli, bind.
  destruct (cos_cli w) as [c|]; [|discriminate].
  destruct (restore_object_request c (server w) bucket key days) as [r s].
  apply no_exit_of_sum.
Qed.

Lemma no_exit_cos_paginate params : no_exit (cos_paginate (Server := Server) params).
Proof.
  intros w code. unfold cos_paginate, get_cos_cli, bind.
  destruct (cos_cli w) as [c|]; discriminate.
Qed.

End Outcomes.

(** Walks through a statement that always ends normally, or never exits. *)
Ltac outcome_tac :=
  repeat match goal with
    | |- returns (bind _ _) => apply returns_bind; [|intros ?]
    | |- returns (try_except _ _) => apply returns_try_except; [|intros ?]
    | |- returns (if _ then _ else _) => apply returns_if
    | |- returns (ret _) => apply returns_ret
    | |- returns (print _) => apply returns_print
    | |- returns (print_end_space _) => apply returns_print_end_space
    | |- returns (emit _) => apply returns_emit
    | |- returns (logging_info _ _) => apply returns_logging_log
    | |- returns (logging_warning _ _) => apply returns_logging_log
    | |- returns (logging_error _ _) => apply returns_logging_log
    | |- returns (match ?x with _ => _ end) => destruct x
    | |- no_exit (bind _ _) => apply no_exit_bind; [|intros ?]
    | |- no_exit (if _ then _ else _) => apply no_exit_if
    | |- no_exit (raise _) => apply no_exit_raise
    | |- no_exit get_cos_cli => apply no_exit_get_cos_cli
    | |- no_exit (cos_head_object _ _) => apply no_exit_cos_head_object
    | |- no_exit (cos_restore_object _ _ _) => apply no_exit_cos_restore_object
    | |- no_exit (cos_paginate _) => apply no_exit_cos_paginate
    | |- no_exit (ret _) => apply returns_no_exit, returns_ret
    | |- no_exit (print _) => apply returns_no_exit, returns_print
    | |- no_exit (print_end_space _) => apply returns_no_exit, returns_print_end_space
    | |- no_exit (emit _) => apply returns_no_exit, returns_emit
    | |- no_exit (logging_info _ _) => apply returns_no_exit, returns_logging_log
    | |- no_exit (logging_warning _ _) => apply returns_no_exit, returns_logging_log
    | |- no_exit (logging_error _ _) => apply returns_no_exit, returns_logging_log
    | |- no_exit (match ?x with _ => _ end) => destruct x
    end.

(** Walks through a statement, leaving the conditions on its events. *)
Ltac steps_tac :=
  repeat match goal with
    | |- steps _ _ (bind _ _) => apply steps_bind; [|intros ?]
    | |- steps _ _ (try_except _ _) => apply steps_try_except; [|intros ?]
    | |- steps _ _ (if _ then _ else _) => apply steps_if
    | |- steps _ _ (ret _) => apply steps_ret
    | |- steps _ _ (raise _) => apply steps_raise
    | |- steps _ _ (exit _) => apply steps_exit
    | |- steps _ _ (print _) => apply steps_print
    | |- steps _ _ (print_end_space _) => apply steps_print_end_space
    | |- steps _ _ get_cos_cli => apply steps_get_cos_cli
    | |- steps _ _ (emit _) => apply steps_emit; [|reflexivity]
    | |- steps _ _ (logging_info _ _) => apply steps_logging_log
    | |- steps _ _ (logging_warning _ _) => apply steps_logging_log
    | |- steps _ _ (logging_error _ _) => apply steps_logging_log
    | |- steps _ _ (cos_head_object _ _) => apply steps_cos_head_object
    | |- steps _ _ (cos_restore_object _ _ _) => apply steps_cos_restore_object
    | |- steps _ _ (cos_paginate _) => apply steps_cos_paginate
    | |- steps _ _ (match ?x with _ => _ end) => destruct x
    end.

(* ===================================================================== *)
(** ** restore_object *)
(* ===================================================================== *)

Section RestoreObject.
Context {Server : Type}.
Variable asctime : nat -> string.
Implicit Types (w : World Server) (P : Event -> Prop).

Lemma steps_restore_object P bucket key days index :
  P (EvHead bucket key) -> P (EvRestore bucket key days) ->
  (forall levelname message, P (EvLog levelname message)) ->
  steps asctime P (restore_object (Server := Server) asctime bucket key days index).
Proof.
  intros Hh Hr Hl. unfold restore_object. steps_tac; auto.
Qed.

Lemma truthy_dict_lookup (d : gmap string string) (k : string) :
  truthy_opt (d !! k) = true -> truthy_dict d = true.
Proof.
  unfold truthy_dict. intros H. destruct (bool_decide_reflect (d = ∅)) as [-> | ]; [|reflexivity].
  now rewrite lookup_empty in H.
Qed.

(** Every run of [restore_object] returns one of the three outcomes. *)
Lemma restore_object_returns bucket key days index w :
  exists st w',
    restore_object asctime bucket key days index w = (Ok st, w') /\
    (st = Restored \/ st = AlreadyRestored \/ st = Error).
Proof.
  unfold restore_object, try_except, cos_head_object, get_cos_cli, bind.
  destruct (cos_cli w) as [c|] eqn:Hc; simpl.
  2:{ eexists _, _. split; [reflexivity|]. right; right; reflexivity. }
  destruct (head_object c (server w) bucket key) as [[e|d] s]; simpl.
  { eexists _, _. split; [reflexivity|]. right; right; reflexivity. }
  destruct (truthy_dict d); simpl.
  2:{ eexists _, _. split; [reflexivity|]. right; right; reflexivity. }
  destruct (truthy_opt (d !! "Restore")); simpl.
  { destruct (contains ongoing_request_false _); simpl;
      (eexists _, _; split; [reflexivity|]; right; left; reflexivity). }
  unfold cos_restore_object, get_cos_cli, bind. simpl. rewrite Hc. simpl.
  destruct (restore_object_request c s bucket key days) as [[e|[ ]] s']; simpl.
  - eexists _, _. split; [reflexivity|]. right; right; reflexivity.
  - eexists _, _. split; [reflexivity|]. left; reflexivity.
Qed.

Lemma restore_object_total_one bucket key days index w :
  exists st w',
    restore_object asctime bucket key days index w = (Ok st, w') /\ status_total st = 1.
Proof.
  destruct (restore_object_returns bucket key days index w) as (st & w' & E & H).
  exists st, w'. split; [assumption|].
  destruct H as [-> | [-> | ->]]; reflexivity.
Qed.

(** An object with a restore state: no request, a warning, [AlreadyRestored]. *)
Lemma restore_object_state_present c w bucket key days index d s :
  cos_cli w = Some c ->
  head_object c (server w) bucket key = (inr d, s) ->
  truthy_opt (d !! "Restore") = true ->
  exists w' message,
    restore_object asctime bucket key days index w = (Ok AlreadyRestored, w') /\
    events w' = events w ++ [EvHead bucket key; EvLog "WARNING" message] /\
    server w' = s.
Proof.
  intros Hc Hh Ht.
  unfold restore_object, try_except, cos_head_object, get_cos_cli, bind.
  rewrite Hc. simpl. rewrite Hh. simpl.
  rewrite (truthy_dict_lookup d "Restore" Ht), Ht.
  destruct (contains ongoing_request_false _); simpl;
    (eexists _, _; split; [reflexivity|]; simpl; split; [|reflexivity];
     rewrite <- app_assoc; reflexivity).
Qed.

(** [Restored] is only returned after a probe that showed no restore
    state and a restore request that succeeded. *)
Lemma restore_object_restored_only bucket key days index w st w' :
  restore_object asctime bucket key days index w = (Ok st, w') ->
  restored st <> 0 ->
  exists c d s s' message,
    cos_cli w = Some c /\
    head_object c (server w) bucket key = (inr d, s) /\
    truthy_opt (d !! "Restore") = false /\
    restore_object_request c s bucket key days = (inr tt, s') /\
    st = Restored /\
    events w' = events w ++ [EvHead bucket key; EvRestore bucket key days;
                             EvLog "INFO" message].
Proof.
  unfold restore_object, try_except, cos_head_object, get_cos_cli, bind.
  destruct (cos_cli w) as [c|] eqn:Hc; simpl.
  2:{ intros [= <- <-] H. now simpl in H. }
  destruct (head_object c (server w) bucket key) as [[e|d] s] eqn:Hh; simpl.
  { intros [= <- <-] H. now simpl in H. }
  destruct (truthy_dict d); simpl.
  2:{ intros [= <- <-] H. now simpl in H. }
  destruct (truthy_opt (d !! "Restore")) eqn:Ht; simpl.
  { destruct (contains ongoing_request_false _); simpl;
      intros [= <- <-] H; now simpl in H. }
  unfold cos_restore_object, get_cos_cli, bind. simpl. rewrite Hc. simpl.
  destruct (restore_object_request c s bucket key days) as [[e|[ ]] s'] eqn:Hr; simpl.
  - intros [= <- <-] H. now simpl in H.
  - intros [= <- <-] _. exists c, d, s, s'. eexists.
    repeat split; try assumption; try reflexivity.
    simpl. rewrite <- !app_assoc. reflexivity.
Qed.

(** An exception in the steps: an error record, [Error], nothing raised. *)
Lemma restore_object_exception w bucket key days index e :
  step_exception w bucket key days = Some e ->
  exists w' evs,
    restore_object asctime bucket key days index w = (Ok Error, w') /\
    events w' = events w ++ evs
                  ++ [EvLog "ERROR"
                        ("Failed to restore object '" +:+ key +:+ "' (index="
                           +:+ str_int index +:+ "): " +:+ str_error e)] /\
    log_records evs = [].
Proof.
  unfold step_exception, restore_object, try_except, cos_head_object, get_cos_cli, bind.
  destruct (cos_cli w) as [c|] eqn:Hc; simpl.
  2:{ intros [= <-]. eexists _, []. repeat split. }
  destruct (head_object c (server w) bucket key) as [[e'|d] s] eqn:Hh; simpl.
  { intros [= <-]. eexists _, [EvHead bucket key]. repeat split.
    simpl. now rewrite <- app_assoc. }
  destruct (truthy_dict d); simpl; [|discriminate].
  destruct (truthy_opt (d !! "Restore")) eqn:Ht; simpl; [discriminate|].
  unfold cos_restore_object, get_cos_cli, bind. simpl. rewrite Hc. simpl.
  destruct (restore_object_request c s bucket key days) as [[e'|[ ]] s'] eqn:Hr; simpl;
    [|discriminate].
  intros [= <-]. eexists _, [EvHead bucket key; EvRestore bucket key days].
  repeat split. simpl. now rewrite <- !app_assoc.
Qed.

End RestoreObject.

(* ===================================================================== *)
(** ** The pages of a run *)
(* ===================================================================== *)

Section Pages.
Context {Server : Type}.
Variable asctime : nat -> string.
Implicit Types (w : World Server) (P : Event -> Prop).

Lemma no_submission_all (evs : list Event) :
  Forall no_submission evs -> submissions evs = [].
Proof.
  induction 1 as [|e evs He _ IH]; [reflexivity|].
  change (e :: evs) with ([e] ++ evs). now rewrite submissions_app, He, IH.
Qed.

(** The submission loop: every object gets a task with the next index,
    and every task returns one outcome. *)
Lemma submit_tasks_run bucket days (objs : list string) index w :
  exists results w' evs,
    submit_tasks asctime bucket days objs index w
      = (Ok (results, index + Z.of_nat (length objs)), w') /\
    length results = length objs /\
    Forall (fun r => status_total r = 1) results /\
    events w' = events w ++ evs /\
    submissions evs = combine objs (Zseq index (length objs)).
Proof.
  revert index w. induction objs as [|object rest IH]; intros index w.
  - exists [], w, []. cbn [submit_tasks length]. unfold ret.
    rewrite Z.add_0_r, app_nil_r. repeat split. constructor.
  - cbn [submit_tasks]. unfold bind at 1. unfold emit at 1.
    set (w1 := add_event Server (EvSubmit object index) w).
    unfold bind at 1.
    destruct (restore_object_total_one asctime bucket object days index w1)
      as (st & w2 & E2 & Hst).
    pose proof (steps_restore_object asctime no_submission bucket object days index
                  eq_refl eq_refl (fun _ _ => eq_refl) w1) as Hext.
    rewrite E2 in Hext |- *. cbn [snd] in Hext.
    destruct Hext as (_ & evs2 & He2 & HP2 & _).
    destruct (IH (index + 1) w2) as (results & w3 & evs3 & E3 & Hlen & Hall & He3 & Hs3).
    unfold bind at 1. rewrite E3. cbn [fst snd]. unfold ret.
    exists (st :: results), w3, ([EvSubmit object index] ++ evs2 ++ evs3).
    repeat split.
    + do 3 f_equal. cbn [length]. lia.
    + cbn [length]. now rewrite Hlen.
    + now constructor.
    + rewrite He3, He2. subst w1. cbn [events add_event]. now rewrite <- !app_assoc.
    + rewrite !submissions_app, (no_submission_all _ HP2), Hs3. reflexivity.
Qed.

(** One page: either the body fails before any task is submitted, or
    every archived object of the page is submitted and counted once. *)
Lemma restore_page_run bucket threads days page status index w :
  (exists e, restore_page asctime bucket threads days page status index w = (Raise (Err e), w)
             /\ (Contents page = None \/ threads <= 0)) \/
  (exists objects status' w' evs,
     Contents page = Some objects /\ 0 < threads /\
     restore_page asctime bucket threads days page status index w
       = (Ok (status', index + Z.of_nat (length (archived_keys objects))), w') /\
     status_total status'
       = status_total status + Z.of_nat (length (archived_keys objects)) /\
     events w' = events w ++ evs /\
     submissions evs
       = combine (archived_keys objects) (Zseq index (length (archived_keys objects)))).
Proof.
  unfold restore_page, ThreadPoolExecutor.
  destruct (Contents page) as [objects|] eqn:Hc.
  2:{ left. eexists. split; [reflexivity|]. now left. }
  destruct (Z.leb_spec threads 0) as [Hle|Hgt]; cbv beta iota delta [bind ret raise].
  { left. eexists. split; [reflexivity|]. now right. }
  right.
  destruct (submit_tasks_run bucket days (archived_keys objects) index w)
    as (results & w' & evs & E & Hlen & Hall & He & Hs).
  rewrite E. cbn [fst snd].
  exists objects, (fold_results status results), w', evs.
  repeat split; try assumption.
  rewrite status_total_fold_results by assumption. now rewrite Hlen.
Qed.

Lemma combine_Zseq_fst (l : list string) (index : Z) :
  map fst (combine l (Zseq index (length l))) = l.
Proof.
  revert index. induction l as [|x l IH]; intros index; [reflexivity|].
  cbn [length Zseq combine map fst]. now rewrite IH.
Qed.

Lemma combine_Zseq_snd (l : list string) (index : Z) :
  map snd (combine l (Zseq index (length l))) = Zseq index (length l).
Proof.
  revert index. induction l as [|x l IH]; intros index; [reflexivity|].
  cbn [length Zseq combine map snd]. now rewrite IH.
Qed.

Lemma archived_keys_app (l1 l2 : list Object) :
  archived_keys (l1 ++ l2) = archived_keys l1 ++ archived_keys l2.
Proof. unfold archived_keys. now rewrite List.filter_app, map_app. Qed.

(** The loop over the pages, whatever its outcome: the indices of the
    submitted tasks are consecutive from the start index; when the loop
    ends normally the listing was complete and the status has grown by
    one for each archived object of it. *)
Lemma restore_pages_run bucket threads days pages status index w r w' :
  restore_pages asctime bucket threads days pages status index w = (r, w') ->
  exists evs,
    events w' = events w ++ evs /\
    map snd (submissions evs) = Zseq index (length (submissions evs)) /\
    (forall st, r = Ok st ->
       complete_listing pages /\
       status_total st = status_total status + Z.of_nat (length (submissions evs)) /\
       map fst (submissions evs) = archived_keys (listed_objects pages)) /\
    (forall code, r <> Raise (SystemExit code)).
Proof.
  revert status index w. induction pages as [|[e|page] rest IH]; intros status index w.
  - cbn [restore_pages]. unfold ret. intros [= <- <-]. exists [].
    rewrite app_nil_r. split; [reflexivity|]. split; [reflexivity|].
    split; [|discriminate].
    intros st [= <-]. split; [constructor|]. split; [simpl; lia|reflexivity].
  - cbn [restore_pages]. unfold raise. intros [= <- <-]. exists [].
    rewrite app_nil_r. split; [reflexivity|]. split; [reflexivity|].
    split; [intros st [=]|discriminate].
  - cbn [restore_pages]. unfold bind.
    destruct (restore_page_run bucket threads days page status index w)
      as [(e & E & _)|(objects & st1 & w1 & evs1 & Hc & Hthr & E & Htot & He & Hs)].
    + rewrite E. intros [= <- <-]. exists [].
      rewrite app_nil_r. split; [reflexivity|]. split; [reflexivity|].
      split; [intros st [=]|discriminate].
    + rewrite E. cbn [fst snd]. intros Hrest.
      destruct (IH _ _ _ Hrest) as (evs2 & He2 & Hidx2 & Hok & Hexit).
      exists (evs1 ++ evs2). rewrite submissions_app, length_app, !map_app.
      assert (Hlen1 : length (submissions evs1) = length (archived_keys objects)).
      { rewrite Hs, length_combine, Zseq_length. lia. }
      split; [|split; [|split; [|assumption]]].
      * rewrite He2, He. now rewrite app_assoc.
      * rewrite Zseq_app, Hidx2, Hlen1. f_equal.
        rewrite Hs. apply combine_Zseq_snd.
      * intros st Hst. destruct (Hok st Hst) as (Hcl & Htot2 & Hk).
        destruct page as [c]. simpl in Hc. subst c.
        split; [|split].
        -- constructor; [|assumption]. now exists objects.
        -- rewrite Htot2, Htot, Hlen1. lia.
        -- rewrite Hk, Hs, combine_Zseq_fst. cbn [listed_objects].
           now rewrite archived_keys_app.
Qed.

(** A complete listing is gone through to its end. *)
Lemma restore_pages_complete bucket threads days pages status index w :
  complete_listing pages -> 0 < threads ->
  exists st w', restore_pages asctime bucket threads days pages status index w = (Ok st, w').
Proof.
  intros Hcl Hthr. revert status index w.
  induction Hcl as [|p rest (objects & ->) _ IH]; intros status index w.
  - eexists _, _. reflexivity.
  - cbn [restore_pages]. unfold bind.
    destruct (restore_page_run bucket threads days (mkPage (Some objects))
                status index w)
      as [(e & E & [Hc|Hle])|(objects' & st1 & w1 & evs1 & Hc & _ & E & _)].
    + discriminate.
    + lia.
    + rewrite E. apply IH.
Qed.

Lemma steps_submit_tasks P bucket days (objs : list string) index :
  (forall key, In key objs ->
     P (EvHead bucket key) /\ P (EvRestore bucket key days) /\ forall i, P (EvSubmit key i)) ->
  (forall levelname message, P (EvLog levelname message)) ->
  steps asctime P (submit_tasks (Server := Server) asctime bucket days objs index).
Proof.
  intros Hk Hl. revert index. induction objs as [|object rest IH]; intros index.
  - apply steps_ret.
  - destruct (Hk object (or_introl eq_refl)) as (Hh & Hr & Hs).
    cbn [submit_tasks]. steps_tac; auto.
    + now apply steps_restore_object.
    + apply IH. intros key Hin. apply Hk. now right.
Qed.

Lemma steps_restore_page P bucket threads days page status index :
  (forall key, In key (archived_keys (default [] (Contents page))) ->
     P (EvHead bucket key) /\ P (EvRestore bucket key days) /\ forall i, P (EvSubmit key i)) ->
  (forall levelname message, P (EvLog levelname message)) ->
  steps asctime P (restore_page (Server := Server) asctime bucket threads days page status index).
Proof.
  intros Hk Hl. unfold restore_page, ThreadPoolExecutor.
  destruct (Contents page) as [objects|].
  - rewrite bind_ret_l. steps_tac. now apply steps_submit_tasks.
  - rewrite bind_raise_l. apply steps_raise.
Qed.

Lemma steps_restore_pages P bucket threads days pages status index :
  (forall key, P (EvHead bucket key) /\ P (EvRestore bucket key days)
               /\ forall i, P (EvSubmit key i)) ->
  (forall levelname message, P (EvLog levelname message)) ->
  steps asctime P (restore_pages (Server := Server) asctime bucket threads days pages status index).
Proof.
  intros Hk Hl. revert status index.
  induction pages as [|[e|page] rest IH]; intros status index; cbn [restore_pages].
  - apply steps_ret.
  - apply steps_raise.
  - steps_tac; [|apply IH]. apply steps_restore_page; auto.
Qed.

Lemma count_pages_run (pages : list (py_exception + Page)) count w :
  (exists n, count_pages pages count w = (Ok n, w)) \/
  (exists e, count_pages pages count w = (Raise (Err e), w)).
Proof.
  revert count. induction pages as [|[e|page] rest IH]; intros count; cbn [count_pages].
  - left. now eexists.
  - right. now eexists.
  - apply IH.
Qed.

Lemma steps_count_pages P (pages : list (py_exception + Page)) count :
  steps asctime P (count_pages (Server := Server) pages count).
Proof.
  intros w. destruct (count_pages_run pages count w) as [(n & ->)|(e & ->)];
    apply extends_refl.
Qed.

Lemma steps_get_page_count P bucket max_keys prefix start_after :
  (forall pfx, P (EvPaginate (mkListParams bucket pfx max_keys start_after))) ->
  (forall levelname message, P (EvLog levelname message)) ->
  steps asctime P (get_page_count (Server := Server) asctime bucket max_keys prefix start_after).
Proof.
  intros Hp Hl. unfold get_page_count. steps_tac; auto.
  apply steps_count_pages.
Qed.

Lemma no_exit_count_pages (pages : list (py_exception + Page)) count :
  no_exit (count_pages (Server := Server) pages count).
Proof.
  intros w code. destruct (count_pages_run pages count w) as [(n & ->)|(e & ->)];
    discriminate.
Qed.

(** [get_page_count] catches what the listing raises. *)
Lemma returns_get_page_count bucket max_keys prefix start_after :
  returns (get_page_count (Server := Server) asctime bucket max_keys prefix start_after).
Proof.
  unfold get_page_count. outcome_tac. apply no_exit_count_pages.
Qed.

Lemma returns_restore_object bucket key days index :
  returns (restore_object (Server := Server) asctime bucket key days index).
Proof.
  intros w. destruct (restore_object_returns asctime bucket key days index w)
    as (st & w' & -> & _). now exists st.
Qed.

Lemma returns_listing_failed e : returns (listing_failed (Server := Server) asctime e).
Proof. unfold listing_failed. outcome_tac. Qed.

Lemma steps_listing_failed P e :
  (forall levelname message, P (EvLog levelname message)) ->
  steps asctime P (listing_failed (Server := Server) asctime e).
Proof. intros Hl. unfold listing_failed. steps_tac; auto. Qed.

Lemma no_exit_restore_pages bucket threads days pages status index :
  no_exit (restore_pages (Server := Server) asctime bucket threads days pages status index).
Proof.
  intros w code.
  destruct (restore_pages asctime bucket threads days pages status index w) as [r w'] eqn:E.
  destruct (restore_pages_run _ _ _ _ _ _ _ _ _ E) as (_ & _ & _ & _ & H). apply H.
Qed.

Lemma no_exit_list_pages bucket max_keys prefix start_after start_index object_count :
  no_exit (list_pages (Server := Server) asctime bucket max_keys prefix start_after
             start_index object_count).
Proof.
  unfold list_pages, page_count_no_prefix, ceil_div. outcome_tac.
  apply returns_no_exit, returns_get_page_count.
Qed.

Lemma steps_list_pages P bucket max_keys prefix start_after start_index object_count :
  (forall pfx, P (EvPaginate (mkListParams bucket pfx max_keys start_after))) ->
  (forall levelname message, P (EvLog levelname message)) ->
  steps asctime P (list_pages (Server := Server) asctime bucket max_keys prefix start_after
                     start_index object_count).
Proof.
  intros Hp Hl. unfold list_pages, page_count_no_prefix, ceil_div. steps_tac; auto.
  now apply steps_get_page_count.
Qed.

(** A run of [restore_objects] always gives a status or [None]. *)
Lemma returns_restore_objects bucket max_keys prefix threads days start_after start_index
    object_count :
  returns (restore_objects (Server := Server) asctime bucket max_keys prefix threads days
             start_after start_index object_count).
Proof.
  unfold restore_objects, restore_objects_try. outcome_tac.
  - apply no_exit_list_pages.
  - apply no_exit_restore_pages.
  - apply returns_listing_failed.
Qed.

Lemma steps_restore_objects P bucket max_keys prefix threads days start_after start_index
    object_count :
  (forall pfx, P (EvPaginate (mkListParams bucket pfx max_keys start_after))) ->
  (forall key, P (EvHead bucket key) /\ P (EvRestore bucket key days)
               /\ forall i, P (EvSubmit key i)) ->
  (forall total, P (EvTqdmTotal total)) ->
  (forall levelname message, P (EvLog levelname message)) ->
  steps asctime P (restore_objects (Server := Server) asctime bucket max_keys prefix threads
                     days start_after start_index object_count).
Proof.
  intros Hp Hk Ht Hl. unfold restore_objects, restore_objects_try. steps_tac; auto.
  - now apply steps_list_pages.
  - now apply steps_restore_pages.
  - now apply steps_listing_failed.
Qed.

Lemma submitted_refl w : submitted [] w w.
Proof. exists []. now rewrite app_nil_r. Qed.

Lemma submitted_trans l1 l2 w1 w2 w3 :
  submitted l1 w1 w2 -> submitted l2 w2 w3 -> submitted (l1 ++ l2) w1 w3.
Proof.
  intros (evs1 & E1 & <-) (evs2 & E2 & <-). exists (evs1 ++ evs2).
  split; [|apply submissions_app]. rewrite E2, E1. now rewrite app_assoc.
Qed.

Lemma extends_submitted w w' : extends asctime no_submission w w' -> submitted [] w w'.
Proof.
  intros (_ & evs & E & HP & _). exists evs. split; [assumption|].
  now apply no_submission_all.
Qed.

Lemma first_index_succ (start_index : Z) :
  (if start_index =? -1 then 0 else start_index + 1) = start_index + 1.
Proof. destruct (Z.eqb_spec start_index (-1)); lia. Qed.

Lemma get_cos_cli_run w r w' :
  get_cos_cli w = (r, w') ->
  w' = w /\ forall c, r = Ok c -> cos_cli w = Some c.
Proof.
  unfold get_cos_cli. destruct (cos_cli w) as [c|]; intros [= <- <-]; split; try reflexivity.
  - now intros c' [= ->].
  - discriminate.
Qed.

Lemma cos_paginate_run c params w r w' :
  cos_cli w = Some c -> cos_paginate params w = (r, w') ->
  r = Ok (paginate c (server w) params) /\ w' = add_event Server (EvPaginate params) w.
Proof.
  intros Hc. unfold cos_paginate, get_cos_cli, bind. rewrite Hc. now intros [= <- <-].
Qed.

(** The pages [list_pages] hands over are those of the listing made
    with the start-after key of the run. *)
Lemma list_pages_run c bucket max_keys prefix start_after start_index object_count w r w' :
  cos_cli w = Some c ->
  list_pages asctime bucket max_keys prefix start_after start_index object_count w = (r, w') ->
  (exists evs, events w' = events w
                 ++ EvPaginate (listing_params bucket max_keys prefix start_after) :: evs) /\
  forall pages page_count, r = Ok (pages, page_count) ->
    pages = paginate c (server w) (listing_params bucket max_keys prefix start_after).
Proof.
  intros Hc. unfold list_pages, listing_params.
  destruct (truthy_opt prefix); cbn [negb]; intros H.
  - apply bind_inv in H as [(pages & w1 & E1 & H)|(e & E1 & ->)];
      destruct (cos_paginate_run _ _ _ _ _ Hc E1) as [[= ->] ->].
    pose proof (steps_bind asctime (fun _ => True) _ _
                  (steps_get_page_count (fun _ => True) bucket max_keys prefix start_after
                     (fun _ => I) (fun _ _ => I))
                  (fun page_count => steps_ret asctime (fun _ => True)
                                       (paginate c (server w) {| Bucket := bucket; Prefix := prefix; MaxKeys := max_keys; StartAfter := start_after |}, page_count))
                  (add_event Server (EvPaginate (mkListParams bucket prefix max_keys start_after)) w))
      as Hext.
    rewrite H in Hext. destruct Hext as (_ & evs & He & _). cbn [snd events add_event] in He.
    split.
    + exists evs. rewrite He. now rewrite <- app_assoc.
    + intros pages pc ->.
      apply bind_inv in H as [(pc' & w2 & E2 & H)|(e & E2 & [=])].
      now injection H as <- _ _.
  - apply bind_inv in H as [(pages & w1 & E1 & H)|(e & E1 & ->)];
      destruct (cos_paginate_run _ _ _ _ _ Hc E1) as [[= ->] ->].
    unfold page_count_no_prefix, ceil_div in H.
    split.
    + exists []. cbv beta iota delta [bind ret raise] in H.
      destruct (negb (truthy start_after)), (max_keys =? 0); injection H as _ <-;
        reflexivity.
    + intros pages pc ->.
      apply bind_inv in H as [(pc' & w2 & E2 & H)|(e & E2 & [=])].
      now injection H as <- _ _.
Qed.

Lemma listing_failed_None e w : fst (listing_failed asctime e w) = Ok None.
Proof. destruct e; reflexivity. Qed.

(** The [try] block: what it submits and, when it ends normally, what
    its status counts. *)
Lemma restore_objects_try_run bucket max_keys prefix threads days start_after start_index
    object_count w r w' :
  restore_objects_try asctime bucket max_keys prefix threads days start_after start_index
    object_count w = (r, w') ->
  exists l,
    submitted l w w' /\
    map snd l = Zseq (start_index + 1) (length l) /\
    (forall o, r = Ok o ->
       exists c st, o = Some st /\ cos_cli w = Some c /\
         complete_listing
           (paginate c (server w) (listing_params bucket max_keys prefix start_after)) /\
         status_total st = Z.of_nat (length l) /\
         map fst l
           = archived_keys
               (listed_objects
                  (paginate c (server w) (listing_params bucket max_keys prefix start_after)))).
Proof.
  unfold restore_objects_try. rewrite first_index_succ. intros H.
  apply bind_inv in H as [(c & w1 & E1 & H)|(e & E1 & ->)];
    destruct (get_cos_cli_run _ _ _ E1) as [-> Hc].
  2:{ exists []. split; [apply submitted_refl|]. split; [reflexivity|]. intros o [=]. }
  specialize (Hc c eq_refl).
  apply bind_inv in H as [([pages pc] & w2 & E2 & H)|(e & E2 & ->)].
  2:{ exists []. split; [|split; [reflexivity|intros o [=]]].
      apply extends_submitted.
      pose proof (steps_list_pages no_submission bucket max_keys prefix start_after
                    start_index object_count (fun _ => eq_refl) (fun _ _ => eq_refl) w) as Hs.
      now rewrite E2 in Hs. }
  assert (Hs2 : submitted [] w w2).
  { apply extends_submitted.
    pose proof (steps_list_pages no_submission bucket max_keys prefix start_after
                  start_index object_count (fun _ => eq_refl) (fun _ _ => eq_refl) w) as Hs.
    now rewrite E2 in Hs. }
  destruct (list_pages_run _ _ _ _ _ _ _ _ _ _ Hc E2) as [_ Hpages].
  specialize (Hpages pages pc eq_refl). cbn [fst snd] in H.
  apply bind_inv in H as [(u & w3 & E3 & H)|(e & [=] & _)].
  injection E3 as _ <-.
  assert (Hs3 : submitted [] w (add_event Server (EvTqdmTotal pc) w2)).
  { change (@nil (string * Z)) with (@nil (string * Z) ++ []).
    eapply submitted_trans; [exact Hs2|]. now exists [EvTqdmTotal pc]. }
  apply bind_inv in H as [(st & w4 & E4 & H)|(e & E4 & ->)];
    destruct (restore_pages_run _ _ _ _ _ _ _ _ _ E4) as (evs & He & Hidx & Hok & _).
  - injection H as <- <-. exists (submissions evs).
    split; [|split; [assumption|]].
    + change (submissions evs) with ([] ++ submissions evs).
      eapply submitted_trans; [exact Hs3|]. now exists evs.
    + intros o [= <-]. destruct (Hok st eq_refl) as (Hcl & Htot & Hk).
      exists c, st. rewrite <- Hpages. repeat split; assumption.
  - exists (submissions evs).
    split; [|split; [assumption|intros o [=]]].
    change (submissions evs) with ([] ++ submissions evs).
    eapply submitted_trans; [exact Hs3|]. now exists evs.
Qed.

Lemma bind_Ok {A B} (m : M Server A) (f : A -> M Server B) w a w1 :
  m w = (Ok a, w1) -> bind m f w = f a w1.
Proof. unfold bind. now intros ->. Qed.

Lemma try_except_Ok {A} (body : M Server A) handler w a w1 :
  body w = (Ok a, w1) -> try_except body handler w = (Ok a, w1).
Proof. unfold try_except. now intros ->. Qed.

(** The opening record of [restore_objects]. *)
Lemma logging_log_run levelname message w :
  exists w1,
    logging_log asctime levelname message w = (Ok tt, w1) /\
    cos_cli w1 = cos_cli w /\ server w1 = server w /\ submitted [] w w1.
Proof.
  eexists. split; [reflexivity|]. split; [reflexivity|]. split; [reflexivity|].
  now exists [EvLog levelname message].
Qed.

(** A run of [restore_objects], whatever its outcome: the indices of
    the submitted tasks are consecutive from [start_index + 1]; a run
    that returns a status has gone through the whole listing and counted
    every archived object of it once. *)
Lemma restore_objects_run bucket max_keys prefix threads days start_after start_index
    object_count w r w' :
  restore_objects asctime bucket max_keys prefix threads days start_after start_index
    object_count w = (r, w') ->
  exists l,
    submitted l w w' /\
    map snd l = Zseq (start_index + 1) (length l) /\
    (forall st, r = Ok (Some st) ->
       exists c, cos_cli w = Some c /\
         complete_listing
           (paginate c (server w) (listing_params bucket max_keys prefix start_after)) /\
         status_total st = Z.of_nat (length l) /\
         map fst l
           = archived_keys
               (listed_objects
                  (paginate c (server w) (listing_params bucket max_keys prefix start_after)))).
Proof.
  unfold restore_objects. intros H.
  assert (exists w1 message,
            logging_log asctime "INFO" message w = (Ok tt, w1) /\
            try_except
              (restore_objects_try asctime bucket max_keys prefix threads days start_after
                 start_index object_count)
              (listing_failed asctime) w1 = (r, w'))
    as (w1 & message & E1 & H1).
  { destruct (negb (truthy start_after)); eexists _, _; (split; [reflexivity|exact H]). }
  clear H.
  destruct (logging_log_run "INFO" message w) as (w1' & E1' & Hc1 & Hs1 & Hsub1).
  rewrite E1 in E1'. injection E1' as <-.
  apply try_except_inv in H1 as [(e & w2 & Eb & Hh)|(Eb & _)];
    destruct (restore_objects_try_run _ _ _ _ _ _ _ _ _ _ _ Eb) as (l & Hsub & Hidx & Hok).
  - exists l. split; [|split; [assumption|]].
    + change l with ([] ++ l). eapply submitted_trans; [exact Hsub1|].
      rewrite <- (app_nil_r l). eapply submitted_trans; [exact Hsub|].
      apply extends_submitted.
      pose proof (steps_listing_failed no_submission e (fun _ _ => eq_refl) w2) as Hs.
      now rewrite Hh in Hs.
    + intros st ->. pose proof (listing_failed_None e w2) as Hn.
      rewrite Hh in Hn. discriminate.
  - exists l. split; [|split; [assumption|]].
    + change l with ([] ++ l). eapply submitted_trans; eassumption.
    + intros st ->. destruct (Hok _ eq_refl) as (c & st' & [= <-] & Hc & Hrest).
      exists c. rewrite <- Hc1, <- Hs1. now split.
Qed.

Lemma list_pages_ok c bucket max_keys prefix start_after start_index object_count w :
  cos_cli w = Some c ->
  truthy_opt prefix = true \/ max_keys <> 0 ->
  exists page_count w',
    list_pages asctime bucket max_keys prefix start_after start_index object_count w
      = (Ok (paginate c (server w) (listing_params bucket max_keys prefix start_after),
             page_count), w').
Proof.
  intros Hc Hp. unfold list_pages, listing_params.
  destruct (truthy_opt prefix) eqn:Ht; cbn [negb].
  - destruct (returns_run _
                (add_event Server (EvPaginate (mkListParams bucket prefix max_keys start_after)) w)
                (returns_get_page_count bucket max_keys prefix start_after))
      as (pc & w2 & E2).
    exists pc, w2. unfold cos_paginate, get_cos_cli.
    cbv beta iota delta [bind ret]. rewrite Hc. now rewrite E2.
  - destruct Hp as [|Hm]; [discriminate|].
    unfold page_count_no_prefix, ceil_div, cos_paginate, get_cos_cli.
    cbv beta iota delta [bind ret]. rewrite Hc.
    destruct (Z.eqb_spec max_keys 0) as [|_]; [contradiction|].
    destruct (negb (truthy start_after)); now eexists _, _.
Qed.

(** With the client in place, a worker count above zero and a listing
    that arrives whole, the run returns a status. *)
Lemma restore_objects_complete c bucket max_keys prefix threads days start_after start_index
    object_count w :
  cos_cli w = Some c -> 0 < threads ->
  truthy_opt prefix = true \/ max_keys <> 0 ->
  complete_listing
    (paginate c (server w) (listing_params bucket max_keys prefix start_after)) ->
  exists st w',
    restore_objects asctime bucket max_keys prefix threads days start_after start_index
      object_count w = (Ok (Some st), w').
Proof.
  intros Hc Hthr Hp Hcl. unfold restore_objects.
  assert (exists message,
            (if negb (truthy start_after)
             then logging_info asctime _ else logging_info asctime _)
            = logging_log (Server := Server) asctime "INFO" message) as (message & ->).
  { destruct (negb (truthy start_after)); now eexists. }
  destruct (logging_log_run "INFO" message w) as (w1 & E1 & Hc1 & Hs1 & _).
  rewrite (bind_Ok _ _ _ _ _ E1).
  rewrite <- Hc1 in Hc. rewrite <- Hs1 in Hcl.
  destruct (list_pages_ok c bucket max_keys prefix start_after start_index object_count
              w1 Hc Hp) as (pc & w2 & E2).
  destruct (restore_pages_complete bucket threads days _ (mkStatus 0 0 0)
              (if start_index =? -1 then 0 else start_index + 1)
              (add_event Server (EvTqdmTotal pc) w2) Hcl Hthr) as (st & w3 & E3).
  exists st, w3. apply try_except_Ok. unfold restore_objects_try.
  assert (Eg : get_cos_cli w1 = (Ok c, w1)) by (unfold get_cos_cli; now rewrite Hc).
  rewrite (bind_Ok _ _ _ _ _ Eg), (bind_Ok _ _ _ _ _ E2). cbn [fst snd].
  unfold emit at 1. unfold bind at 1. rewrite (bind_Ok _ _ _ _ _ E3). reflexivity.
Qed.

End Pages.

(* ===================================================================== *)
(** ** The per-object restore *)
(* ===================================================================== *)

Lemma restore_object_not_found {Server} asctime (c : Client Server) w bucket key days index s :
  cos_cli w = Some c ->
  head_object c (server w) bucket key = (inr ∅, s) ->
  exists w',
    restore_object asctime bucket key days index w = (Ok Error, w') /\
    events w' = events w ++ [EvHead bucket key;
                             EvLog "ERROR" ("Object '" +:+ key +:+ "' (index="
                                              +:+ fmt_010 index +:+ ") not found.")].
Proof.
  intros Hc Hh. unfold restore_object, try_except, cos_head_object, get_cos_cli, bind.
  rewrite Hc. simpl. rewrite Hh. simpl. eexists. split; [reflexivity|].
  simpl. now rewrite <- app_assoc.
Qed.

Lemma fold_result_AlreadyRestored (status : Status) :
  fold_result status AlreadyRestored = increment_already_restored status 1.
Proof.
  unfold fold_result, increment_restored, increment_already_restored, increment_error.
  cbn [error restored already_restored AlreadyRestored]. f_equal; lia.
Qed.

(** C3.  An object whose metadata probe shows a restore state, finished or
    still in progress, gets outcome AlreadyRestored, which adds one to the
    already_restored counter only; a warning is logged and no restore
    request is sent.  The outcome Restored is returned only when the probe
    showed no restore state and the restore request succeeded. *)
Theorem restore_object_existing_restore_state :
  forall Server asctime (w : World Server) bucket key days index,
    (forall c d s,
       cos_cli w = Some c ->
       head_object c (server w) bucket key = (inr d, s) ->
       truthy_opt (d !! "Restore") = true ->
       exists w' message,
         restore_object asctime bucket key days index w = (Ok AlreadyRestored, w') /\
         events w' = events w ++ [EvHead bucket key; EvLog "WARNING" message] /\
         restore_requests (events w') = restore_requests (events w) /\
         forall status,
           fold_result status AlreadyRestored = increment_already_restored status 1) /\
    (forall st w',
       restore_object asctime bucket key days index w = (Ok st, w') ->
       restored st <> 0 ->
       exists c d s s' message,
         cos_cli w = Some c /\
         head_object c (server w) bucket key = (inr d, s) /\
         truthy_opt (d !! "Restore") = false /\
         restore_object_request c s bucket key days = (inr tt, s') /\
         st = Restored /\
         events w' = events w ++ [EvHead bucket key; EvRestore bucket key days;
                                  EvLog "INFO" message]).
Proof.
  intros Server asctime w bucket key days index. split.
  - intros c d s Hc Hh Ht.
    destruct (restore_object_state_present asctime c w bucket key days index d s Hc Hh Ht)
      as (w' & message & E & He & _).
    exists w', message. split; [assumption|]. split; [assumption|]. split.
    + rewrite He, restore_requests_app. simpl. now rewrite app_nil_r.
    + apply fold_result_AlreadyRestored.
  - intros st w'. apply restore_object_restored_only.
Qed.

Lemma restore_object_existing_restore_state_witness :
  exists w' message,
    restore_object Scenario.asctime "bucket" "a/001.bin" 5 0 Scenario.restoring
    = (Ok AlreadyRestored, w') /\
    events w' = [EvHead "bucket" "a/001.bin"; EvLog "WARNING" message].
Proof.
  destruct (proj1 (restore_object_existing_restore_state _ Scenario.asctime
                     Scenario.restoring "bucket" "a/001.bin" 5 0)
              (Scenario.client Scenario.three_objects) _ _
              eq_refl eq_refl ltac:(vm_compute; reflexivity))
    as (w' & message & E & He & _).
  exists w', message. split; assumption.
Defined.

(** C4.  Whatever happens inside a per-object restore, the function
    returns: an exception raised by the metadata probe or by the restore
    request, and an object that has vanished, give outcome Error
    (error=1, restored=0, already_restored=0) and a record at error level.
    Nothing is raised to the caller, so the submission loop of a page
    always gets one result for each of its objects. *)
Theorem restore_object_isolates_errors :
  forall Server asctime (w : World Server) bucket key days index,
    (exists st w', restore_object asctime bucket key days index w = (Ok st, w')) /\
    (forall e,
       step_exception w bucket key days = Some e ->
       exists w' evs,
         restore_object asctime bucket key days index w = (Ok (mkStatus 1 0 0), w') /\
         events w' = events w ++ evs
                       ++ [EvLog "ERROR"
                             ("Failed to restore object '" +:+ key +:+ "' (index="
                                +:+ str_int index +:+ "): " +:+ str_error e)] /\
         log_records evs = []) /\
    (forall c s,
       cos_cli w = Some c ->
       head_object c (server w) bucket key = (inr ∅, s) ->
       exists w',
         restore_object asctime bucket key days index w = (Ok (mkStatus 1 0 0), w') /\
         events w' = events w ++ [EvHead bucket key;
                                  EvLog "ERROR" ("Object '" +:+ key +:+ "' (index="
                                                   +:+ fmt_010 index +:+ ") not found.")]) /\
    (forall objs,
       exists results w',
         submit_tasks asctime bucket days objs index w
           = (Ok (results, index + Z.of_nat (length objs)), w') /\
         length results = length objs).
Proof.
  intros Server asctime w bucket key days index. repeat split.
  - destruct (restore_object_returns asctime bucket key days index w) as (st & w' & E & _).
    now exists st, w'.
  - intros e. apply restore_object_exception.
  - intros c s. apply restore_object_not_found.
  - intros objs.
    destruct (submit_tasks_run asctime bucket days objs index w)
      as (results & w' & _ & E & Hlen & _).
    now exists results, w'.
Qed.

Lemma restore_object_isolates_errors_witness :
  exists w' evs,
    restore_object Scenario.asctime "bucket" "gone" 5 3 Scenario.archived
    = (Ok (mkStatus 1 0 0), w') /\
    events w'
    = [] ++ evs
        ++ [EvLog "ERROR"
              ("Failed to restore object 'gone' (index=3): "
                 +:+ "An error occurred (404) when calling the HeadObject operation: Not Found")] /\
    log_records evs = [].
Proof.
  apply (proj1 (proj2 (restore_object_isolates_errors _ Scenario.asctime
                         Scenario.archived "bucket" "gone" 5 3))
           (ClientError "An error occurred (404) when calling the HeadObject operation: Not Found")).
  reflexivity.
Defined.

(* ===================================================================== *)
(** ** The dispatcher *)
(* ===================================================================== *)

(** C1.  One outcome is recorded per eligible object.  For every page that
    is gone through, the status grows by exactly the number of archived
    (GLACIER or ACCELERATED) objects of the page, each of which is
    submitted once.  A run always ends with a status or with [None]; a
    status it returns counts, in its three counters together, every
    archived object of the listing once, in listing order; and with the
    client in place, at least one worker and a listing that arrives whole,
    the run does return a status. *)
Theorem restore_objects_one_outcome_per_object :
  forall Server asctime bucket max_keys prefix threads days start_after start_index
         object_count (w : World Server),
    (forall page objects status index (w0 : World Server),
       Contents page = Some objects -> 0 < threads ->
       exists status' w1,
         restore_page asctime bucket threads days page status index w0
           = (Ok (status', index + Z.of_nat (length (archived_keys objects))), w1) /\
         status_total status'
           = status_total status + Z.of_nat (length (archived_keys objects)) /\
         submitted
           (combine (archived_keys objects) (Zseq index (length (archived_keys objects))))
           w0 w1) /\
    (exists o w',
       restore_objects asctime bucket max_keys prefix threads days start_after start_index
         object_count w = (Ok o, w') /\
       forall st, o = Some st ->
         exists c l,
           cos_cli w = Some c /\
           submitted l w w' /\
           status_total st = Z.of_nat (length l) /\
           map fst l
             = archived_keys
                 (listed_objects
                    (paginate c (server w)
                       (listing_params bucket max_keys prefix start_after)))) /\
    (forall c,
       cos_cli w = Some c -> 0 < threads ->
       truthy_opt prefix = true \/ max_keys <> 0 ->
       complete_listing
         (paginate c (server w) (listing_params bucket max_keys prefix start_after)) ->
       exists st w',
         restore_objects asctime bucket max_keys prefix threads days start_after start_index
           object_count w = (Ok (Some st), w') /\
         status_total st
           = Z.of_nat
               (length
                  (List.filter is_archived
                     (listed_objects
                        (paginate c (server w)
                           (listing_params bucket max_keys prefix start_after)))))).
Proof.
  intros Server asctime bucket max_keys prefix threads days start_after start_index
    object_count w.
  split; [|split].
  - intros page objects status index w0 Hc Hthr.
    destruct (restore_page_run asctime bucket threads days page status index w0)
      as [(e & _ & [Hn|Hle])|(objects' & st1 & w1 & evs & Hc' & _ & E & Htot & He & Hs)].
    + congruence.
    + lia.
    + rewrite Hc in Hc'. injection Hc' as <-.
      exists st1, w1. split; [assumption|]. split; [assumption|]. now exists evs.
  - destruct (returns_run _ w
                (returns_restore_objects asctime bucket max_keys prefix threads days start_after
                   start_index object_count)) as (o & w' & E).
    exists o, w'. split; [assumption|]. intros st ->.
    destruct (restore_objects_run _ _ _ _ _ _ _ _ _ _ _ _ E) as (l & Hsub & _ & Hok).
    destruct (Hok st eq_refl) as (c & Hc & _ & Htot & Hk).
    now exists c, l.
  - intros c Hc Hthr Hp Hcl.
    destruct (restore_objects_complete asctime c bucket max_keys prefix threads days start_after
                start_index object_count w Hc Hthr Hp Hcl) as (st & w' & E).
    exists st, w'. split; [assumption|].
    destruct (restore_objects_run _ _ _ _ _ _ _ _ _ _ _ _ E) as (l & _ & _ & Hok).
    destruct (Hok st eq_refl) as (c' & Hc' & _ & Htot & Hk).
    rewrite Hc in Hc'. injection Hc' as <-.
    rewrite Htot. f_equal. rewrite <- (length_map fst l), Hk.
    unfold archived_keys. now rewrite length_map.
Qed.

Lemma restore_objects_one_outcome_per_object_witness :
  exists st w',
    restore_objects Scenario.asctime "bucket" 10 None 2 5 EmptyString (-1) 3 Scenario.archived
    = (Ok (Some st), w') /\
    status_total st = 2.
Proof.
  apply (proj2 (proj2 (restore_objects_one_outcome_per_object _ Scenario.asctime "bucket" 10
                         None 2 5 EmptyString (-1) 3 Scenario.archived))
           (Scenario.client Scenario.three_objects)).
  - reflexivity.
  - lia.
  - right. lia.
  - repeat constructor. now eexists.
Defined.

(** The end-to-end scenario of the specification: tiers GLACIER, STANDARD,
    ACCELERATED, page size 10, two workers, five days. *)
Example restore_objects_three_tiers :
  exists w',
    restore_objects Scenario.asctime "bucket" 10 None 2 5 EmptyString (-1) 3 Scenario.archived
    = (Ok (Some (mkStatus 0 2 0)), w') /\
    restore_requests (events w') = [("a/001.bin", 5); ("a/003.bin", 5)] /\
    submissions (events w') = [("a/001.bin", 0); ("a/003.bin", 1)].
Proof. eexists. split; [vm_compute; reflexivity|]. split; vm_compute; reflexivity. Qed.

(* ===================================================================== *)
(** ** The eligibility filter *)
(* ===================================================================== *)

Lemma is_archived_spec (obj : Object) :
  is_archived obj = true
  <-> StorageClass obj = "GLACIER" \/ StorageClass obj = "ACCELERATED".
Proof.
  unfold is_archived. rewrite orb_true_iff, !String.eqb_eq. reflexivity.
Qed.

Lemma in_archived_keys (objects : list Object) (key : string) :
  In key (archived_keys objects)
  <-> exists obj, In obj objects /\ Key obj = key /\ is_archived obj = true.
Proof.
  unfold archived_keys. rewrite in_map_iff. split.
  - intros (obj & Hk & Hin). apply List.filter_In in Hin as [Hin Ha]. now exists obj.
  - intros (obj & Hin & Hk & Ha). exists obj. split; [assumption|].
    apply List.filter_In. now split.
Qed.

Lemma filter_idempotent {A} (f : A -> bool) (l : list A) :
  List.filter f (List.filter f l) = List.filter f l.
Proof.
  induction l as [|x l IH]; [reflexivity|]. simpl.
  destruct (f x) eqn:E; [|assumption]. simpl. now rewrite E, IH.
Qed.

Lemma in_submissions (evs : list Event) (key : string) (index : Z) :
  In (key, index) (submissions evs) <-> In (EvSubmit key index) evs.
Proof.
  induction evs as [|e evs IH]; [reflexivity|].
  destruct e; simpl; rewrite IH; split;
    try (intros [H|H]; [discriminate|assumption]); try (intros H; now right).
  - intros [[= -> ->]|H]; [now left|now right].
  - intros [[= -> ->]|H]; [now left|now right].
Qed.

Lemma in_combine_Zseq (l : list string) (index : Z) (key : string) :
  In key l -> exists i, In (key, i) (combine l (Zseq index (length l))).
Proof.
  revert index. induction l as [|x l IH]; intros index; [contradiction|].
  intros [->|Hin].
  - exists index. now left.
  - destruct (IH (index + 1) Hin) as (i & Hi). exists i. now right.
Qed.

Lemma unique_key (objects : list Object) (a b : Object) :
  NoDup (map Key objects) -> In a objects -> In b objects -> Key a = Key b -> a = b.
Proof.
  induction objects as [|x l IH]; [contradiction|].
  cbn [map]. intros Hnd. apply NoDup_cons in Hnd as [Hx Hnd].
  rewrite list_elem_of_In in Hx.
  intros [->|Ha] [->|Hb] Hk; try reflexivity.
  - exfalso. apply Hx. rewrite Hk. now apply in_map.
  - exfalso. apply Hx. rewrite <- Hk. now apply in_map.
  - now apply IH.
Qed.

(** C2.  The filter is a predicate on the storage class alone: it holds
    exactly for GLACIER and ACCELERATED.  In the events of a page, a task,
    a probe or a restore request is only ever about an archived object of
    the page, and (with at least one worker) every archived object of the
    page gets a task; with distinct keys, an object of the page gets a
    task if and only if it is archived.  The page runs exactly as it would
    without its other objects, so they cannot affect the status. *)
Theorem restore_page_dispatches_archived_only :
  forall Server asctime bucket threads days page objects status index (w : World Server),
    Contents page = Some objects ->
    (forall obj,
       is_archived obj = true
       <-> StorageClass obj = "GLACIER" \/ StorageClass obj = "ACCELERATED") /\
    (exists evs,
       events (snd (restore_page asctime bucket threads days page status index w))
         = events w ++ evs /\
       (forall e key,
          In e evs -> event_key e = Some key ->
          exists obj, In obj objects /\ Key obj = key /\ is_archived obj = true) /\
       (0 < threads ->
        forall obj, In obj objects -> is_archived obj = true ->
          exists i, In (EvSubmit (Key obj) i) evs) /\
       (0 < threads -> NoDup (map Key objects) ->
        forall obj, In obj objects ->
          ((exists i, In (EvSubmit (Key obj) i) evs) <-> is_archived obj = true))) /\
    restore_page asctime bucket threads days page status index w
    = restore_page asctime bucket threads days
        (mkPage (Some (List.filter is_archived objects))) status index w.
Proof.
  intros Server asctime bucket threads days page objects status index w Hc.
  split; [exact is_archived_spec|]. split.
  - pose proof (steps_restore_page (Server := Server) asctime
                  (fun e => forall key, event_key e = Some key -> In key (archived_keys objects))
                  bucket threads days page status index) as Hsteps.
    rewrite Hc in Hsteps. cbn [default] in Hsteps.
    destruct (Hsteps
                ltac:(intros key Hin; repeat split; [intros k [= <-]..|intros i k [= <-]];
                      assumption)
                ltac:(intros l m k [=]) w) as (_ & evs & He & HP & _).
    rewrite List.Forall_forall in HP.
    assert (Hall : 0 < threads ->
                   forall obj, In obj objects -> is_archived obj = true ->
                     exists i, In (EvSubmit (Key obj) i) evs).
    { intros Hthr obj Hin Ha.
      destruct (restore_page_run asctime bucket threads days page status index w)
        as [(e & _ & [Hn|Hle])|(objects' & st1 & w1 & evs' & Hc' & _ & E & _ & He' & Hs)];
        [congruence|lia|].
      rewrite Hc in Hc'. injection Hc' as <-.
      rewrite E in He. cbn [snd] in He. rewrite He' in He. apply app_inv_head in He. subst evs'.
      destruct (in_combine_Zseq (archived_keys objects) index (Key obj)) as (i & Hi).
      { apply in_archived_keys. now exists obj. }
      exists i. apply in_submissions. now rewrite Hs. }
    exists evs. split; [assumption|]. split; [|split; [assumption|]].
    + intros e key Hin Hk. apply in_archived_keys. now apply (HP e Hin).
    + intros Hthr Hnd obj Hin. split.
      * intros (i & Hi).
        destruct (proj1 (in_archived_keys objects (Key obj)) (HP _ Hi _ eq_refl))
          as (obj' & Hin' & Hk & Ha).
        now rewrite <- (unique_key objects obj' obj Hnd Hin' Hin Hk).
      * now apply Hall.
  - unfold restore_page. rewrite Hc. cbn [Contents].
    rewrite !bind_ret_l. unfold archived_keys. now rewrite filter_idempotent.
Qed.

Lemma restore_page_dispatches_archived_only_witness :
  exists evs,
    events (snd (restore_page Scenario.asctime "bucket" 2 5
                   (mkPage (Some [mkObject "a/001.bin" "GLACIER";
                                  mkObject "a/002.bin" "STANDARD"]))
                   (mkStatus 0 0 0) 0 Scenario.archived))
    = events Scenario.archived ++ evs /\
    (forall e key,
       In e evs -> event_key e = Some key ->
       exists obj,
         In obj [mkObject "a/001.bin" "GLACIER"; mkObject "a/002.bin" "STANDARD"]
         /\ Key obj = key /\ is_archived obj = true).
Proof.
  destruct (proj1 (proj2 (restore_page_dispatches_archived_only _ Scenario.asctime "bucket" 2 5
                            (mkPage (Some [mkObject "a/001.bin" "GLACIER";
                                           mkObject "a/002.bin" "STANDARD"]))
                            _ (mkStatus 0 0 0) 0 Scenario.archived eq_refl)))
    as (evs & He & Hk & _).
  exists evs. split; assumption.
Defined.

(* ===================================================================== *)
(** ** main *)
(* ===================================================================== *)

Section Main.
Context {Server : Type}.
Variable asctime : nat -> string.
Variable ibm_boto3_client : string -> string -> Z -> string -> Client Server.
Variable get_bucket_config : Server -> string -> string -> py_exception + option Z.
Implicit Types (w : World Server) (P : Event -> Prop).

Lemma steps_assign_cos_cli P c : steps asctime P (assign_cos_cli (Server := Server) c).
Proof. intros w. now apply extends_same. Qed.

Lemma steps_rc_get_bucket_config P bucket api_key :
  steps asctime P (rc_get_bucket_config get_bucket_config bucket api_key).
Proof. intros w. apply extends_refl. Qed.

Lemma steps_read_last_object P file_name N pattern :
  steps asctime P (read_last_object (Server := Server) file_name N pattern).
Proof. intros w. apply extends_refl. Qed.

Lemma steps_total_objects P args :
  (forall levelname message, P (EvLog levelname message)) ->
  steps asctime P (total_objects asctime get_bucket_config args).
Proof.
  intros Hl. unfold total_objects, get_object_count. steps_tac; auto.
  apply steps_rc_get_bucket_config.
Qed.

(** The resume block leaves no event, whatever the predicate. *)
Lemma steps_resume_point P args : steps asctime P (resume_point (Server := Server) args).
Proof.
  unfold resume_point. steps_tac. apply steps_read_last_object.
Qed.

Lemma steps_main_run P args last_object last_index :
  (forall pfx, P (EvPaginate (mkListParams (bucket args) pfx (size args) last_object))) ->
  (forall key, P (EvHead (bucket args) key) /\ P (EvRestore (bucket args) key (days args))
               /\ forall i, P (EvSubmit key i)) ->
  (forall total, P (EvTqdmTotal total)) ->
  (forall levelname message, P (EvLog levelname message)) ->
  steps asctime P
    (main_run asctime ibm_boto3_client get_bucket_config args last_object last_index).
Proof.
  intros Hp Hk Ht Hl. unfold main_run. steps_tac; auto.
  - apply steps_assign_cos_cli.
  - now apply steps_total_objects.
  - now apply steps_restore_objects.
Qed.









Lemma extends_events P w w' :
  extends asctime P w w' -> exists evs, events w' = events w ++ evs /\ Forall P evs.
Proof. intros (_ & evs & He & HP & _). now exists evs. Qed.


(** main, once the worker count is accepted and the resume block has
    given its pair, is the truncation of the log followed by [main_run]. *)
Lemma main_after_resume args w last_object last_index w1 :
  (threads args >? size args) = false ->
  resume_point args w = (Ok (last_object, last_index), w1) ->
  main asctime ibm_boto3_client get_bucket_config args w
  = main_run asctime ibm_boto3_client get_bucket_config args last_object last_index
      (snd (logging_basicConfig (log_file args) w1)).
Proof.
  intros Ht E. unfold main, bind. rewrite Ht. cbv beta iota delta [ret]. rewrite E.
  cbn [fst snd]. unfold logging_basicConfig. now destruct (logging_file w1).
Qed.





End Main.





(** The resume scenario of the specification: the log ends with a record
    for b/002.bin at index 7; the resumed run lists after b/002.bin and
    gives index 8 to the next archived object. *)
Example resume_after_b_002 :
  let w' := snd (Scenario.run Scenario.three_objects 3
                   (Scenario.args true "unarchive.log") Scenario.interrupted) in
  submissions (events w') = [("a/001.bin", 8); ("a/003.bin", 9)] /\
  In (EvPaginate (mkListParams "bucket" None 10 "b/002.bin")) (events w').
Proof. split; vm_compute; auto 10. Qed.

(* ===================================================================== *)
(** ** The page count *)
(* ===================================================================== *)


Lemma is_ceil_unique (a b q q' : Z) : 0 < b -> is_ceil a b q -> is_ceil a b q' -> q = q'.
Proof. unfold is_ceil. intros Hb H H'. nia. Qed.






(* ===================================================================== *)
(** ** The resume resolver *)
(* ===================================================================== *)

(** [get_last_object] does not look at its first two arguments. *)
Lemma get_last_object_ignores_path (files : Files) (file_name : string) (N : Z)
    (pattern : regex) :
  get_last_object files file_name N pattern
  = get_last_object files "unarchive.log" 100 pattern.
Proof. reflexivity. Qed.

(** C6 (the code departs from it).  For a log of two records, which is
    shorter than the window, [get_last_object] returns the older record,
    index 6, where the most recent one has index 7.  Asked for the log
    run.log it reads unarchive.log instead, and raises when that file does
    not exist.  For a default log of more than a hundred lines it returns
    the most recent record. *)
Theorem get_last_object_short_or_other_log :
  (get_last_object {["unarchive.log" := Scenario.two_records]} "unarchive.log" 100
     LOG_RE_PATTERN = Ok (Some ("b/001.bin", 6))
   /\ spec_get_last_object {["unarchive.log" := Scenario.two_records]} "unarchive.log" 100
        LOG_RE_PATTERN = Ok (Some ("b/002.bin", 7))) /\
  (get_last_object
     (<["run.log" := Scenario.record_7 +:+ nl]> {["unarchive.log" := Scenario.record_6 +:+ nl]})
     "run.log" 100 LOG_RE_PATTERN = Ok (Some ("b/001.bin", 6))
   /\ spec_get_last_object
        (<["run.log" := Scenario.record_7 +:+ nl]>
           {["unarchive.log" := Scenario.record_6 +:+ nl]})
        "run.log" 100 LOG_RE_PATTERN = Ok (Some ("b/002.bin", 7))) /\
  get_last_object {["run.log" := Scenario.two_records]} "run.log" 100 LOG_RE_PATTERN
  = Raise (FileNotFoundError "unarchive.log") /\
  (get_last_object {["unarchive.log" := Scenario.long_log]} "unarchive.log" 100
     LOG_RE_PATTERN = Ok (Some ("b/002.bin", 7))
   /\ spec_get_last_object {["unarchive.log" := Scenario.long_log]} "unarchive.log" 100
        LOG_RE_PATTERN = Ok (Some ("b/002.bin", 7))).
Proof. repeat split; vm_compute; reflexivity. Qed.

(** Resume asked for and no record found: main stops at the unpacking of
    [None], before it prints anything. *)
Lemma main_resume_unresolved {Server} asctime ibm_boto3_client get_bucket_config (args : Args)
    (w : World Server) :
  (threads args >? size args) = false ->
  resume args = true ->
  get_last_object (fs w) (log_file args) 100 LOG_RE_PATTERN = Ok None ->
  main asctime ibm_boto3_client get_bucket_config args w
  = (Raise (Err (Exception "TypeError" "cannot unpack non-iterable NoneType object")), w).
Proof.
  intros Ht Hr Hg. unfold main, bind. rewrite Ht. cbv beta iota delta [ret].
  unfold resume_point, read_last_object, bind. now rewrite Hr, Hg.
Qed.

(** C7 (the code departs from it).  Resume is asked for and the log holds
    no record: main ends with an uncaught TypeError, not with exit(1), and
    has printed nothing.  The message and exit(1) are only reached when a
    record is found whose object key is empty. *)
Theorem main_resume_without_record :
  (let r := Scenario.run Scenario.three_objects 3 (Scenario.args true "unarchive.log")
              (Scenario.process ∅ {["unarchive.log" := Scenario.only_chatter]}) in
   fst r = Raise (Err (Exception "TypeError" "cannot unpack non-iterable NoneType object"))
   /\ fst r <> Raise (SystemExit 1)
   /\ stdout (snd r) = [] /\ stderr (snd r) = [] /\ events (snd r) = []) /\
  (let r := Scenario.run Scenario.three_objects 3 (Scenario.args true "unarchive.log")
              (Scenario.process ∅
                 {["unarchive.log" :=
                     "2024-05-01 09:59:59,250 - INFO - Object '' (index=0000000007) has been restored."
                       +:+ nl]}) in
   fst r = Raise (SystemExit 1)
   /\ stdout (snd r)
      = [Fore_RED
           +:+ "Resume is not possible. Unable to retrieve last elaborated object from the log."
           +:+ nl;
         Style_RESET_ALL +:+ nl]).
Proof.
  split.
  - cbv zeta. unfold Scenario.run.
    rewrite main_resume_unresolved by (vm_compute; reflexivity).
    repeat split. discriminate.
  - cbv zeta. split; vm_compute; reflexivity.
Qed.

(* ===================================================================== *)
(** ** Listing errors *)
(* ===================================================================== *)

(** Whatever the listing does, the end of main reports and returns. *)
Lemma restore_then_report_returns {Server} asctime bucket max_keys prefix threads days
    start_after start_index object_count (w : World Server) :
  exit_status
    (fst (bind (restore_objects asctime bucket max_keys prefix threads days start_after
                  start_index object_count)
            (fun status => print ("All restore are completed, status: "
                                    +:+ str_opt_status status)) w)) = 0.
Proof.
  destruct (returns_run _ w
              (returns_restore_objects asctime bucket max_keys prefix threads days start_after
                 start_index object_count)) as (o & w' & E).
  now rewrite (bind_Ok _ _ _ _ _ E).
Qed.

(** C9 (the code departs from it).  The first page of the listing raises a
    client error: [restore_objects] prints it and returns [None]; main
    then reports that all restores are completed and the process ends with
    status 0. *)
Theorem main_exit_zero_after_listing_error :
  let r := Scenario.run Scenario.denied 3 (Scenario.args false "unarchive.log")
             (Scenario.process ∅ ∅) in
  fst r = Ok tt /\
  exit_status (fst r) = 0 /\
  In ("CLIENT ERROR: An error occurred (AccessDenied) when calling the ListObjectsV2 operation: Access Denied"
        +:+ nl +:+ nl) (stdout (snd r)) /\
  last (stdout (snd r)) = Some ("All restore are completed, status: None" +:+ nl) /\
  submissions (events (snd r)) = [].
Proof. cbv zeta. repeat split; vm_compute; auto 10. Qed.

(* ===================================================================== *)
(** ** The progress log *)
(* ===================================================================== *)

Lemma append_prefix (a b : string) : String.prefix a (a +:+ b) = true.
Proof.
  induction a as [|x a IH]; [now destruct b|].
  rewrite append_cons. cbn [String.prefix].
  destruct (ascii_dec x x) as [_|Hne]; [assumption|contradiction].
Qed.

(** C10 as it is stated fails: a fresh run over a log that holds two
    records leaves a log that does not start with them. *)
Lemma log_truncated_counterexample :
  let w := Scenario.process ∅ {["unarchive.log" := Scenario.two_records]} in
  let w' := snd (Scenario.run Scenario.three_objects 3
                   (Scenario.args false "unarchive.log") w) in
  ~ (exists suffix,
       content (fs w') "unarchive.log" = content (fs w) "unarchive.log" +:+ suffix).
Proof.
  cbv zeta. intros (suffix & H).
  pose proof (append_prefix
                (content (fs (Scenario.process ∅ {["unarchive.log" := Scenario.two_records]}))
                   "unarchive.log") suffix) as Hp.
  rewrite <- H in Hp. vm_compute in Hp. discriminate.
Qed.

(** Once a file is named, [restore_objects] only appends to it. *)
Lemma restore_objects_appends {Server} asctime bucket max_keys prefix threads days start_after
    start_index object_count (w : World Server) path :
  logging_file w = Some path ->
  exists evs,
    events (snd (restore_objects asctime bucket max_keys prefix threads days start_after
                   start_index object_count w)) = events w ++ evs /\
    logging_file (snd (restore_objects asctime bucket max_keys prefix threads days start_after
                         start_index object_count w)) = Some path /\
    content (fs (snd (restore_objects asctime bucket max_keys prefix threads days start_after
                        start_index object_count w))) path
    = content (fs w) path +:+ render asctime (clock w) (log_records evs).
Proof.
  intros Hf.
  destruct (steps_restore_objects (Server := Server) asctime (fun _ => True) bucket max_keys
              prefix threads days start_after start_index object_count
              (fun _ => I) (fun _ => conj I (conj I (fun _ => I))) (fun _ => I) (fun _ _ => I) w)
    as (Hf' & evs & He & _ & _ & Hl & _).
  exists evs. split; [assumption|]. split; [congruence|]. now apply Hl.
Qed.

(** A run of main that gets past its startup checks leaves in the log
    file exactly its own records. *)
Lemma main_log_is_this_run {Server} asctime ibm_boto3_client get_bucket_config (args : Args)
    (w : World Server) last_object last_index w1 :
  (threads args >? size args) = false ->
  logging_file w = None ->
  resume_point args w = (Ok (last_object, last_index), w1) ->
  exists evs,
    events (snd (main asctime ibm_boto3_client get_bucket_config args w)) = events w ++ evs /\
    content (fs (snd (main asctime ibm_boto3_client get_bucket_config args w))) (log_file args)
    = render asctime (clock w) (log_records evs).
Proof.
  intros Ht Hf E.
  rewrite (main_after_resume asctime ibm_boto3_client get_bucket_config args w last_object
             last_index w1 Ht E).
  pose proof (steps_resume_point asctime (fun _ => False) args w) as Hr.
  rewrite E in Hr. cbn [snd] in Hr.
  destruct Hr as (Hf1 & evs1 & He1 & HP1 & Hc1 & _).
  assert (evs1 = []) as -> by (destruct evs1; [reflexivity|now inversion HP1]).
  rewrite app_nil_r in He1. cbn [log_records length] in Hc1. rewrite Nat.add_0_r in Hc1.
  rewrite Hf in Hf1.
  unfold logging_basicConfig. rewrite Hf1. cbn [snd].
  set (w2 := mkWorld _ _ _ _ _ _ _ _).
  destruct (steps_main_run asctime ibm_boto3_client get_bucket_config (fun _ => True) args
              last_object last_index
              (fun _ => I) (fun _ => conj I (conj I (fun _ => I))) (fun _ => I) (fun _ _ => I) w2)
    as (_ & evs & He & _ & _ & Hl & _).
  exists evs. split; [now rewrite He; subst w2; cbn [events]; rewrite He1|].
  destruct (Hl (log_file args) eq_refl) as [Hcontent _].
  rewrite Hcontent. subst w2. cbn [fs clock]. unfold content at 1.
  rewrite lookup_insert_eq. cbn [default]. now rewrite append_empty_l, Hc1.
Qed.

(** C10, amended.  Within a run the log is append-only: once logging has
    a file, [restore_objects] leaves in it what it held, followed by one
    rendered record for each record it logs, in order.  Across runs it is
    not: a run of main that gets past the check of the worker count and
    the resume block empties the file it logs to, and ends with a file
    that holds the records of this run and nothing else. *)
Theorem log_appended_within_a_run :
  forall Server asctime ibm_boto3_client get_bucket_config (args : Args) (w : World Server),
    (forall bucket max_keys prefix threads days start_after start_index object_count path,
       logging_file w = Some path ->
       exists evs,
         events (snd (restore_objects asctime bucket max_keys prefix threads days start_after
                        start_index object_count w)) = events w ++ evs /\
         logging_file (snd (restore_objects asctime bucket max_keys prefix threads days
                              start_after start_index object_count w)) = Some path /\
         content (fs (snd (restore_objects asctime bucket max_keys prefix threads days
                             start_after start_index object_count w))) path
         = content (fs w) path +:+ render asctime (clock w) (log_records evs)) /\
    (forall last_object last_index w1,
       (threads args >? size args) = false ->
       logging_file w = None ->
       resume_point args w = (Ok (last_object, last_index), w1) ->
       exists evs,
         events (snd (main asctime ibm_boto3_client get_bucket_config args w))
           = events w ++ evs /\
         content (fs (snd (main asctime ibm_boto3_client get_bucket_config args w)))
           (log_file args)
         = render asctime (clock w) (log_records evs)).
Proof.
  intros Server asctime ibm_boto3_client get_bucket_config args w. split.
  - intros. now apply restore_objects_appends.
  - intros last_object last_index w1. apply main_log_is_this_run.
Qed.

Lemma log_appended_within_a_run_witness :
  exists evs,
    events (snd (Scenario.run Scenario.three_objects 3 (Scenario.args false "unarchive.log")
                   (Scenario.process ∅ {["unarchive.log" := Scenario.two_records]})))
    = [] ++ evs /\
    content (fs (snd (Scenario.run Scenario.three_objects 3
                        (Scenario.args false "unarchive.log")
                        (Scenario.process ∅ {["unarchive.log" := Scenario.two_records]}))))
      "unarchive.log"
    = render Scenario.asctime 0 (log_records evs).
Proof.
  apply (proj2 (log_appended_within_a_run _ Scenario.asctime
                  (fun _ _ _ _ => Scenario.client Scenario.three_objects)
                  (fun _ _ _ => inr (Some 3))
                  (Scenario.args false "unarchive.log")
                  (Scenario.process ∅ {["unarchive.log" := Scenario.two_records]}))
           EmptyString (-1)
           (Scenario.process ∅ {["unarchive.log" := Scenario.two_records]})).
  - reflexivity.
  - reflexivity.
  - reflexivity.
Defined.

(* ===================================================================== *)
(** ** Further properties: the status and the calls of a run *)
(* ===================================================================== *)

(** X1.  The status after a page does not depend on the order in which the
    tasks of the page complete. *)
Theorem status_independent_of_completion_order :
  forall (status : Status) (results completed : list Status),
    Permutation results completed ->
    fold_results status completed = fold_results status results.
Proof.
  intros status results completed H. symmetry. now apply fold_results_Permutation.
Qed.

Lemma status_independent_of_completion_order_witness :
  fold_results (mkStatus 0 0 0) [Error; Restored; AlreadyRestored]
  = fold_results (mkStatus 0 0 0) [Restored; AlreadyRestored; Error].
Proof.
  apply status_independent_of_completion_order.
  apply Permutation_sym, Permutation_cons_append.
Defined.

(** X2.  The counters of the status after a page are those before it plus the
    sums of the counters of the results. *)
Theorem fold_results_sums :
  forall (results : list Status) (status : Status),
    error (fold_results status results)
      = error status + fold_right Z.add 0 (map error results) /\
    restored (fold_results status results)
      = restored status + fold_right Z.add 0 (map restored results) /\
    already_restored (fold_results status results)
      = already_restored status + fold_right Z.add 0 (map already_restored results).
Proof.
  unfold fold_results. induction results as [|r results IH]; intros status.
  - cbn. lia.
  - cbn [fold_left map fold_right]. destruct (IH (fold_result status r)) as (He & Hr & Ha).
    rewrite He, Hr, Ha. cbn. lia.
Qed.

Section Calls.
Context {Server : Type}.
Variable asctime : nat -> string.
Implicit Types (w : World Server) (P : Event -> Prop).

Lemma steps_get_page_count_prefix P bucket max_keys prefix start_after :
  P (EvPaginate (mkListParams bucket None max_keys start_after)) ->
  P (EvPaginate (mkListParams bucket prefix max_keys start_after)) ->
  (forall levelname message, P (EvLog levelname message)) ->
  steps asctime P (get_page_count (Server := Server) asctime bucket max_keys prefix start_after).
Proof.
  intros Hn Hp Hl. unfold get_page_count. steps_tac; auto.
  apply steps_count_pages.
Qed.

Lemma steps_list_pages_prefix P bucket max_keys prefix start_after start_index object_count :
  P (EvPaginate (mkListParams bucket None max_keys start_after)) ->
  P (EvPaginate (mkListParams bucket prefix max_keys start_after)) ->
  (forall levelname message, P (EvLog levelname message)) ->
  steps asctime P (list_pages (Server := Server) asctime bucket max_keys prefix start_after
                     start_index object_count).
Proof.
  intros Hn Hp Hl. unfold list_pages, page_count_no_prefix, ceil_div. steps_tac; auto.
  now apply steps_get_page_count_prefix.
Qed.

Lemma steps_restore_objects_prefix P bucket max_keys prefix threads days start_after
    start_index object_count :
  P (EvPaginate (mkListParams bucket None max_keys start_after)) ->
  P (EvPaginate (mkListParams bucket prefix max_keys start_after)) ->
  (forall key, P (EvHead bucket key) /\ P (EvRestore bucket key days)
               /\ forall i, P (EvSubmit key i)) ->
  (forall total, P (EvTqdmTotal total)) ->
  (forall levelname message, P (EvLog levelname message)) ->
  steps asctime P (restore_objects (Server := Server) asctime bucket max_keys prefix threads
                     days start_after start_index object_count).
Proof.
  intros Hn Hp Hk Ht Hl. unfold restore_objects, restore_objects_try. steps_tac; auto.
  - now apply steps_list_pages_prefix.
  - now apply steps_restore_pages.
  - now apply steps_listing_failed.
Qed.

End Calls.

(** X3.  Every call a run of [restore_objects] makes to the service is for the
    bucket it was given: the listings with its page size and start-after
    key and with its prefix or none, the restore requests with its
    lifetime in days. *)
Theorem restore_objects_calls_are_of_the_call :
  forall Server asctime bucket max_keys prefix threads days start_after start_index
         object_count (w : World Server),
  exists evs,
    events (snd (restore_objects asctime bucket max_keys prefix threads days start_after
                   start_index object_count w)) = events w ++ evs /\
    Forall (of_call bucket max_keys prefix days start_after) evs.
Proof.
  intros Server asctime bucket max_keys prefix threads days start_after start_index
    object_count w.
  destruct (steps_restore_objects_prefix (Server := Server) asctime
              (of_call bucket max_keys prefix days start_after)
              bucket max_keys prefix threads days start_after start_index object_count)
    with (w := w) as (_ & evs & He & HP & _); cbn; auto.
  now exists evs.
Qed.

(** X4.  [restore_objects] changes no file but the one the log goes to. *)
Theorem restore_objects_writes_only_the_log :
  forall Server asctime bucket max_keys prefix threads days start_after start_index
         object_count (w : World Server) path,
    logging_file w <> Some path ->
    fs (snd (restore_objects asctime bucket max_keys prefix threads days start_after
               start_index object_count w)) !! path = fs w !! path.
Proof.
  intros Server asctime bucket max_keys prefix threads days start_after start_index
    object_count w path Hp.
  destruct (steps_restore_objects (Server := Server) asctime (fun _ => True) bucket max_keys
              prefix threads days start_after start_index object_count
              (fun _ => I) (fun _ => conj I (conj I (fun _ => I))) (fun _ => I) (fun _ _ => I) w)
    as (_ & evs & _ & _ & _ & _ & Ho).
  now apply Ho.
Qed.

Lemma restore_objects_writes_only_the_log_witness :
  fs (snd (restore_objects Scenario.asctime "bucket" 10 None 2 5 EmptyString (-1) 3
             logging_to_file)) !! "notes.txt"
  = fs logging_to_file !! "notes.txt".
Proof.
  apply restore_objects_writes_only_the_log. discriminate.
Defined.

(* ===================================================================== *)
(** ** Further properties: main *)
(* ===================================================================== *)

Section MainOutcomes.
Context {Server : Type}.
Variable asctime : nat -> string.
Variable ibm_boto3_client : string -> string -> Z -> string -> Client Server.
Variable get_bucket_config : Server -> string -> string -> py_exception + option Z.
Implicit Types (w : World Server) (S : Z -> Prop).












Lemma main_resume_raises args w e w1 :
  (threads args >? size args) = false ->
  resume_point args w = (Raise e, w1) ->
  main asctime ibm_boto3_client get_bucket_config args w = (Raise e, w1).
Proof.
  intros Ht E. unfold main, bind. rewrite Ht. cbv beta iota delta [ret]. now rewrite E.
Qed.

Lemma resume_point_world args w r w1 :
  resume_point args w = (r, w1) ->
  logging_file w1 = logging_file w /\ fs w1 = fs w /\ clock w1 = clock w
  /\ server w1 = server w /\ events w1 = events w /\ cos_cli w1 = cos_cli w
  /\ forall x, r = Ok x -> w1 = w.
Proof.
  unfold resume_point, read_last_object, bind. destruct (resume args).
  - destruct (get_last_object (fs w) (log_file args) 100 LOG_RE_PATTERN)
      as [[[last_object last_index]|]|e].
    + destruct (negb (truthy last_object)).
      * intros [= <- <-]. repeat split. discriminate.
      * intros [= <- <-]. repeat split.
    + intros [= <- <-]. repeat split.
    + intros [= <- <-]. repeat split.
  - intros [= <- <-]. repeat split.
Qed.

End MainOutcomes.


(** X6.  With a prefix main never asks the bucket configuration service: the
    run is the same whatever that service would answer. *)
Theorem main_with_prefix_skips_object_count :
  forall Server asctime ibm_boto3_client get_bucket_config get_bucket_config'
         (args : Args) (w : World Server),
    truthy_opt (prefix args) = true ->
    main asctime ibm_boto3_client get_bucket_config args w
    = main asctime ibm_boto3_client get_bucket_config' args w.
Proof.
  intros Server asctime ibm_boto3_client get_bucket_config get_bucket_config' args w Hp.
  unfold main, main_run, total_objects. now rewrite Hp.
Qed.

Lemma main_with_prefix_skips_object_count_witness :
  main Scenario.asctime (fun _ _ _ _ => Scenario.client Scenario.three_objects)
    (fun _ _ _ => inr (Some 3)) args_with_prefix (Scenario.process ∅ ∅)
  = main Scenario.asctime (fun _ _ _ _ => Scenario.client Scenario.three_objects)
      (fun _ _ _ => inl (ClientError "unreachable")) args_with_prefix (Scenario.process ∅ ∅).
Proof. apply main_with_prefix_skips_object_count. reflexivity. Defined.

(** X7.  main changes no file but its log file. *)
Theorem main_writes_only_its_log :
  forall Server asctime ibm_boto3_client get_bucket_config (args : Args) (w : World Server)
         path,
    logging_file w = None ->
    path <> log_file args ->
    fs (snd (main asctime ibm_boto3_client get_bucket_config args w)) !! path = fs w !! path.
Proof.
  intros Server asctime ibm_boto3_client get_bucket_config args w path Hf Hp.
  destruct (threads args >? size args) eqn:Ht.
  { unfold main, bind. now rewrite Ht. }
  destruct (resume_point args w) as [[[last_object last_index]|e] w1] eqn:E;
    destruct (resume_point_world _ _ _ _ E) as (Hf1 & Hfs1 & _).
  - rewrite (main_after_resume asctime ibm_boto3_client get_bucket_config args w last_object
               last_index w1 Ht E).
    unfold logging_basicConfig. rewrite Hf1, Hf. cbn [snd].
    set (w2 := mkWorld _ _ _ _ _ _ _ _).
    destruct (steps_main_run asctime ibm_boto3_client get_bucket_config (fun _ => True) args
                last_object last_index
                (fun _ => I) (fun _ => conj I (conj I (fun _ => I))) (fun _ => I) (fun _ _ => I)
                w2)
      as (_ & evs & _ & _ & _ & _ & Ho).
    rewrite Ho by (subst w2; cbn; congruence).
    subst w2. cbn [fs]. rewrite lookup_insert_ne by congruence. now rewrite Hfs1.
  - rewrite (main_resume_raises asctime ibm_boto3_client get_bucket_config args w e w1 Ht E).
    cbn [snd]. now rewrite Hfs1.
Qed.

Lemma main_writes_only_its_log_witness :
  fs (snd (Scenario.run Scenario.three_objects 3 (Scenario.args false "unarchive.log")
             (Scenario.process ∅ {["notes.txt" := "keep"]}))) !! "notes.txt"
  = fs (Scenario.process ∅ {["notes.txt" := "keep"]}) !! "notes.txt".
Proof.
  unfold Scenario.run.
  apply (main_writes_only_its_log _ Scenario.asctime
           (fun _ _ _ _ => Scenario.client Scenario.three_objects) (fun _ _ _ => inr (Some 3))
           (Scenario.args false "unarchive.log")
           (Scenario.process ∅ {["notes.txt" := "keep"]}) "notes.txt");
    [reflexivity|discriminate].
Defined.

(* ===================================================================== *)
(** ** Listings that break *)
(* ===================================================================== *)

Section Edges.
Context {Server : Type}.
Variable asctime : nat -> string.
Implicit Types (w : World Server) (P : Event -> Prop).

Lemma count_pages_all (pages : list (py_exception + Page)) count w :
  Forall (fun p => exists page, p = inr page) pages ->
  count_pages pages count w = (Ok (count + Z.of_nat (length pages)), w).
Proof.
  intros H. revert count. induction H as [|p pages (page & ->) _ IH]; intros count.
  - cbn. now rewrite Z.add_0_r.
  - cbn [count_pages length]. rewrite IH. do 2 f_equal. lia.
Qed.

Lemma count_pages_raises (pages : list (py_exception + Page)) count w e :
  In (inl e) pages -> exists e', count_pages pages count w = (Raise (Err e'), w).
Proof.
  revert count. induction pages as [|[e0|page] rest IH]; intros count Hin.
  - contradiction.
  - now exists e0.
  - destruct Hin as [[=]|Hin]. cbn [count_pages]. now apply IH.
Qed.

Lemma get_cos_cli_Ok c w : cos_cli w = Some c -> get_cos_cli w = (Ok c, w).
Proof. intros Hc. unfold get_cos_cli. now rewrite Hc. Qed.

Lemma cos_paginate_Ok c params w :
  cos_cli w = Some c ->
  cos_paginate params w
  = (Ok (paginate c (server w) params), add_event Server (EvPaginate params) w).
Proof. intros Hc. unfold cos_paginate, get_cos_cli, bind. now rewrite Hc. Qed.

Lemma try_except_Err {A} (body : M Server A) handler w e w1 :
  body w = (Raise (Err e), w1) -> try_except body handler w = handler e w1.
Proof. unfold try_except. now intros ->. Qed.

Lemma bind_Raise {A B} (m : M Server A) (f : A -> M Server B) w e w1 :
  m w = (Raise e, w1) -> bind m f w = (Raise e, w1).
Proof. unfold bind. now intros ->. Qed.

(** The listing of [get_page_count], as [get_page_count] asks for it. *)
Lemma get_page_count_listing c bucket max_keys prefix start_after w :
  cos_cli w = Some c ->
  (if negb (truthy_opt prefix)
   then cos_paginate (mkListParams bucket None max_keys start_after)
   else cos_paginate (mkListParams bucket prefix max_keys start_after)) w
  = (Ok (paginate c (server w) (listing_params bucket max_keys prefix start_after)),
     add_event Server (EvPaginate (listing_params bucket max_keys prefix start_after)) w).
Proof.
  intros Hc. unfold listing_params.
  destruct (truthy_opt prefix); cbn [negb]; now apply cos_paginate_Ok.
Qed.

Lemma get_page_count_run c bucket max_keys prefix start_after w :
  cos_cli w = Some c ->
  (Forall (fun p => exists page, p = inr page)
     (paginate c (server w) (listing_params bucket max_keys prefix start_after)) ->
   fst (get_page_count asctime bucket max_keys prefix start_after w)
   = Ok (Some (Z.of_nat (length (paginate c (server w)
                                   (listing_params bucket max_keys prefix start_after)))))) /\
  (forall e,
     In (inl e) (paginate c (server w) (listing_params bucket max_keys prefix start_after)) ->
     fst (get_page_count asctime bucket max_keys prefix start_after w) = Ok None).
Proof.
  intros Hc. unfold get_page_count.
  destruct (logging_log_run asctime "INFO"
              ("Retrieving bucket pages from: '" +:+ bucket +:+ "'") w)
    as (w1 & E1 & Hc1 & Hs1 & _).
  unfold logging_info. rewrite (bind_Ok _ _ _ _ _ E1).
  rewrite <- Hc1 in Hc. rewrite <- Hs1.
  set (w2 := add_stdout Server ("Calculating the number of pages..." +:+ " ") w1).
  assert (Hc2 : cos_cli w2 = Some c) by exact Hc.
  assert (Hs2 : server w2 = server w1) by reflexivity.
  pose proof (get_page_count_listing c bucket max_keys prefix start_after w2 Hc2) as E3.
  rewrite Hs2 in E3.
  split.
  - intros Hall.
    erewrite try_except_Ok; [reflexivity|].
    rewrite (bind_Ok _ _ _ _ _ (get_cos_cli_Ok c w1 Hc)).
    unfold print_end_space at 1. unfold bind at 1. fold w2.
    rewrite (bind_Ok _ _ _ _ _ E3).
    rewrite (bind_Ok _ _ _ _ _ (count_pages_all _ 0 _ Hall)).
    rewrite Z.add_0_l. reflexivity.
  - intros e Hin.
    destruct (count_pages_raises _ 0
                (add_event Server
                   (EvPaginate (listing_params bucket max_keys prefix start_after)) w2) e Hin)
      as (e' & E4).
    erewrite try_except_Err.
    2:{ rewrite (bind_Ok _ _ _ _ _ (get_cos_cli_Ok c w1 Hc)).
        unfold print_end_space at 1. unfold bind at 1. fold w2.
        rewrite (bind_Ok _ _ _ _ _ E3).
        apply bind_Raise. exact E4. }
    now destruct e'.
Qed.

End Edges.

(** X8.  [get_page_count] never raises.  Without the client it gives [None];
    with it, it gives the number of pages of the listing when every page
    arrives, and [None] when one raises. *)
Theorem get_page_count_counts_or_gives_up :
  forall Server asctime bucket max_keys prefix start_after (w : World Server),
    returns (get_page_count (Server := Server) asctime bucket max_keys prefix start_after) /\
    (cos_cli w = None ->
     fst (get_page_count asctime bucket max_keys prefix start_after w) = Ok None) /\
    (forall c,
       cos_cli w = Some c ->
       (Forall (fun p => exists page, p = inr page)
          (paginate c (server w) (listing_params bucket max_keys prefix start_after)) ->
        fst (get_page_count asctime bucket max_keys prefix start_after w)
        = Ok (Some (Z.of_nat (length (paginate c (server w)
                                        (listing_params bucket max_keys prefix start_after))))))
       /\
       (forall e,
          In (inl e) (paginate c (server w) (listing_params bucket max_keys prefix start_after)) ->
          fst (get_page_count asctime bucket max_keys prefix start_after w) = Ok None)).
Proof.
  intros Server asctime bucket max_keys prefix start_after w. split; [|split].
  - apply returns_get_page_count.
  - intros Hc. unfold get_page_count, logging_info, logging_log, try_except, get_cos_cli, bind.
    cbn. now rewrite Hc.
  - intros c Hc. now apply get_page_count_run.
Qed.

Lemma get_page_count_counts_or_gives_up_witness :
  fst (get_page_count Scenario.asctime "bucket" 10 (Some "a/") EmptyString Scenario.archived)
  = Ok (Some 1).
Proof.
  apply (proj1 (proj2 (proj2 (get_page_count_counts_or_gives_up _ Scenario.asctime "bucket" 10
                                (Some "a/") EmptyString Scenario.archived))
                  (Scenario.client Scenario.three_objects) eq_refl)).
  repeat constructor. now eexists.
Defined.

Section Runs.
Context {Server : Type}.
Variable asctime : nat -> string.
Implicit Types (w : World Server) (P : Event -> Prop).

Lemma no_key_no_submission (e : Event) : no_key e -> no_submission e.
Proof. destruct e; try reflexivity. discriminate. Qed.

Lemma extends_step P w w1 {A} (m : M Server A) r :
  steps asctime P m -> m w = (r, w1) -> extends asctime P w w1.
Proof. intros H E. specialize (H w). now rewrite E in H. Qed.

(** With the client in place and a page count that can be computed,
    [restore_objects] reaches the loop over the pages of its listing, and
    ends as the loop does. *)
Lemma restore_objects_forward c bucket max_keys prefix threads days start_after start_index
    object_count w :
  cos_cli w = Some c ->
  truthy_opt prefix = true \/ max_keys <> 0 ->
  exists w0,
    extends asctime no_key w w0 /\
    restore_objects asctime bucket max_keys prefix threads days start_after start_index
      object_count w
    = after_pages asctime
        (restore_pages asctime bucket threads days
           (paginate c (server w) (listing_params bucket max_keys prefix start_after))
           (mkStatus 0 0 0) (start_index + 1) w0).
Proof.
  intros Hc Hp. unfold restore_objects.
  assert (exists message,
            (if negb (truthy start_after)
             then logging_info asctime _ else logging_info asctime _)
            = logging_log (Server := Server) asctime "INFO" message) as (message & ->).
  { destruct (negb (truthy start_after)); now eexists. }
  destruct (logging_log_run asctime "INFO" message w) as (w1 & E1 & Hc1 & Hs1 & _).
  rewrite (bind_Ok _ _ _ _ _ E1).
  pose proof (extends_step no_key w w1 _ _
                (steps_logging_log asctime no_key "INFO" message eq_refl) E1) as X1.
  rewrite <- Hc1 in Hc. rewrite <- Hs1.
  destruct (list_pages_ok asctime c bucket max_keys prefix start_after start_index object_count
              w1 Hc Hp) as (pc & w2 & E2).
  pose proof (extends_step no_key w1 w2 _ _
                (steps_list_pages asctime no_key bucket max_keys prefix start_after start_index
                   object_count (fun _ => eq_refl) (fun _ _ => eq_refl)) E2) as X2.
  exists (add_event Server (EvTqdmTotal pc) w2). split.
  - eapply extends_trans; [exact X1|]. eapply extends_trans; [exact X2|].
    now apply (extends_event asctime no_key w2 _ (EvTqdmTotal pc)).
  - unfold try_except, restore_objects_try.
    rewrite (bind_Ok _ _ _ _ _ (get_cos_cli_Ok c w1 Hc)), (bind_Ok _ _ _ _ _ E2).
    cbn [fst snd]. unfold emit at 1. unfold bind at 1. rewrite first_index_succ.
    unfold bind, after_pages.
    destruct (restore_pages asctime bucket threads days _ _ _ _) as [[st|[e|code]] w'];
      reflexivity.
Qed.

Lemma listing_failed_run e w :
  exists w',
    listing_failed asctime e w = (Ok None, w') /\
    extends asctime no_key w w' /\
    stdout w' = stdout w ++ [failure_message e].
Proof.
  destruct (listing_failed asctime e w) as [r w'] eqn:E.
  pose proof (listing_failed_None asctime e w) as Hn. rewrite E in Hn. cbn in Hn. subst r.
  exists w'. split; [reflexivity|]. split.
  - eapply extends_step; [|exact E]. apply steps_listing_failed. reflexivity.
  - destruct e; injection E as <-; cbn; now rewrite <- ?append_assoc.
Qed.

(** The loop over a listing that breaks after some whole pages: the
    archived objects of these pages are submitted, then the exception of
    the break is raised. *)
Lemma restore_pages_breaks bucket threads days pre bad rest e status index w :
  complete_listing pre -> 0 < threads \/ pre = [] ->
  page_failure bad = Some e ->
  exists w' l,
    restore_pages asctime bucket threads days (pre ++ bad :: rest) status index w
    = (Raise (Err e), w') /\
    submitted l w w' /\
    map fst l = archived_keys (listed_objects pre) /\
    map snd l = Zseq index (length l).
Proof.
  intros Hcl Hthr Hbad. revert status index w.
  induction Hcl as [|p pre (objects & ->) _ IH]; intros status index w.
  - exists w, []. cbn [app restore_pages].
    split; [|split; [apply submitted_refl|split; reflexivity]].
    destruct bad as [e'|[[objects|]]]; cbn in Hbad.
    + now injection Hbad as ->.
    + discriminate.
    + injection Hbad as <-. reflexivity.
  - destruct Hthr as [Hthr|[=]].
    cbn [app restore_pages]. unfold bind.
    destruct (restore_page_run asctime bucket threads days (mkPage (Some objects)) status
                index w)
      as [(e' & _ & [[=]|Hle])|(objects' & st1 & w1 & evs1 & [= <-] & _ & E & _ & He & Hs)];
      [lia|].
    rewrite E. cbn [fst snd].
    destruct (IH (or_introl Hthr) st1 (index + Z.of_nat (length (archived_keys objects))) w1)
      as (w' & l & E' & Hsub & Hk & Hi).
    exists w', (submissions evs1 ++ l). split; [assumption|]. split; [|split].
    + eapply submitted_trans; [|eassumption]. now exists evs1.
    + rewrite map_app, Hk, Hs, combine_Zseq_fst. cbn [listed_objects].
      now rewrite archived_keys_app.
    + rewrite map_app, length_app, Zseq_app, Hi, Hs, combine_Zseq_snd.
      now rewrite length_combine, Zseq_length, Nat.min_id.
Qed.

Lemma submitted_post l w w1 w' :
  submitted l w w1 -> extends asctime no_key w1 w' -> submitted l w w'.
Proof.
  intros H X. rewrite <- (app_nil_r l). eapply submitted_trans; [exact H|].
  apply (extends_submitted asctime). eapply extends_mono; [|exact X].
  exact no_key_no_submission.
Qed.

Lemma submitted_pre l w w1 w' :
  extends asctime no_key w w1 -> submitted l w1 w' -> submitted l w w'.
Proof.
  intros X H. change l with ([] ++ l). eapply submitted_trans; [|exact H].
  apply (extends_submitted asctime). eapply extends_mono; [|exact X].
  exact no_key_no_submission.
Qed.

Lemma restore_objects_broken_listing c bucket max_keys prefix threads days start_after
    start_index object_count w pre bad rest e :
  cos_cli w = Some c ->
  truthy_opt prefix = true \/ max_keys <> 0 ->
  paginate c (server w) (listing_params bucket max_keys prefix start_after)
  = pre ++ bad :: rest ->
  complete_listing pre -> 0 < threads \/ pre = [] ->
  page_failure bad = Some e ->
  exists w' l,
    restore_objects asctime bucket max_keys prefix threads days start_after start_index
      object_count w = (Ok None, w') /\
    submitted l w w' /\
    map fst l = archived_keys (listed_objects pre) /\
    map snd l = Zseq (start_index + 1) (length l) /\
    last (stdout w') = Some (failure_message e).
Proof.
  intros Hc Hp Hpages Hcl Hthr Hbad.
  destruct (restore_objects_forward c bucket max_keys prefix threads days start_after
              start_index object_count w Hc Hp) as (w0 & X0 & ->).
  rewrite Hpages.
  destruct (restore_pages_breaks bucket threads days pre bad rest e (mkStatus 0 0 0)
              (start_index + 1) w0 Hcl Hthr Hbad) as (w1 & l & -> & Hsub & Hk & Hi).
  unfold after_pages.
  destruct (listing_failed_run e w1) as (w' & -> & X1 & Hout).
  exists w', l. split; [reflexivity|]. split; [|split; [assumption|split; [assumption|]]].
  - eapply submitted_pre; [exact X0|]. eapply submitted_post; eassumption.
  - rewrite Hout. apply last_snoc.
Qed.

Lemma restore_objects_no_workers c bucket max_keys prefix threads days start_after
    start_index object_count w objects rest :
  cos_cli w = Some c ->
  truthy_opt prefix = true \/ max_keys <> 0 ->
  paginate c (server w) (listing_params bucket max_keys prefix start_after)
  = inr (mkPage (Some objects)) :: rest ->
  threads <= 0 ->
  exists w',
    restore_objects asctime bucket max_keys prefix threads days start_after start_index
      object_count w = (Ok None, w') /\
    extends asctime no_key w w' /\
    last (stdout w')
    = Some (failure_message (Exception "ValueError" "max_workers must be greater than 0")).
Proof.
  intros Hc Hp Hpages Hthr.
  destruct (restore_objects_forward c bucket max_keys prefix threads days start_after
              start_index object_count w Hc Hp) as (w0 & X0 & ->).
  rewrite Hpages. cbn [restore_pages]. unfold bind.
  destruct (restore_page_run asctime bucket threads days (mkPage (Some objects))
              (mkStatus 0 0 0) (start_index + 1) w0)
    as [(e' & E & _)|(objects' & st1 & w1 & evs1 & _ & Hgt & _)]; [|lia].
  assert (e' = Exception "ValueError" "max_workers must be greater than 0") as ->.
  { unfold restore_page, ThreadPoolExecutor in E. cbn [Contents] in E.
    destruct (Z.leb_spec threads 0); [|lia]. now injection E as <-. }
  rewrite E. unfold after_pages.
  destruct (listing_failed_run (Exception "ValueError" "max_workers must be greater than 0")
              w0) as (w' & -> & X1 & Hout).
  exists w'. split; [reflexivity|]. split.
  - eapply extends_trans; [exact X0|exact X1].
  - rewrite Hout. apply last_snoc.
Qed.

Lemma restore_objects_zero_page_size c bucket prefix threads days start_after start_index
    object_count w :
  cos_cli w = Some c ->
  truthy_opt prefix = false ->
  exists w',
    restore_objects asctime bucket 0 prefix threads days start_after start_index
      object_count w = (Ok None, w') /\
    extends asctime no_key w w' /\
    last (stdout w')
    = Some (failure_message (Exception "ZeroDivisionError" "division by zero")).
Proof.
  intros Hc Hp. unfold restore_objects.
  assert (exists message,
            (if negb (truthy start_after)
             then logging_info asctime _ else logging_info asctime _)
            = logging_log (Server := Server) asctime "INFO" message) as (message & ->).
  { destruct (negb (truthy start_after)); now eexists. }
  destruct (logging_log_run asctime "INFO" message w) as (w1 & E1 & Hc1 & Hs1 & _).
  rewrite (bind_Ok _ _ _ _ _ E1).
  pose proof (extends_step no_key w w1 _ _
                (steps_logging_log asctime no_key "INFO" message eq_refl) E1) as X1.
  rewrite <- Hc1 in Hc.
  set (w2 := add_event Server (EvPaginate (mkListParams bucket None 0 start_after)) w1).
  assert (E2 : restore_objects_try asctime bucket 0 prefix threads days start_after
                 start_index object_count w1
               = (Raise (Err (Exception "ZeroDivisionError" "division by zero")), w2)).
  { unfold restore_objects_try.
    rewrite (bind_Ok _ _ _ _ _ (get_cos_cli_Ok c w1 Hc)).
    apply bind_Raise. unfold list_pages. rewrite Hp. cbn [negb].
    rewrite (bind_Ok _ _ _ _ _ (cos_paginate_Ok c _ w1 Hc)). fold w2.
    apply bind_Raise. unfold page_count_no_prefix, ceil_div. cbn.
    now destruct (negb (truthy start_after)). }
  rewrite (try_except_Err _ _ _ _ _ E2).
  destruct (listing_failed_run (Exception "ZeroDivisionError" "division by zero") w2)
    as (w' & -> & X3 & Hout).
  exists w'. split; [reflexivity|]. split.
  - eapply extends_trans; [exact X1|].
    eapply extends_trans; [|exact X3].
    now apply (extends_event asctime no_key w1 _
                 (EvPaginate (mkListParams bucket None 0 start_after))).
  - rewrite Hout. apply last_snoc.
Qed.

End Runs.

(** X9.  A listing that breaks after some whole pages, by an exception of the
    paginator or by a page without contents: [restore_objects] has
    submitted the archived objects of the whole pages, in order and with
    consecutive indices, yet it returns [None], not their status; the last
    thing it prints is the message for the exception. *)
Theorem restore_objects_loses_status_of_broken_listing :
  forall Server asctime (c : Client Server) bucket max_keys prefix threads days start_after
         start_index object_count (w : World Server) pre bad rest e,
    cos_cli w = Some c ->
    truthy_opt prefix = true \/ max_keys <> 0 ->
    paginate c (server w) (listing_params bucket max_keys prefix start_after)
    = pre ++ bad :: rest ->
    complete_listing pre -> 0 < threads \/ pre = [] ->
    page_failure bad = Some e ->
    exists w' l,
      restore_objects asctime bucket max_keys prefix threads days start_after start_index
        object_count w = (Ok None, w') /\
      submitted l w w' /\
      map fst l = archived_keys (listed_objects pre) /\
      map snd l = Zseq (start_index + 1) (length l) /\
      last (stdout w') = Some (failure_message e).
Proof.
  intros Server asctime c bucket max_keys prefix threads days start_after start_index
    object_count w pre bad rest e.
  apply restore_objects_broken_listing.
Qed.

(** X10.  Parameters the loop cannot work with.  A worker count of zero or
    less, which main lets through, makes [restore_objects] give up at the
    first page; a page size of zero without a prefix makes it give up
    before the first page.  In both cases no object is submitted, probed
    or restored, a message is printed and the result is [None]. *)
Theorem restore_objects_unusable_parameters :
  forall Server asctime (c : Client Server) bucket prefix threads days start_after start_index
         object_count (w : World Server),
    cos_cli w = Some c ->
    (forall max_keys objects rest,
       truthy_opt prefix = true \/ max_keys <> 0 ->
       paginate c (server w) (listing_params bucket max_keys prefix start_after)
       = inr (mkPage (Some objects)) :: rest ->
       threads <= 0 ->
       exists w' evs,
         restore_objects asctime bucket max_keys prefix threads days start_after start_index
           object_count w = (Ok None, w') /\
         events w' = events w ++ evs /\ Forall no_key evs /\
         last (stdout w')
         = Some (failure_message
                   (Exception "ValueError" "max_workers must be greater than 0"))) /\
    (truthy_opt prefix = false ->
     exists w' evs,
       restore_objects asctime bucket 0 prefix threads days start_after start_index
         object_count w = (Ok None, w') /\
       events w' = events w ++ evs /\ Forall no_key evs /\
       last (stdout w')
       = Some (failure_message (Exception "ZeroDivisionError" "division by zero"))).
Proof.
  intros Server asctime c bucket prefix threads days start_after start_index object_count w Hc.
  split.
  - intros max_keys objects rest Hp Hpages Hthr.
    destruct (restore_objects_no_workers asctime c bucket max_keys prefix threads days
                start_after start_index object_count w objects rest Hc Hp Hpages Hthr)
      as (w' & E & X & Hout).
    apply extends_events in X as (evs & He & HP). now exists w', evs.
  - intros Hp.
    destruct (restore_objects_zero_page_size asctime c bucket prefix threads days
                start_after start_index object_count w Hc Hp) as (w' & E & X & Hout).
    apply extends_events in X as (evs & He & HP). now exists w', evs.
Qed.

Lemma restore_objects_unusable_parameters_witness :
  exists w' evs,
    restore_objects Scenario.asctime "bucket" 10 None 0 5 EmptyString (-1) 3 Scenario.archived
    = (Ok None, w') /\
    events w' = events Scenario.archived ++ evs /\ Forall no_key evs /\
    last (stdout w')
    = Some (failure_message (Exception "ValueError" "max_workers must be greater than 0")).
Proof.
  apply (proj1 (restore_objects_unusable_parameters _ Scenario.asctime
                  (Scenario.client Scenario.three_objects) "bucket" None 0 5 EmptyString (-1)
                  3 Scenario.archived eq_refl) 10
           [mkObject "a/001.bin" "GLACIER"; mkObject "a/002.bin" "STANDARD";
            mkObject "a/003.bin" "ACCELERATED"] []).
  - right. lia.
  - reflexivity.
  - lia.
Defined.

Lemma restore_objects_loses_status_of_broken_listing_witness :
  exists w' l,
    restore_objects Scenario.asctime "bucket" 10 None 2 5 EmptyString (-1) 3 connected_broken
    = (Ok None, w') /\
    submitted l connected_broken w' /\
    map fst l = ["a/001.bin"; "a/003.bin"] /\
    map snd l = Zseq (-1 + 1) (length l) /\
    last (stdout w')
    = Some (failure_message
              (ClientError "An error occurred (AccessDenied) when calling the ListObjectsV2 operation: Access Denied")).
Proof.
  apply (restore_objects_loses_status_of_broken_listing _ Scenario.asctime
           (Scenario.client broken_after_one_page) "bucket" 10 None 2 5 EmptyString (-1) 3
           connected_broken Scenario.three_objects
           (inl (ClientError "An error occurred (AccessDenied) when calling the ListObjectsV2 operation: Access Denied"))
           []).
  - reflexivity.
  - right. lia.
  - reflexivity.
  - repeat constructor. now eexists.
  - left. lia.
  - reflexivity.
Defined.

Section Keys.
Context {Server : Type}.
Variable asctime : nat -> string.
Implicit Types (w : World Server) (P : Event -> Prop).

Lemma steps_restore_pages_keys P bucket threads days pages status index :
  (forall key, In key (archived_keys (listed_objects pages)) ->
     P (EvHead bucket key) /\ P (EvRestore bucket key days) /\ forall i, P (EvSubmit key i)) ->
  (forall levelname message, P (EvLog levelname message)) ->
  steps asctime P (restore_pages (Server := Server) asctime bucket threads days pages status index).
Proof.
  intros Hk Hl. revert status index.
  induction pages as [|[e|[[objects|]]] rest IH]; intros status index; cbn [restore_pages].
  - apply steps_ret.
  - apply steps_raise.
  - steps_tac.
    + apply steps_restore_page; [|assumption]. cbn [Contents default].
      intros key Hin. apply Hk. cbn [listed_objects]. rewrite archived_keys_app.
      apply in_or_app. now left.
    + apply IH. intros key Hin. apply Hk. cbn [listed_objects]. rewrite archived_keys_app.
      apply in_or_app. now right.
  - steps_tac.
    + apply steps_restore_page; [|assumption]. cbn [Contents default]. contradiction.
    + apply IH. intros key Hin. now apply Hk.
Qed.

Lemma no_key_about_keys keys (e : Event) : no_key e -> about_keys keys e.
Proof. unfold no_key, about_keys. intros -> key [=]. Qed.

Lemma restore_objects_without_client bucket max_keys prefix threads days start_after
    start_index object_count w :
  cos_cli w = None ->
  extends asctime no_key w
    (snd (restore_objects asctime bucket max_keys prefix threads days start_after start_index
            object_count w)).
Proof.
  intros Hc. unfold restore_objects.
  assert (exists message,
            (if negb (truthy start_after)
             then logging_info asctime _ else logging_info asctime _)
            = logging_log (Server := Server) asctime "INFO" message) as (message & ->).
  { destruct (negb (truthy start_after)); now eexists. }
  destruct (logging_log_run asctime "INFO" message w) as (w1 & E1 & Hc1 & Hs1 & _).
  rewrite (bind_Ok _ _ _ _ _ E1).
  pose proof (extends_step asctime no_key w w1 _ _
                (steps_logging_log asctime no_key "INFO" message eq_refl) E1) as X1.
  rewrite <- Hc1 in Hc.
  assert (E2 : restore_objects_try asctime bucket max_keys prefix threads days start_after
                 start_index object_count w1
               = (Raise (Err (Exception "NameError" "name 'cos_cli' is not defined")), w1)).
  { unfold restore_objects_try. apply bind_Raise. unfold get_cos_cli. now rewrite Hc. }
  rewrite (try_except_Err _ _ _ _ _ E2).
  destruct (listing_failed_run asctime
              (Exception "NameError" "name 'cos_cli' is not defined") w1)
    as (w' & -> & X3 & _).
  eapply extends_trans; eassumption.
Qed.

Lemma restore_objects_about_listed c bucket max_keys prefix threads days start_after
    start_index object_count w :
  cos_cli w = Some c ->
  extends asctime
    (about_keys
       (archived_keys
          (listed_objects
             (paginate c (server w) (listing_params bucket max_keys prefix start_after)))))
    w
    (snd (restore_objects asctime bucket max_keys prefix threads days start_after start_index
            object_count w)).
Proof.
  intros Hc.
  destruct (truthy_opt prefix) eqn:Hp; [|destruct (Z.eq_dec max_keys 0) as [->|Hm]].
  2:{ destruct (restore_objects_zero_page_size asctime c bucket prefix threads days
                  start_after start_index object_count w Hc Hp) as (w' & -> & X & _).
      eapply extends_mono; [apply no_key_about_keys|exact X]. }
  all: (destruct (restore_objects_forward asctime c bucket max_keys prefix threads days
                    start_after start_index object_count w Hc ltac:(auto)) as (w0 & X0 & ->);
        set (pages := paginate c (server w) (listing_params bucket max_keys prefix start_after));
        pose proof (steps_restore_pages_keys
                      (about_keys (archived_keys (listed_objects pages)))
                      bucket threads days pages (mkStatus 0 0 0) (start_index + 1)
                      ltac:(intros key Hin; repeat split; [intros k [= <-]..|intros i k [= <-]];
                            assumption)
                      ltac:(intros l m k [=]) w0) as X1;
        eapply extends_trans;
          [eapply extends_mono; [apply no_key_about_keys|exact X0]|];
        destruct (restore_pages asctime bucket threads days pages _ _ w0)
          as [[st|[e|code]] w1]; cbn [snd after_pages] in *; try exact X1;
        eapply extends_trans; [exact X1|];
        destruct (listing_failed_run asctime e w1) as (w' & -> & X3 & _);
        eapply extends_mono; [apply no_key_about_keys|exact X3]).
Qed.

End Keys.

(** X11.  Whatever the outcome of a run of [restore_objects], every task, probe
    and restore request of it is about an archived object of the listing
    the client returned; without a client there is none. *)
Theorem restore_objects_touches_listed_archived_only :
  forall Server asctime bucket max_keys prefix threads days start_after start_index
         object_count (w : World Server),
  exists evs,
    events (snd (restore_objects asctime bucket max_keys prefix threads days start_after
                   start_index object_count w)) = events w ++ evs /\
    forall e key,
      In e evs -> event_key e = Some key ->
      exists c obj,
        cos_cli w = Some c /\
        In obj (listed_objects
                  (paginate c (server w) (listing_params bucket max_keys prefix start_after)))
        /\ Key obj = key /\ is_archived obj = true.
Proof.
  intros Server asctime bucket max_keys prefix threads days start_after start_index
    object_count w.
  destruct (cos_cli w) as [c|] eqn:Hc.
  - destruct (extends_events asctime _ _ _
                (restore_objects_about_listed asctime c bucket max_keys prefix threads days
                   start_after start_index object_count w Hc)) as (evs & He & HP).
    exists evs. split; [assumption|]. intros e key Hin Hk.
    rewrite List.Forall_forall in HP.
    destruct (proj1 (in_archived_keys _ key) (HP e Hin key Hk)) as (obj & Ho & Hkey & Ha).
    now exists c, obj.
  - destruct (extends_events asctime _ _ _
                (restore_objects_without_client asctime bucket max_keys prefix threads days
                   start_after start_index object_count w Hc)) as (evs & He & HP).
    exists evs. split; [assumption|]. intros e key Hin Hk.
    rewrite List.Forall_forall in HP. specialize (HP e Hin). unfold no_key in HP. congruence.
Qed.

Section NoObjects.
Context {Server : Type}.
Variable asctime : nat -> string.
Variable ibm_boto3_client : string -> string -> Z -> string -> Client Server.
Variable get_bucket_config : Server -> string -> string -> py_exception + option Z.
Implicit Types (w : World Server).

(** The start of [main_run], up to the count of the objects. *)
Lemma main_run_login args last_object last_index w :
  exists w5 message,
    server w5 = server w /\
    events w5 = events w ++ [EvLog "INFO" message] /\
    stdout w5 = stdout w ++ ["Login to IBM Cloud Object Storage..." +:+ " ";
                             Fore_GREEN +:+ "OK" +:+ nl; Style_RESET_ALL +:+ nl] /\
    main_run asctime ibm_boto3_client get_bucket_config args last_object last_index w
    = bind (total_objects asctime get_bucket_config args)
        (fun object_count =>
           bind (restore_objects asctime (bucket args) (size args) (prefix args) (threads args)
                   (days args) last_object last_index object_count)
             (fun status =>
                print ("All restore are completed, status: " +:+ str_opt_status status)))
        w5.
Proof.
  eexists _, _. split; [|split; [|split; [|reflexivity]]].
  - reflexivity.
  - reflexivity.
  - cbn. now rewrite <- !app_assoc.
Qed.

Lemma total_objects_none args n w :
  truthy_opt (prefix args) = false ->
  get_bucket_config (server w) (bucket args) (apikey args) = inr (Some n) ->
  n < 1 ->
  exists w',
    total_objects asctime get_bucket_config args w = (Raise (SystemExit 1), w') /\
    events w' = events w ++ [EvLog "INFO" ("Number of objects into the bucket: " +:+ str_int n)] /\
    stdout w' = stdout w ++ [Fore_RED +:+ "Unable to retrieve total objects." +:+ nl;
                             Style_RESET_ALL +:+ nl].
Proof.
  intros Hp Hg Hn. unfold total_objects, get_object_count, rc_get_bucket_config.
  rewrite Hp. cbn [negb]. unfold bind at 1. unfold bind at 1. rewrite Hg. cbn [of_sum].
  unfold bind at 1. unfold logging_info, logging_log. cbn [ret].
  destruct (Z.ltb_spec n 1); [|lia].
  eexists. split; [reflexivity|]. split; [reflexivity|]. cbn. now rewrite <- app_assoc.
Qed.

End NoObjects.

(** X12.  A bucket whose count of objects is below one, and no prefix: main
    prints that the total cannot be retrieved and exits with 1.  It has
    logged the login and the count, and has asked for no listing. *)
Theorem main_stops_without_objects :
  forall Server asctime ibm_boto3_client get_bucket_config (args : Args) (w : World Server)
         last_object last_index n,
    (threads args >? size args) = false ->
    resume_point args w = (Ok (last_object, last_index), w) ->
    truthy_opt (prefix args) = false ->
    get_bucket_config (server w) (bucket args) (apikey args) = inr (Some n) ->
    n < 1 ->
    let r := main asctime ibm_boto3_client get_bucket_config args w in
    fst r = Raise (SystemExit 1) /\
    (exists message,
       events (snd r)
       = events w ++ [EvLog "INFO" message;
                      EvLog "INFO" ("Number of objects into the bucket: " +:+ str_int n)]) /\
    last (stdout (snd r)) = Some (Style_RESET_ALL +:+ nl) /\
    In (Fore_RED +:+ "Unable to retrieve total objects." +:+ nl) (stdout (snd r)).
Proof.
  intros Server asctime ibm_boto3_client get_bucket_config args w last_object last_index n
    Ht Hr Hp Hg Hn. cbv zeta.
  rewrite (main_after_resume asctime ibm_boto3_client get_bucket_config args w last_object
             last_index w Ht Hr).
  set (w2 := snd (logging_basicConfig (log_file args) w)).
  assert (Hs2 : server w2 = server w /\ events w2 = events w).
  { subst w2. unfold logging_basicConfig. now destruct (logging_file w). }
  destruct Hs2 as [Hs2 He2].
  destruct (main_run_login asctime ibm_boto3_client get_bucket_config args last_object
              last_index w2) as (w5 & message & Hs5 & He5 & Ho5 & ->).
  destruct (total_objects_none asctime get_bucket_config args n w5 Hp
              ltac:(now rewrite Hs5, Hs2) Hn) as (w6 & E6 & He6 & Ho6).
  rewrite (bind_Raise _ _ _ _ _ E6). cbn [fst snd].
  split; [reflexivity|]. split; [|split].
  - exists message. rewrite He6, He5, He2. now rewrite <- app_assoc.
  - rewrite Ho6. change [?a; ?b] with ([a] ++ [b]). rewrite !app_assoc. apply last_snoc.
  - rewrite Ho6. apply in_or_app. right. now left.
Qed.

Lemma main_stops_without_objects_witness :
  let r := main Scenario.asctime (fun _ _ _ _ => Scenario.client Scenario.three_objects)
             (fun _ _ _ => inr (Some 0)) (Scenario.args false "unarchive.log")
             (Scenario.process ∅ ∅) in
  fst r = Raise (SystemExit 1) /\
  (exists message,
     events (snd r)
     = events (Scenario.process ∅ ∅)
         ++ [EvLog "INFO" message;
             EvLog "INFO" ("Number of objects into the bucket: " +:+ str_int 0)]) /\
  last (stdout (snd r)) = Some (Style_RESET_ALL +:+ nl) /\
  In (Fore_RED +:+ "Unable to retrieve total objects." +:+ nl) (stdout (snd r)).
Proof.
  apply (main_stops_without_objects _ Scenario.asctime
           (fun _ _ _ _ => Scenario.client Scenario.three_objects)
           (fun _ _ _ => inr (Some 0)) (Scenario.args false "unarchive.log")
           (Scenario.process ∅ ∅) EmptyString (-1) 0).
  - reflexivity.
  - reflexivity.
  - reflexivity.
  - reflexivity.
  - lia.
Defined.

(* ===================================================================== *)
(** ** get_last_n_lines on lines *)
(* ===================================================================== *)

Lemma list_ascii_of_string_app (a b : string) :
  list_ascii_of_string (a +:+ b) = list_ascii_of_string a ++ list_ascii_of_string b.
Proof.
  induction a as [|x a IH]; [reflexivity|].
  rewrite append_cons. cbn. now rewrite IH.
Qed.

















(* ===================================================================== *)
(** ** From a record back to the object *)
(* ===================================================================== *)

(* ----- decimal digits ----- *)

Lemma all_chars_app f (a b : string) : all_chars f a -> all_chars f b -> all_chars f (a +:+ b).
Proof.
  unfold all_chars. intros Ha Hb. induction a as [|x a IH]; [exact Hb|].
  rewrite append_cons. cbn in *. inversion Ha; subst. constructor; auto.
Qed.

Lemma all_chars_replicate f n c : f c = true -> all_chars f (replicate_char n c).
Proof. intros Hc. unfold all_chars. induction n; cbn; constructor; auto. Qed.

Lemma string_of_uint_digits (u : Decimal.uint) :
  all_chars is_digit (NilEmpty.string_of_uint u).
Proof. unfold all_chars. induction u; cbn; constructor; auto. Qed.

Lemma digit_values :
  digit_value "0" = 0 /\ digit_value "1" = 1 /\ digit_value "2" = 2 /\ digit_value "3" = 3 /\
  digit_value "4" = 4 /\ digit_value "5" = 5 /\ digit_value "6" = 6 /\ digit_value "7" = 7 /\
  digit_value "8" = 8 /\ digit_value "9" = 9.
Proof. repeat split; reflexivity. Qed.

Ltac digit_value_tac :=
  let H0 := fresh in let H1 := fresh in let H2 := fresh in let H3 := fresh in
  let H4 := fresh in let H5 := fresh in let H6 := fresh in let H7 := fresh in
  let H8 := fresh in let H9 := fresh in
  destruct digit_values as (H0 & H1 & H2 & H3 & H4 & H5 & H6 & H7 & H8 & H9);
  rewrite ?H0, ?H1, ?H2, ?H3, ?H4, ?H5, ?H6, ?H7, ?H8, ?H9.

Lemma int_of_digits_from_acc (u : Decimal.uint) (acc : positive) :
  int_of_digits_from (Z.pos acc) (NilEmpty.string_of_uint u) = Z.pos (Pos.of_uint_acc u acc).
Proof.
  revert acc. induction u; intros acc;
    cbn [NilEmpty.string_of_uint int_of_digits_from Pos.of_uint_acc];
    [reflexivity|..]; rewrite <- IHu; f_equal; digit_value_tac; lia.
Qed.

Lemma int_of_digits_from_zero (u : Decimal.uint) :
  int_of_digits_from 0 (NilEmpty.string_of_uint u) = Z.of_N (Pos.of_uint u).
Proof.
  induction u; cbn [NilEmpty.string_of_uint int_of_digits_from Pos.of_uint];
    [reflexivity|exact IHu|..];
    cbn [Z.of_N]; rewrite <- int_of_digits_from_acc; f_equal.
Qed.

Lemma to_uint_not_Nil (p : positive) : Pos.to_uint p <> Decimal.Nil.
Proof.
  intros H. pose proof (DecimalPos.Unsigned.of_to p) as E. rewrite H in E. discriminate.
Qed.

(** [int(str(n)) == n] for a natural number. *)
Lemma int_of_digits_str_int (n : Z) : 0 <= n -> int_of_digits (str_int n) = n.
Proof.
  intros Hn. unfold int_of_digits, str_int. destruct n as [|p|p]; [reflexivity| |lia].
  cbn [Z.to_int NilZero.string_of_int]. unfold NilZero.string_of_uint.
  pose proof (to_uint_not_Nil p) as Hp.
  destruct (Pos.to_uint p) as [|u|u|u|u|u|u|u|u|u|u] eqn:E; [contradiction|..];
    rewrite int_of_digits_from_zero, <- E, DecimalPos.Unsigned.of_to; reflexivity.
Qed.

Lemma str_int_digits (n : Z) : 0 <= n -> all_chars is_digit (str_int n) /\ str_int n <> EmptyString.
Proof.
  intros Hn. unfold str_int. destruct n as [|p|p]; [| |lia].
  - split; [repeat constructor|discriminate].
  - cbn [Z.to_int NilZero.string_of_int]. unfold NilZero.string_of_uint.
    pose proof (to_uint_not_Nil p) as Hp.
    destruct (Pos.to_uint p) as [|u|u|u|u|u|u|u|u|u|u] eqn:E; [contradiction|..];
      (split; [apply string_of_uint_digits|discriminate]).
Qed.

Lemma int_of_digits_from_zeros (k : nat) (s : string) :
  int_of_digits_from 0 (replicate_char k "0"%char +:+ s) = int_of_digits_from 0 s.
Proof.
  induction k as [|k IH]; [reflexivity|].
  cbn [replicate_char]. rewrite append_cons. cbn [int_of_digits_from]. exact IH.
Qed.

Lemma length_append (a b : string) :
  String.length (a +:+ b) = (String.length a + String.length b)%nat.
Proof. induction a as [|x a IH]; [reflexivity|]. rewrite append_cons. cbn. now rewrite IH. Qed.

Lemma length_replicate_char (k : nat) (c : ascii) : String.length (replicate_char k c) = k.
Proof. induction k; cbn; auto. Qed.

Lemma fmt_010_nonneg (n : Z) :
  0 <= n ->
  fmt_010 n = replicate_char (10 - String.length (str_int n)) "0"%char +:+ str_int n.
Proof.
  intros Hn. unfold fmt_010. destruct (Z.ltb_spec n 0); [lia|].
  rewrite Z.abs_eq by assumption. reflexivity.
Qed.

Lemma fmt_010_round_trip :
  forall n : Z,
    0 <= n ->
    int_of_digits (fmt_010 n) = n /\
    all_chars is_digit (fmt_010 n) /\
    (10 <= String.length (fmt_010 n))%nat.
Proof.
  intros n Hn. rewrite (fmt_010_nonneg n Hn). split; [|split].
  - unfold int_of_digits. rewrite int_of_digits_from_zeros.
    now apply int_of_digits_str_int.
  - apply all_chars_app; [now apply all_chars_replicate|now apply str_int_digits].
  - rewrite length_append, length_replicate_char. lia.
Qed.

(** X16.  The index of a record, as [restore_object] formats it and as
    [get_last_object] reads it: ten characters or more, all of them
    digits, that give the index back. *)
Theorem index_format_round_trip :
  forall n : Z,
    0 <= n ->
    int_of_digits (fmt_010 n) = n /\
    all_chars is_digit (fmt_010 n) /\
    (10 <= String.length (fmt_010 n))%nat.
Proof. exact fmt_010_round_trip. Qed.

Lemma index_format_round_trip_witness :
  int_of_digits (fmt_010 7) = 7 /\
  all_chars is_digit (fmt_010 7) /\
  (10 <= String.length (fmt_010 7))%nat.
Proof. apply index_format_round_trip. lia. Defined.

(* ----- the matcher ----- *)

Section MatcherLemmas.
Context {R : Type}.
Implicit Types (k : @cont R) (caps : captures).

Lemma match_repeat_prefix (n : nat) (c : cclass) (a rest : string) caps k :
  String.length a = n -> all_chars (cmatch c) a ->
  match_repeat n c (a +:+ rest) caps k = k rest caps.
Proof.
  revert a caps. induction n as [|n IH]; intros [|x a] caps Hl Ha; try discriminate.
  - reflexivity.
  - rewrite append_cons. inversion Ha as [|? ? Hx Ha']; subst.
    cbn [match_repeat match_char]. rewrite Hx. apply IH; [now injection Hl|exact Ha'].
Qed.

Lemma match_digits (n : nat) (a rest : string) caps k :
  digits n a -> match_at (RRepeat n CDigit) (a +:+ rest) caps k = k rest caps.
Proof. intros [Hl Ha]. cbn [match_at]. now apply match_repeat_prefix. Qed.

Lemma match_lit (c : ascii) (s rest : string) caps k :
  match_at (RLit c s) (String c s +:+ rest) caps k = k rest caps.
Proof.
  revert c. induction s as [|d s IH]; intros c; rewrite append_cons;
    cbn [RLit match_at match_char cmatch]; rewrite Ascii.eqb_refl; [reflexivity|].
  apply IH.
Qed.

Lemma match_any (x : ascii) (rest : string) caps k :
  x <> newline -> match_at (RChar CAny) (String x rest) caps k = k rest caps.
Proof.
  intros Hx. cbn [match_at match_char cmatch].
  destruct (Ascii.eqb_spec x newline); [contradiction|reflexivity].
Qed.

Lemma match_level (levelname rest : string) caps k :
  levelname = "INFO" \/ levelname = "WARNING" ->
  match_at (RAlt (RStr "INFO") (RStr "WARNING")) (levelname +:+ rest) caps k = k rest caps.
Proof.
  intros [-> | ->]; cbn [match_at RStr].
  - rewrite match_lit. destruct (k rest caps); reflexivity.
  - rewrite (match_lit "W"). reflexivity.
Qed.

Lemma match_star_lazy_found (c : cclass) (a b : string) caps k (r : R) :
  all_chars (cmatch c) a ->
  (forall x t, In x (list_ascii_of_string a) -> k (String x t) caps = None) ->
  k b caps = Some r ->
  match_star_lazy c (a +:+ b) caps k = Some r.
Proof.
  intros Ha Hfail Hb. induction a as [|x a IH].
  - rewrite append_empty_l. destruct b; cbn [match_star_lazy]; now rewrite Hb.
  - rewrite append_cons. inversion Ha as [|? ? Hx Ha']; subst.
    cbn [match_star_lazy]. rewrite (Hfail x) by now left. rewrite Hx.
    apply IH; [exact Ha'|]. intros y t Hy. apply Hfail. now right.
Qed.

Lemma match_star_none (c : cclass) (b : string) caps k :
  k EmptyString caps = None ->
  (forall x t, In x (list_ascii_of_string b) -> k (String x t) caps = None) ->
  match_star c b caps k = None.
Proof.
  intros He Hfail. induction b as [|x b IH]; [exact He|].
  cbn [match_star]. rewrite IH by (intros y t Hy; apply Hfail; now right).
  rewrite (Hfail x) by now left. now destruct (cmatch c x).
Qed.

Lemma match_star_prefix (c : cclass) (a b : string) caps k (r : R) :
  all_chars (cmatch c) a ->
  match_star c b caps k = Some r ->
  match_star c (a +:+ b) caps k = Some r.
Proof.
  intros Ha Hb. induction a as [|x a IH]; [exact Hb|].
  rewrite append_cons. inversion Ha as [|? ? Hx Ha']; subst.
  cbn [match_star]. now rewrite Hx, (IH Ha').
Qed.

Lemma match_star_here (c : cclass) (x : ascii) (b : string) caps k (r : R) :
  match_star c b caps k = None ->
  k (String x b) caps = Some r ->
  match_star c (String x b) caps k = Some r.
Proof.
  intros Hb Hk. cbn [match_star]. rewrite Hb, Hk. now destruct (cmatch c x).
Qed.

End MatcherLemmas.

Lemma match_star_accepts (c : cclass) (s : string) (caps : captures) :
  match_star c s caps (fun _ caps' => Some caps') = Some caps.
Proof.
  induction s as [|x s IH]; [reflexivity|].
  cbn [match_star]. rewrite IH. now destruct (cmatch c x).
Qed.

Lemma substring_prefix (a b : string) : String.substring 0 (String.length a) (a +:+ b) = a.
Proof.
  induction a as [|x a IH].
  - rewrite append_empty_l. now destruct b.
  - rewrite append_cons. cbn [String.length String.substring]. now rewrite IH.
Qed.

Lemma consumed_prefix (a b : string) : consumed (a +:+ b) b = a.
Proof.
  unfold consumed. rewrite length_append.
  replace (String.length a + String.length b - String.length b)%nat
    with (String.length a) by lia.
  apply substring_prefix.
Qed.

Lemma re_search_here (pattern : regex) (s : string) (caps : captures) :
  match_at pattern s [] (fun _ caps' => Some caps') = Some caps ->
  re_search pattern s = Some caps.
Proof. intros H. destruct s; cbn [re_search]; now rewrite H. Qed.

(* ----- characters ----- *)

Lemma key_char_any (x : ascii) : key_char x = true -> cmatch CAny x = true.
Proof. unfold key_char. cbn [cmatch]. intros H. now apply andb_prop in H as [_ H]. Qed.

Lemma key_char_quote (x : ascii) : key_char x = true -> Ascii.eqb x "'" = false.
Proof.
  unfold key_char. intros H. apply andb_prop in H as [H _].
  now apply negb_true_iff in H.
Qed.

Lemma is_digit_any (x : ascii) : is_digit x = true -> cmatch CAny x = true.
Proof.
  intros H. cbn [cmatch]. destruct (Ascii.eqb_spec x newline); [subst; discriminate|reflexivity].
Qed.

Lemma is_digit_eqb (x y : ascii) : is_digit x = true -> is_digit y = false -> Ascii.eqb x y = false.
Proof. intros Hx Hy. destruct (Ascii.eqb_spec x y); [congruence|reflexivity]. Qed.

Lemma tail_char_any (x : ascii) : tail_char x = true -> cmatch CAny x = true.
Proof. unfold tail_char. cbn [cmatch]. intros H. now apply andb_prop in H as [_ H]. Qed.

Lemma tail_char_paren (x : ascii) : tail_char x = true -> Ascii.eqb x "(" = false.
Proof.
  unfold tail_char. intros H. apply andb_prop in H as [H _].
  now apply negb_true_iff in H.
Qed.

Lemma all_chars_impl (f g : ascii -> bool) (s : string) :
  (forall x, f x = true -> g x = true) -> all_chars f s -> all_chars g s.
Proof. intros H. unfold all_chars. apply List.Forall_impl. exact H. Qed.

Lemma all_chars_In (f : ascii -> bool) (s : string) (x : ascii) :
  all_chars f s -> In x (list_ascii_of_string s) -> f x = true.
Proof. unfold all_chars. rewrite List.Forall_forall. auto. Qed.

(* ----- a record is read back ----- *)

Lemma fmt_010_head (index : Z) :
  0 <= index ->
  exists f0 f, fmt_010 index = String f0 f /\ is_digit f0 = true /\ all_chars is_digit f.
Proof.
  intros Hi. destruct (fmt_010_round_trip index Hi) as (_ & Hd & Hl).
  destruct (fmt_010 index) as [|f0 f]; [cbn in Hl; lia|].
  inversion Hd; subst. eauto.
Qed.

Lemma match_object_record (y mo d h mi s : string) (sep : ascii) (ms levelname key : string)
    (index : Z) (tail : string) :
  digits 4 y -> digits 2 mo -> digits 2 d -> digits 2 h -> digits 2 mi -> digits 2 s ->
  sep <> newline -> digits 3 ms ->
  levelname = "INFO" \/ levelname = "WARNING" ->
  all_chars key_char key -> 0 <= index -> all_chars tail_char tail ->
  match_at LOG_RE_PATTERN
    (object_record (asctime_text y mo d h mi s sep ms) levelname key index tail)
    [] (fun _ caps => Some caps)
  = Some [(2%nat, fmt_010 index); (1%nat, key)].
Proof.
  intros Hy Hmo Hd Hh Hmi Hs Hsep Hms Hlevel Hkey Hindex Htail.
  unfold object_record, asctime_text.
  rewrite !append_assoc, (append_cons sep).
  unfold LOG_RE_PATTERN. cbn [RSeqs RStr match_at].
  rewrite (match_repeat_prefix 4) by apply Hy. rewrite (match_lit "-").
  rewrite (match_repeat_prefix 2) by apply Hmo. rewrite (match_lit "-").
  rewrite (match_repeat_prefix 2) by apply Hd. rewrite (match_lit " ").
  rewrite (match_repeat_prefix 2) by apply Hh. rewrite (match_lit ":").
  rewrite (match_repeat_prefix 2) by apply Hmi. rewrite (match_lit ":").
  rewrite (match_repeat_prefix 2) by apply Hs.
  cbn [match_char cmatch]. destruct (Ascii.eqb_spec sep newline) as [|_]; [contradiction|].
  cbn [negb].
  rewrite (match_repeat_prefix 3) by apply Hms. rewrite (match_lit " ").
  match goal with
  | |- match match_at _ _ _ ?K0 with _ => _ end = _ => set (K := K0)
  end.
  assert (HK : K (" - " +:+ "Object '" +:+ key +:+ "' (index=" +:+ fmt_010 index +:+ ")" +:+ tail) []
               = Some [(2%nat, fmt_010 index); (1%nat, key)]).
  { subst K. cbv beta.
    rewrite <- (append_assoc " - "). change (" - " +:+ "Object '") with " - Object '".
    rewrite (match_lit " ").
    apply match_star_lazy_found.
    - revert Hkey. apply all_chars_impl, key_char_any.
    - intros x t Hx. cbn [RLit match_at match_char cmatch].
      now rewrite (key_char_quote x (all_chars_In _ _ _ Hkey Hx)).
    - rewrite consumed_prefix.
      change ("' (index=" +:+ fmt_010 index +:+ ")" +:+ tail)
        with ("'" +:+ " " +:+ "(index=" +:+ fmt_010 index +:+ ")" +:+ tail).
      rewrite (match_lit "'").
      apply match_star_prefix; [repeat constructor|].
      destruct (fmt_010_head index Hindex) as (f0 & f & Ef & Hf0 & Hf).
      change ("(index=" +:+ fmt_010 index +:+ ")" +:+ tail)
        with (String "(" ("index=" +:+ fmt_010 index +:+ ")" +:+ tail)).
      apply match_star_here.
      + apply match_star_none; [reflexivity|].
        intros x t Hx. cbn [RLit match_at match_char cmatch].
        enough (Ascii.eqb x "(" = false) as -> by reflexivity.
        rewrite Ef in Hx.
        change (list_ascii_of_string ("index=" +:+ String f0 f +:+ ")" +:+ tail))
          with (list_ascii_of_string "index=" ++ list_ascii_of_string (String f0 f +:+ ")" +:+ tail))%list in Hx.
        rewrite !list_ascii_of_string_app in Hx.
        apply in_app_or in Hx as [Hx | Hx];
          [cbn in Hx; intuition (subst; reflexivity)|].
        apply in_app_or in Hx as [Hx | Hx].
        * apply is_digit_eqb; [|reflexivity].
          cbn in Hx. destruct Hx as [<- | Hx]; [exact Hf0|exact (all_chars_In _ _ _ Hf Hx)].
        * apply in_app_or in Hx as [Hx | Hx];
            [cbn in Hx; intuition (subst; reflexivity)|].
          exact (tail_char_paren x (all_chars_In _ _ _ Htail Hx)).
      + change (String "(" ("index=" +:+ fmt_010 index +:+ ")" +:+ tail))
          with ("(index=" +:+ fmt_010 index +:+ ")" +:+ tail).
        rewrite (match_lit "("). rewrite Ef at 1 2. rewrite append_cons.
        cbn [match_char cmatch]. rewrite Hf0.
        apply match_star_lazy_found; [exact Hf| |].
        * intros x t Hx. cbn [RLit match_at match_char cmatch].
          now rewrite (is_digit_eqb x ")" (all_chars_In _ _ _ Hf Hx) eq_refl).
        * rewrite consumed_prefix, <- Ef, (match_lit ")").
          apply match_star_accepts. }
  destruct Hlevel as [-> | ->].
  - rewrite (match_lit "I"), HK. reflexivity.
  - rewrite (match_lit "W"), HK. reflexivity.
Qed.

Section Records.
Context {Server : Type}.
Variable asctime : nat -> string.
Implicit Types (w : World Server).


End Records.

(* ----- lines ----- *)










Lemma first_match_here (line key : string) (index : Z) (older : list string) :
  re_search LOG_RE_PATTERN line = Some [(2%nat, fmt_010 index); (1%nat, key)] ->
  0 <= index ->
  first_match LOG_RE_PATTERN (line :: older) = Some (key, index).
Proof.
  intros H Hi. cbn [first_match]. rewrite H.
  change (Some (key, int_of_digits (fmt_010 index)) = Some (key, index)).
  now rewrite (proj1 (fmt_010_round_trip index Hi)).
Qed.

Lemma search_object_record (ts levelname key : string) (index : Z) (tail : string) :
  well_formed_asctime ts ->
  levelname = "INFO" \/ levelname = "WARNING" ->
  all_chars key_char key -> 0 <= index -> all_chars tail_char tail ->
  re_search LOG_RE_PATTERN (object_record ts levelname key index tail)
  = Some [(2%nat, fmt_010 index); (1%nat, key)].
Proof.
  intros (y & mo & d & h & mi & s & sep & ms & -> & Hy & Hmo & Hd & Hh & Hmi & Hs & Hsep & Hms)
    Hlevel Hkey Hindex Htail.
  apply re_search_here. now apply match_object_record.
Qed.

(** X17.  A record about an object, INFO or WARNING, as [restore_object] writes
    it: the pattern finds it, with the key and the digits of the index as
    its groups, and [get_last_object] reads the key and the index off it,
    whatever the lines after it are.  The key has no quote in it. *)
Theorem log_pattern_reads_object_record :
  forall (ts levelname key : string) (index : Z) (tail : string) (older : list string),
    well_formed_asctime ts ->
    levelname = "INFO" \/ levelname = "WARNING" ->
    all_chars key_char key -> 0 <= index -> all_chars tail_char tail ->
    re_search LOG_RE_PATTERN (object_record ts levelname key index tail)
    = Some [(2%nat, fmt_010 index); (1%nat, key)] /\
    first_match LOG_RE_PATTERN (object_record ts levelname key index tail :: older)
    = Some (key, index).
Proof.
  intros ts levelname key index tail older Hts Hlevel Hkey Hindex Htail.
  pose proof (search_object_record ts levelname key index tail Hts Hlevel Hkey Hindex Htail) as H.
  split; [exact H|]. now apply first_match_here.
Qed.

Lemma scenario_asctime_well_formed (n : nat) : well_formed_asctime (Scenario.asctime n).
Proof.
  exists "2024", "05", "01", "10", "00", "00", ","%char, "000".
  repeat split; solve [reflexivity | repeat constructor | discriminate].
Qed.

Lemma log_pattern_reads_object_record_witness :
  re_search LOG_RE_PATTERN
    (object_record (Scenario.asctime 0) "INFO" "a/001.bin" 6 " has been restored.")
  = Some [(2%nat, fmt_010 6); (1%nat, "a/001.bin")] /\
  first_match LOG_RE_PATTERN
    [object_record (Scenario.asctime 0) "INFO" "a/001.bin" 6 " has been restored."]
  = Some ("a/001.bin", 6).
Proof.
  apply log_pattern_reads_object_record.
  - apply scenario_asctime_well_formed.
  - now left.
  - repeat constructor.
  - lia.
  - repeat constructor.
Defined.


Section ResumePoint.
Context {Server : Type}.
Variable asctime : nat -> string.
Implicit Types (w : World Server).


End ResumePoint.




(* ===================================================================== *)
(** ** get_object_list: the token loop *)
(* ===================================================================== *)

Section ObjectListRuns.
Context {Server : Type}.
Variable asctime : nat -> string.
Variable list_objects_v2 :
  Client Server -> Server -> ListParams -> string -> (py_exception + Response) * Server.
Implicit Types (w : World Server) (c : Client Server).

Lemma object_list_loop_answers c params s token rs s' :
  answers list_objects_v2 c params s token rs s' ->
  forall rounds object_list w,
    server w = s -> (length rs <= rounds)%nat ->
    object_list_loop list_objects_v2 rounds c params token object_list w
    = Some (Ok (object_list ++ List.filter is_archived (response_objects rs)),
            set_server Server s' w).
Proof.
  induction 1 as [s token files next s' Hcall | s token files next s1 rs s' Hcall Hrest IH];
    intros [|rounds] object_list w Hs Hlen; cbn [length] in Hlen; try lia;
    cbn [object_list_loop]; rewrite Hs, Hcall; cbn [RContents IsTruncated NextContinuationToken].
  - unfold response_objects. cbn. now rewrite app_nil_r.
  - rewrite (IH rounds _ (set_server Server s1 w)) by (cbn; auto with lia).
    unfold response_objects. cbn [map concat RContents default from_option id].
    unfold id. rewrite List.filter_app, <- app_assoc. reflexivity.
Qed.

Lemma object_list_loop_endless c params :
  endless list_objects_v2 c params ->
  forall rounds token object_list w,
    object_list_loop list_objects_v2 rounds c params token object_list w = None.
Proof.
  intros Hendless. induction rounds as [|rounds IH]; intros token object_list w; [reflexivity|].
  cbn [object_list_loop].
  destruct (Hendless (server w) token) as (files & next & s' & ->).
  cbn [RContents IsTruncated NextContinuationToken]. apply IH.
Qed.


Lemma listing_params_eq bucket max_keys prefix start_after :
  (if negb (truthy_opt prefix)
   then mkListParams bucket None max_keys start_after
   else mkListParams bucket prefix max_keys start_after)
  = listing_params bucket max_keys prefix start_after.
Proof. unfold listing_params. now destruct (truthy_opt prefix). Qed.

Lemma get_object_list_run c rounds bucket max_keys prefix start_after w :
  cos_cli w = Some c ->
  get_object_list asctime list_objects_v2 rounds bucket max_keys prefix start_after w
  = match object_list_loop list_objects_v2 rounds c
            (listing_params bucket max_keys prefix start_after) EmptyString []
            (snd (logging_info asctime
                    ("Retrieving bucket contents from: '" +:+ bucket +:+ "'") w)) with
    | None => None
    | Some (Ok object_list, w2) => Some (Ok (Some (map Key object_list)), w2)
    | Some (Raise (Err e), w2) => Some (object_list_failed asctime e w2)
    | Some (Raise (SystemExit code), w2) => Some (Raise (SystemExit code), w2)
    end.
Proof.
  intros Hc. unfold get_object_list. rewrite listing_params_eq.
  unfold get_cos_cli. cbn [logging_info logging_log snd cos_cli]. rewrite Hc. reflexivity.
Qed.


End ObjectListRuns.

(** X19.  [get_object_list] against a service that sends a last page: it asks
    with an empty token first and then with the token of the answer
    before, and returns the keys of the archived objects of all the
    answers, in the order of the listing.  One INFO record is logged and
    nothing is printed. *)
Theorem get_object_list_archived_keys :
  forall (Server : Type) (asctime : nat -> string)
         (list_objects_v2 :
            Client Server -> Server -> ListParams -> string -> (py_exception + Response) * Server)
         (c : Client Server) (bucket : string) (max_keys : Z) (prefix : option string)
         (start_after : string) (w : World Server) (rs : list Response) (s' : Server)
         (rounds : nat),
    cos_cli w = Some c ->
    answers list_objects_v2 c (listing_params bucket max_keys prefix start_after)
      (server w) EmptyString rs s' ->
    (length rs <= rounds)%nat ->
    exists w',
      get_object_list asctime list_objects_v2 rounds bucket max_keys prefix start_after w
      = Some (Ok (Some (archived_keys (response_objects rs))), w') /\
      server w' = s' /\
      events w' = events w ++ [EvLog "INFO" ("Retrieving bucket contents from: '" +:+ bucket +:+ "'")] /\
      stdout w' = stdout w.
Proof.
  intros Server asctime list_objects_v2 c bucket max_keys prefix start_after w rs s' rounds
    Hc Hrs Hlen.
  rewrite (get_object_list_run asctime list_objects_v2 c) by exact Hc.
  rewrite (object_list_loop_answers list_objects_v2 c _ _ _ _ _ Hrs) by (cbn; auto).
  eexists. split; [reflexivity|]. cbn. auto.
Qed.

Lemma get_object_list_archived_keys_witness :
  exists w',
    get_object_list Scenario.asctime two_pages 2 "bucket" 10 None EmptyString listing_process
    = Some (Ok (Some (archived_keys
                        (response_objects
                           [mkResponse (Some [mkObject "a/001.bin" "GLACIER";
                                              mkObject "a/002.bin" "STANDARD"])
                              true (Some "page-2");
                            mkResponse (Some [mkObject "a/003.bin" "ACCELERATED"]) false None]))),
            w') /\
    server w' = ∅ /\
    events w' = events listing_process
                  ++ [EvLog "INFO" ("Retrieving bucket contents from: '" +:+ "bucket" +:+ "'")] /\
    stdout w' = stdout listing_process.
Proof.
  apply (get_object_list_archived_keys Scenario.Service Scenario.asctime two_pages
           (Scenario.client [])).
  - reflexivity.
  - eapply answers_more; [reflexivity|]. apply answers_last. reflexivity.
  - cbn. lia.
Defined.

(** X20.  [get_object_list] against a service that never sends a last page:
    the loop does not end, however many rounds it is given. *)
Theorem get_object_list_needs_a_last_page :
  forall (Server : Type) (asctime : nat -> string)
         (list_objects_v2 :
            Client Server -> Server -> ListParams -> string -> (py_exception + Response) * Server)
         (c : Client Server) (bucket : string) (max_keys : Z) (prefix : option string)
         (start_after : string) (w : World Server) (rounds : nat),
    cos_cli w = Some c ->
    endless list_objects_v2 c (listing_params bucket max_keys prefix start_after) ->
    get_object_list asctime list_objects_v2 rounds bucket max_keys prefix start_after w = None.
Proof.
  intros Server asctime list_objects_v2 c bucket max_keys prefix start_after w rounds Hc Hendless.
  rewrite (get_object_list_run asctime list_objects_v2 c) by exact Hc.
  now rewrite (object_list_loop_endless list_objects_v2 c _ Hendless).
Qed.

Lemma get_object_list_needs_a_last_page_witness :
  get_object_list Scenario.asctime same_page_again 1000 "bucket" 10 None EmptyString
    listing_process = None.
Proof.
  apply (get_object_list_needs_a_last_page Scenario.Service Scenario.asctime same_page_again
           (Scenario.client [])).
  - reflexivity.
  - intros s token. eexists _, _, _. reflexivity.
Defined.



(* ===================================================================== *)
(** ** main: the report and the early exits *)
(* ===================================================================== *)

Section Report.
Context {Server : Type}.
Variable asctime : nat -> string.
Variable ibm_boto3_client : string -> string -> Z -> string -> Client Server.
Variable get_bucket_config : Server -> string -> string -> py_exception + option Z.
Implicit Types (w : World Server).

(** The start of [main_run]: the client is the one made for the API key,
    the service instance, the number of workers and the endpoint. *)
Lemma main_run_client args last_object last_index w :
  exists w5,
    server w5 = server w /\
    cos_cli w5 = Some (ibm_boto3_client (apikey args) (crn args) (threads args)
                         (endpoint_url args)) /\
    submitted [] w w5 /\
    main_run asctime ibm_boto3_client get_bucket_config args last_object last_index w
    = bind (total_objects asctime get_bucket_config args)
        (fun object_count =>
           bind (restore_objects asctime (bucket args) (size args) (prefix args) (threads args)
                   (days args) last_object last_index object_count)
             (fun status =>
                print ("All restore are completed, status: " +:+ str_opt_status status)))
        w5.
Proof.
  eexists. split; [|split; [|split; [|reflexivity]]].
  - reflexivity.
  - reflexivity.
  - eexists [_]. split; [reflexivity|reflexivity].
Qed.

Lemma total_objects_some args n w :
  truthy_opt (prefix args) = false ->
  get_bucket_config (server w) (bucket args) (apikey args) = inr (Some n) ->
  1 <= n ->
  exists w',
    total_objects asctime get_bucket_config args w = (Ok n, w') /\
    server w' = server w /\ cos_cli w' = cos_cli w /\ submitted [] w w'.
Proof.
  intros Hp Hg Hn. unfold total_objects, get_object_count, rc_get_bucket_config.
  rewrite Hp. cbn [negb]. unfold bind at 1. unfold bind at 1. rewrite Hg. cbn [of_sum].
  unfold bind at 1. unfold logging_info, logging_log. cbn [ret].
  destruct (Z.ltb_spec n 1); [lia|].
  eexists. split; [reflexivity|]. split; [reflexivity|]. split; [reflexivity|].
  eexists [_]. split; reflexivity.
Qed.

End Report.

(** X22.  A run of main that goes through: no prefix, a bucket that reports
    one object or more, workers between one and the page size, and a
    listing every page of which arrives.  main returns, and the last line
    it prints is the status that [restore_objects] returned; that status
    counts every archived object of the listing once.  The listing is
    that of the client made for the command line, and the tasks are the
    archived keys in the order of the listing, indexed from the resume
    point on. *)
Theorem main_reports_every_archived_object :
  forall Server asctime ibm_boto3_client get_bucket_config (args : Args) (w : World Server)
         last_object last_index n,
    (threads args >? size args) = false ->
    0 < threads args ->
    resume_point args w = (Ok (last_object, last_index), w) ->
    truthy_opt (prefix args) = false ->
    get_bucket_config (server w) (bucket args) (apikey args) = inr (Some n) ->
    1 <= n ->
    complete_listing
      (paginate (ibm_boto3_client (apikey args) (crn args) (threads args) (endpoint_url args))
         (server w) (listing_params (bucket args) (size args) (prefix args) last_object)) ->
    exists st l w',
      main asctime ibm_boto3_client get_bucket_config args w = (Ok tt, w') /\
      last (stdout w')
      = Some ("All restore are completed, status: " +:+ Status_str st +:+ nl) /\
      submitted l w w' /\
      status_total st = Z.of_nat (length l) /\
      map fst l
      = archived_keys
          (listed_objects
             (paginate (ibm_boto3_client (apikey args) (crn args) (threads args)
                          (endpoint_url args))
                (server w) (listing_params (bucket args) (size args) (prefix args) last_object))) /\
      map snd l = Zseq (last_index + 1) (length l).
Proof.
  intros Server asctime ibm_boto3_client get_bucket_config args w last_object last_index n
    Ht Hthreads Hr Hp Hg Hn Hcl.
  rewrite (main_after_resume asctime ibm_boto3_client get_bucket_config args w last_object
             last_index w Ht Hr).
  set (w2 := snd (logging_basicConfig (log_file args) w)).
  assert (Hs2 : server w2 = server w /\ events w2 = events w).
  { subst w2. unfold logging_basicConfig. now destruct (logging_file w). }
  destruct Hs2 as [Hs2 He2].
  destruct (main_run_client asctime ibm_boto3_client get_bucket_config args last_object
              last_index w2) as (w5 & Hs5 & Hc5 & Hsub5 & ->).
  destruct (total_objects_some asctime get_bucket_config args n w5 Hp
              ltac:(now rewrite Hs5, Hs2) Hn) as (w6 & E6 & Hs6 & Hc6 & Hsub6).
  rewrite (bind_Ok _ _ _ _ _ E6).
  assert (Hs : server w6 = server w) by now rewrite Hs6, Hs5, Hs2.
  rewrite Hc5 in Hc6.
  destruct (restore_objects_complete asctime _ (bucket args) (size args) (prefix args)
              (threads args) (days args) last_object last_index n w6 Hc6 Hthreads)
    as (st & w7 & E7).
  { right. rewrite Z.gtb_ltb in Ht. apply Z.ltb_ge in Ht. lia. }
  { now rewrite Hs. }
  destruct (restore_objects_run asctime _ _ _ _ _ _ _ _ _ _ _ E7)
    as (l & Hsub7 & Hidx & Hst).
  destruct (Hst st eq_refl) as (c' & Hc' & _ & Htotal & Hkeys).
  rewrite Hc6 in Hc'. injection Hc' as <-. rewrite Hs in Hkeys.
  rewrite (bind_Ok _ _ _ _ _ E7).
  exists st, l. eexists. split; [reflexivity|]. split; [|split; [|split; [|split]]].
  - cbn. apply last_snoc.
  - destruct Hsub5 as (e5 & He5 & Hl5). destruct Hsub6 as (e6 & He6 & Hl6).
    destruct Hsub7 as (e7 & He7 & Hl7).
    exists (e5 ++ e6 ++ e7). split.
    + cbn. rewrite He7, He6, He5, He2. now rewrite <- !app_assoc.
    + rewrite !submissions_app, Hl5, Hl6, Hl7. reflexivity.
  - exact Htotal.
  - exact Hkeys.
  - exact Hidx.
Qed.

Lemma main_reports_every_archived_object_witness :
  exists st l w',
    main Scenario.asctime (fun _ _ _ _ => Scenario.client Scenario.three_objects)
      (fun _ _ _ => inr (Some 3)) (Scenario.args false "unarchive.log") (Scenario.process ∅ ∅)
    = (Ok tt, w') /\
    last (stdout w')
    = Some ("All restore are completed, status: " +:+ Status_str st +:+ nl) /\
    submitted l (Scenario.process ∅ ∅) w' /\
    status_total st = Z.of_nat (length l) /\
    map fst l = archived_keys (listed_objects Scenario.three_objects) /\
    map snd l = Zseq (-1 + 1) (length l).
Proof.
  apply (main_reports_every_archived_object _ Scenario.asctime
           (fun _ _ _ _ => Scenario.client Scenario.three_objects)
           (fun _ _ _ => inr (Some 3)) (Scenario.args false "unarchive.log")
           (Scenario.process ∅ ∅) EmptyString (-1) 3).
  - reflexivity.
  - reflexivity.
  - reflexivity.
  - reflexivity.
  - reflexivity.
  - lia.
  - repeat constructor. now eexists.
Defined.

Section MainEdges.
Context {Server : Type}.
Variable asctime : nat -> string.
Variable ibm_boto3_client : string -> string -> Z -> string -> Client Server.
Variable get_bucket_config : Server -> string -> string -> py_exception + option Z.
Implicit Types (w : World Server).

Lemma resume_point_empty_key args w last_index :
  resume args = true ->
  get_last_object (fs w) (log_file args) 100 LOG_RE_PATTERN = Ok (Some (EmptyString, last_index)) ->
  resume_point (Server := Server) args w
  = (Raise (SystemExit 1),
     add_stdout Server (Style_RESET_ALL +:+ nl)
       (add_stdout Server
          (Fore_RED +:+ "Resume is not possible. Unable to retrieve last elaborated object from the log."
             +:+ nl) w)).
Proof.
  intros Hr Hg. unfold resume_point, read_last_object. rewrite Hr.
  unfold bind at 1. rewrite Hg. reflexivity.
Qed.

Lemma total_objects_raises args e w :
  truthy_opt (prefix args) = false ->
  get_bucket_config (server w) (bucket args) (apikey args) = inl e ->
  total_objects asctime get_bucket_config args w = (Raise (Err e), w).
Proof.
  intros Hp Hg. unfold total_objects, get_object_count, rc_get_bucket_config.
  rewrite Hp. cbn [negb]. unfold bind at 1. unfold bind at 1. now rewrite Hg.
Qed.

Lemma total_objects_no_count args w :
  truthy_opt (prefix args) = false ->
  get_bucket_config (server w) (bucket args) (apikey args) = inr None ->
  exists w',
    total_objects asctime get_bucket_config args w
    = (Raise (Err (Exception "TypeError"
                     "'<' not supported between instances of 'NoneType' and 'int'")), w') /\
    events w' = events w ++ [EvLog "INFO" "Number of objects into the bucket: None"].
Proof.
  intros Hp Hg. unfold total_objects, get_object_count, rc_get_bucket_config.
  rewrite Hp. cbn [negb]. unfold bind at 1. unfold bind at 1. rewrite Hg. cbn [of_sum].
  eexists. split; reflexivity.
Qed.

End MainEdges.

(** X23.  The record the resume settles on names an object with an empty key:
    main says that resume is not possible and the process ends with
    status 1 before the logging is set up; the log file is as it was, and
    nothing has been logged, listed or restored. *)
Theorem main_resume_not_possible :
  forall Server asctime ibm_boto3_client get_bucket_config (args : Args) (w : World Server)
         last_index,
    (threads args >? size args) = false ->
    resume args = true ->
    get_last_object (fs w) (log_file args) 100 LOG_RE_PATTERN
    = Ok (Some (EmptyString, last_index)) ->
    let r := main asctime ibm_boto3_client get_bucket_config args w in
    fst r = Raise (SystemExit 1) /\
    stdout (snd r)
    = stdout w
        ++ [Fore_RED +:+ "Resume is not possible. Unable to retrieve last elaborated object from the log."
              +:+ nl;
            Style_RESET_ALL +:+ nl] /\
    fs (snd r) = fs w /\ events (snd r) = events w /\ cos_cli (snd r) = cos_cli w.
Proof.
  intros Server asctime ibm_boto3_client get_bucket_config args w last_index Ht Hr Hg. cbv zeta.
  rewrite (main_resume_raises asctime ibm_boto3_client get_bucket_config args w _ _ Ht
             (resume_point_empty_key args w last_index Hr Hg)).
  cbn. rewrite <- app_assoc. auto.
Qed.

Lemma main_resume_not_possible_witness :
  let r := main Scenario.asctime (fun _ _ _ _ => Scenario.client Scenario.three_objects)
             (fun _ _ _ => inr (Some 3)) (Scenario.args true "unarchive.log") empty_key_log in
  fst r = Raise (SystemExit 1) /\
  stdout (snd r)
  = stdout empty_key_log
      ++ [Fore_RED +:+ "Resume is not possible. Unable to retrieve last elaborated object from the log."
            +:+ nl;
          Style_RESET_ALL +:+ nl] /\
  fs (snd r) = fs empty_key_log /\ events (snd r) = events empty_key_log
  /\ cos_cli (snd r) = cos_cli empty_key_log.
Proof.
  apply (main_resume_not_possible _ Scenario.asctime
           (fun _ _ _ _ => Scenario.client Scenario.three_objects)
           (fun _ _ _ => inr (Some 3)) (Scenario.args true "unarchive.log") empty_key_log 4).
  - reflexivity.
  - reflexivity.
  - vm_compute. reflexivity.
Defined.

(** X24.  No count of the objects, and no prefix: when the bucket configuration
    service raises, the exception leaves main; when its answer has no
    object count, the comparison of the count raises a [TypeError].  In
    both runs the process ends with status 1 after the login, and has
    asked for no listing and no restore. *)
Theorem main_object_count_unavailable :
  forall Server asctime ibm_boto3_client get_bucket_config (args : Args) (w : World Server)
         last_object last_index,
    (threads args >? size args) = false ->
    resume_point args w = (Ok (last_object, last_index), w) ->
    truthy_opt (prefix args) = false ->
    let r := main asctime ibm_boto3_client get_bucket_config args w in
    (forall e,
       get_bucket_config (server w) (bucket args) (apikey args) = inl e ->
       fst r = Raise (Err e) /\ exit_status (fst r) = 1 /\
       exists message, events (snd r) = events w ++ [EvLog "INFO" message]) /\
    (get_bucket_config (server w) (bucket args) (apikey args) = inr None ->
     fst r = Raise (Err (Exception "TypeError"
                           "'<' not supported between instances of 'NoneType' and 'int'")) /\
     exit_status (fst r) = 1 /\
     exists message,
       events (snd r)
       = events w ++ [EvLog "INFO" message;
                      EvLog "INFO" "Number of objects into the bucket: None"]).
Proof.
  intros Server asctime ibm_boto3_client get_bucket_config args w last_object last_index
    Ht Hr Hp. cbv zeta.
  rewrite (main_after_resume asctime ibm_boto3_client get_bucket_config args w last_object
             last_index w Ht Hr).
  set (w2 := snd (logging_basicConfig (log_file args) w)).
  assert (Hs2 : server w2 = server w /\ events w2 = events w).
  { subst w2. unfold logging_basicConfig. now destruct (logging_file w). }
  destruct Hs2 as [Hs2 He2].
  destruct (main_run_login asctime ibm_boto3_client get_bucket_config args last_object
              last_index w2) as (w5 & message & Hs5 & He5 & Ho5 & ->).
  split.
  - intros e Hg.
    rewrite (bind_Raise _ _ _ _ _
               (total_objects_raises asctime get_bucket_config args e w5 Hp
                  ltac:(now rewrite Hs5, Hs2))).
    cbn [fst snd exit_status]. repeat split. exists message. now rewrite He5, He2.
  - intros Hg.
    destruct (total_objects_no_count asctime get_bucket_config args w5 Hp
                ltac:(now rewrite Hs5, Hs2)) as (w6 & E6 & He6).
    rewrite (bind_Raise _ _ _ _ _ E6). cbn [fst snd exit_status]. repeat split.
    exists message. rewrite He6, He5, He2. now rewrite <- app_assoc.
Qed.

Lemma main_object_count_unavailable_witness :
  let r := main Scenario.asctime (fun _ _ _ _ => Scenario.client Scenario.three_objects)
             (fun _ _ _ => inr None) (Scenario.args false "unarchive.log")
             (Scenario.process ∅ ∅) in
  fst r = Raise (Err (Exception "TypeError"
                        "'<' not supported between instances of 'NoneType' and 'int'")) /\
  exit_status (fst r) = 1 /\
  exists message,
    events (snd r)
    = events (Scenario.process ∅ ∅)
        ++ [EvLog "INFO" message; EvLog "INFO" "Number of objects into the bucket: None"].
Proof.
  apply (proj2 (main_object_count_unavailable _ Scenario.asctime
                  (fun _ _ _ _ => Scenario.client Scenario.three_objects)
                  (fun _ _ _ => inr None) (Scenario.args false "unarchive.log")
                  (Scenario.process ∅ ∅) EmptyString (-1) eq_refl eq_refl eq_refl)).
  reflexivity.
Defined.
